(** * FDA nozzle V&V scripts: experimental-file parser, sample reader,
      error metrics and jet width

    A shallow embedding of [scripts/vv_utils.py] and of
    [calculate_jet_width] from [scripts/vv_jet_width.py], with the steps
    of the scripts that call them ([Callers]) and the data check and the
    sync of the master script [run_all_vv.py] ([Orchestrator]).

    Numbers are IEEE-754 binary64 values (Rocq's primitive [float]), the
    type of a Python [float] and of a numpy [float64].  Text is ASCII
    ([string]).  A Python exception is a value of [exn]; a call that may
    raise returns a [res].

    The scripts call Python's [str] methods and [float], [pathlib] and
    numpy.  These are modelled here as far as the scripts use them:
    [PyStr], [PyFloat], the file tree of [Reader] and [Np].  A file is the
    list of the lines its iterator yields (the parser) or its text (the
    table reader); a path is looked up in a tree of directories whose
    entries come in the order [iterdir] yields them, and a time name is
    one path component. *)

From Stdlib Require Import ZArith QArith Qabs List String Ascii Bool Lia Floats.
From Stdlib Require Uint63.
From stdpp Require Import gmap strings.
Import ListNotations.

Local Open Scope string_scope.
Local Open Scope list_scope.

(** ** Python text primitives *)

Module PyStr.

(** [str.isspace] on one ASCII character: TAB, LF, VT, FF, CR, the four
    separators FS..US, and the space. *)
Definition is_space (c : ascii) : bool :=
  let n := nat_of_ascii c in
  ((9 <=? n)%nat && (n <=? 13)%nat) || ((28 <=? n)%nat && (n <=? 32)%nat).

Definition is_empty (s : string) : bool :=
  match s with EmptyString => true | String _ _ => false end.

Fixpoint lstrip (s : string) : string :=
  match s with
  | EmptyString => EmptyString
  | String c s' => if is_space c then lstrip s' else s
  end.

Fixpoint rstrip (s : string) : string :=
  match s with
  | EmptyString => EmptyString
  | String c s' =>
      let r := rstrip s' in
      if is_space c && is_empty r then EmptyString else String c r
  end.

(** [s.strip()] *)
Definition strip (s : string) : string := rstrip (lstrip s).

(** [s.startswith(p)] *)
Definition startswith (p s : string) : bool := String.prefix p s.

(** [s.replace(a, b)] for a one-character [a]. *)
Fixpoint replace (a : ascii) (b : string) (s : string) : string :=
  match s with
  | EmptyString => EmptyString
  | String c s' =>
      if Ascii.eqb c a then b ++ replace a b s' else String c (replace a b s')
  end.

(** [s.split()]: the maximal runs of non-space characters, in order. *)
Fixpoint split (s : string) : list string :=
  match s with
  | EmptyString => []
  | String c s' =>
      if is_space c then split s'
      else
        match s' with
        | EmptyString => [String c EmptyString]
        | String c' _ =>
            if is_space c' then String c EmptyString :: split s'
            else
              match split s' with
              | t :: ts => String c t :: ts
              | [] => [String c EmptyString]
              end
        end
  end.

(** [c.isdigit()] on one ASCII character. *)
Definition is_digit (c : ascii) : bool :=
  let n := nat_of_ascii c in (48 <=? n)%nat && (n <=? 57)%nat.

Fixpoint all_digits (s : string) : bool :=
  match s with
  | EmptyString => true
  | String c s' => is_digit c && all_digits s'
  end.

(** [s.isdigit()]: at least one character, all of them digits. *)
Definition isdigit (s : string) : bool := negb (is_empty s) && all_digits s.

End PyStr.

Definition TAB : ascii := ascii_of_nat 9.
Definition LF : ascii := ascii_of_nat 10.

(** ** 4.1 Experimental-file parser *)

Module Parser.

(** One stored section: the rows [[r, u]] of [np.array(current_data)]. *)
Definition rows := list (float * float).

(** The loop state of [parse_experimental_file]. *)
Record pstate := mk_pstate {
  data            : gmap string rows;
  current_section : option string;
  current_data    : rows
}.

Definition init : pstate := mk_pstate ∅ None [].

(** Truth value of [current_section]: not [None] and not the empty string. *)
Definition open_section (cs : option string) : option string :=
  match cs with
  | Some s => if PyStr.is_empty s then None else Some s
  | None => None
  end.

(** [if current_section and current_data: data[current_section] = ...] *)
Definition flush (st : pstate) : gmap string rows :=
  match open_section (current_section st), current_data st with
  | Some s, _ :: _ => <[s := current_data st]> (data st)
  | _, _ => data st
  end.

Section WithFloat.

(** Python's [float(token)]: [None] stands for the [ValueError] it raises
    on a token that is not a number. *)
Variable py_float : string -> option float.

(** The [elif] branch on a stripped, non-header line: the row the line
    contributes, if any. *)
Definition row_of_parts (parts : list string) : option (float * float) :=
  match parts with
  | p0 :: p1 :: _ =>
      match py_float p0 with
      | Some r =>
          match py_float p1 with
          | Some u => Some (r, u)
          | None => None            (* except ValueError: pass *)
          end
      | None => None                (* except ValueError: pass *)
      end
  | _ => None                       (* len(parts) < 2 *)
  end.

Definition tokens (line : string) : list string :=
  PyStr.split (PyStr.replace TAB "  " line).

(** A line that opens a section. *)
Definition is_header (raw : string) : bool :=
  PyStr.startswith "plot-" (PyStr.strip raw).

(** The body of the [for line in f] loop. *)
Definition step (st : pstate) (raw : string) : pstate :=
  let line := PyStr.strip raw in
  if PyStr.is_empty line then st
  else if PyStr.startswith "plot-" line then
    mk_pstate (flush st) (Some line) []
  else
    match open_section (current_section st) with
    | Some _ =>
        match row_of_parts (tokens line) with
        | Some row =>
            mk_pstate (data st) (current_section st) (current_data st ++ [row])
        | None => st
        end
    | None => st
    end.

(** [parse_experimental_file], on the lines the file iterator yields. *)
Definition parse_experimental_file (lines : list string) : gmap string rows :=
  flush (fold_left step lines init).

(** The row that a line under an open section appends, if it appends
    one: what [step] does with a line that is no header. *)
Definition row_of_line (raw : string) : option (float * float) :=
  let line := PyStr.strip raw in
  if PyStr.is_empty line then None else row_of_parts (tokens line).

(** The rows of the lines between two headers, in the order of the lines. *)
Definition body_rows (body : list string) : rows := omap row_of_line body.

(** The first two tokens of the line are there and both are numbers. *)
Definition two_numbers (raw : string) : bool :=
  match tokens (PyStr.strip raw) with
  | p0 :: p1 :: _ => bool_decide (is_Some (py_float p0)) && bool_decide (is_Some (py_float p1))
  | _ => false
  end.

(** [lines] holds a section labelled [k]: a header, then the lines [body]
    up to the next header or the end of the file. *)
Definition section_at (lines : list string) (k : string) (body : list string) : Prop :=
  ∃ pre hdr post,
    lines = pre ++ hdr :: body ++ post ∧
    is_header hdr = true ∧ PyStr.strip hdr = k ∧
    Forall (λ l, is_header l = false) body ∧
    (post = [] ∨ ∃ h t, post = h :: t ∧ is_header h = true).

(** The same, with the next header in sight: the section is closed. *)
Definition closed_at (lines : list string) (k : string) (body : list string) : Prop :=
  ∃ pre hdr h t,
    lines = pre ++ hdr :: body ++ h :: t ∧
    is_header hdr = true ∧ PyStr.strip hdr = k ∧
    Forall (λ l, is_header l = false) body ∧ is_header h = true.

(** The section still open at the end of [lines]. *)
Definition open_at (lines : list string) (k : string) (body : list string) : Prop :=
  ∃ pre hdr,
    lines = pre ++ hdr :: body ∧
    is_header hdr = true ∧ PyStr.strip hdr = k ∧
    Forall (λ l, is_header l = false) body.

(** The loop invariant after the lines [ls]. *)
Definition inv (ls : list string) (st : pstate) : Prop :=
  (∀ k rws, data st !! k = Some rws →
     rws ≠ [] ∧ ∃ body, closed_at ls k body ∧ rws = body_rows body) ∧
  match current_section st with
  | None => Forall (λ l, is_header l = false) ls ∧ current_data st = []
  | Some s =>
      PyStr.is_empty s = false ∧
      ∃ body, open_at ls s body ∧ current_data st = body_rows body
  end.

End WithFloat.

End Parser.

(** ** Python's [float] on a token

    The grammar of a floating-point literal (sign, digits with single
    underscores between them, one dot, an exponent, and the words inf,
    infinity and nan in any case), with the decimal rounded once to the
    nearest binary64.  [None] is the [ValueError] of a token outside the
    grammar. *)

Module PyFloat.

Definition lower (c : ascii) : ascii :=
  let n := nat_of_ascii c in
  if (65 <=? n)%nat && (n <=? 90)%nat then ascii_of_nat (n + 32) else c.

Fixpoint lower_str (s : string) : string :=
  match s with
  | EmptyString => EmptyString
  | String c s' => String (lower c) (lower_str s')
  end.

Definition digit_val (c : ascii) : Z := Z.of_nat (nat_of_ascii c - 48).

(** A digit part [digit (["_"] digit)*] read from the front of [s]:
    the digits seen (as a number and a count) and the rest of the text.
    [acc] and [n] hold the digits read so far; [prev] tells whether the
    previous character was a digit. *)
Fixpoint digitpart (s : string) (acc : Z) (n : nat) (prev : bool)
  : option (Z * nat * string) :=
  match s with
  | EmptyString => if prev then Some (acc, n, EmptyString) else None
  | String c s' =>
      if PyStr.is_digit c then digitpart s' (10 * acc + digit_val c)%Z (S n) true
      else if Ascii.eqb c "_" then
        if prev then
          match s' with
          | String c' _ =>
              if PyStr.is_digit c' then digitpart s' acc n false else None
          | EmptyString => None
          end
        else None
      else if prev then Some (acc, n, s) else None
  end.

Definition starts_digit (s : string) : bool :=
  match s with String c _ => PyStr.is_digit c | EmptyString => false end.

(** The sign in front of a number or of an exponent. *)
Definition sign (s : string) : bool * string :=
  match s with
  | String "-" s' => (true, s')
  | String "+" s' => (false, s')
  | _ => (false, s)
  end.

(** The decimal [m * 10^e], [0 < m], rounded once to the nearest binary64
    (ties to even). *)
Definition round_decimal (neg : bool) (m : positive) (e : Z) : spec_float :=
  match e with
  | Zneg k => SFdiv prec emax (S754_finite neg m 0) (S754_finite false (10 ^ k) 0)
  | _ => binary_normalize prec emax (cond_Zopp neg (Zpos m * 10 ^ e)) 0 false
  end.

Definition of_decimal (neg : bool) (m : Z) (e : Z) : float :=
  match m with
  | Zpos p => SF2Prim (round_decimal neg p e)
  | _ => if neg then (-0)%float else 0%float
  end.

(** The optional exponent after the mantissa; the text must end there. *)
Definition exponent (s : string) : option Z :=
  match s with
  | EmptyString => Some 0%Z
  | String c s' =>
      if Ascii.eqb (lower c) "e" then
        let '(neg, s'') := sign s' in
        match digitpart s'' 0 0 false with
        | Some (x, _, EmptyString) => Some (cond_Zopp neg x)
        | _ => None
        end
      else None
  end.

(** [digits [. [digits]]] or [. digits], then the exponent. *)
Definition number (neg : bool) (s : string) : option float :=
  let finish m k rest :=
    match exponent rest with
    | Some e => Some (of_decimal neg m (e - Z.of_nat k))
    | None => None
    end in
  match s with
  | String "." s' =>
      match digitpart s' 0 0 false with
      | Some (m, k, rest) => finish m k rest
      | None => None
      end
  | _ =>
      match digitpart s 0 0 false with
      | Some (m, _, String "." rest) =>
          if starts_digit rest then
            match digitpart rest m 0 false with
            | Some (m', k, rest') => finish m' k rest'
            | None => None
            end
          else finish m 0%nat rest
      | Some (m, _, rest) => finish m 0%nat rest
      | None => None
      end
  end.

(** [float(tok)] for a token without surrounding white space. *)
Definition py_float (tok : string) : option float :=
  let '(neg, s) := sign tok in
  let l := lower_str s in
  if String.eqb l "inf" || String.eqb l "infinity" then
    Some (if neg then neg_infinity else infinity)
  else if String.eqb l "nan" then Some nan
  else number neg s.

End PyFloat.

(** ** Exceptions *)

Inductive exn : Set :=
  | ValueError | IndexError | TypeError
  | FileNotFoundError | NotADirectoryError | IsADirectoryError.

Inductive res (A : Type) : Type :=
  | Ok (a : A)
  | Raise (e : exn).
Arguments Ok {A} a.
Arguments Raise {A} e.

#[global] Instance res_bind : MBind res := fun A B k m =>
  match m with Ok a => k a | Raise e => Raise e end.

(** ** numpy arrays and the numpy calls of the scripts

    [np.sum] of a [float64] array is numpy's pairwise summation
    ([pairwise_sum] of the add loop): fewer than 8 items are added from
    left to right, up to 128 items are added in eight interleaved
    running sums that are then combined two by two, and a longer array
    is cut in two parts that are summed apart.  The reduction starts at
    [-0.0] (at [0.0] before numpy 1.25, which gives another sign of zero
    to a sum of items [-0.0] only; the scripts sum squares, absolute
    values and items that are not zero).  [np.interp] is numpy's
    [binary_search_with_guess]: a scan from the left on up to four
    sample points, and beyond that a look around the index of the
    previous item, then a bisection. *)

Module Np.

Local Open Scope float_scope.

(** A [float64] array of dimension 0, 1 or 2 (rows of equal length
    [ncols]). *)
Inductive ndarray : Type :=
  | Arr0 (x : float)
  | Arr1 (xs : list float)
  | Arr2 (ncols : nat) (rws : list (list float)).

(** [a.size] *)
Definition size (a : ndarray) : nat :=
  match a with
  | Arr0 _ => 1
  | Arr1 xs => length xs
  | Arr2 ncols rws => length rws * ncols
  end.

(** [a[:, j]]: too many indices for an array of dimension below 2, and
    an index out of bounds beyond the last column. *)
Definition column (a : ndarray) (j : nat) : res (list float) :=
  match a with
  | Arr2 ncols rws =>
      if (j <? ncols)%nat then Ok (map (fun rw => nth j rw 0) rws)
      else Raise IndexError
  | _ => Raise IndexError
  end.

(** [a[:, lo:hi]]: a slice is clipped to the columns there are. *)
Definition columns (a : ndarray) (lo hi : nat) : res (list (list float)) :=
  match a with
  | Arr2 _ rws => Ok (map (fun rw => firstn (hi - lo) (skipn lo rw)) rws)
  | _ => Raise IndexError
  end.

(** The text of a file cut at every LF and CR (text mode reads both as
    line ends; the empty lines this adds are skipped by the reader). *)
Fixpoint splitlines (s : string) : list string :=
  match s with
  | EmptyString => [EmptyString]
  | String c s' =>
      if Ascii.eqb c LF || Ascii.eqb c (ascii_of_nat 13)
      then EmptyString :: splitlines s'
      else
        match splitlines s' with
        | l :: ls => String c l :: ls
        | [] => [String c EmptyString]
        end
  end.

(** A line up to its first ["#"]. *)
Fixpoint strip_comment (s : string) : string :=
  match s with
  | EmptyString => EmptyString
  | String c s' =>
      if Ascii.eqb c "#" then EmptyString else String c (strip_comment s')
  end.

Section WithFloat.

Variable py_float : string -> option float.

(** One row of the table: every field converted, [ValueError] on the
    first one that is not a number. *)
Fixpoint convert_row (toks : list string) : res (list float) :=
  match toks with
  | [] => Ok []
  | t :: ts =>
      match py_float t with
      | Some x => xs ← convert_row ts; Ok (x :: xs)
      | None => Raise ValueError
      end
  end.

(** The rows of the table, lines without a field skipped; [ValueError]
    when the number of columns changes. *)
Fixpoint read_rows (ncols : option nat) (lines : list string)
  : res (list (list float)) :=
  match lines with
  | [] => Ok []
  | l :: ls =>
      match PyStr.split (strip_comment l) with
      | [] => read_rows ncols ls
      | toks =>
          rw ← convert_row toks;
          match ncols with
          | Some n =>
              if (length rw =? n)%nat
              then rws ← read_rows ncols ls; Ok (rw :: rws)
              else Raise ValueError
          | None => rws ← read_rows (Some (length rw)) ls; Ok (rw :: rws)
          end
      end
  end.

(** The result of [np.loadtxt]: axes of length one are squeezed away, and
    a text without data gives an empty array. *)
Definition squeeze (rws : list (list float)) : ndarray :=
  match rws with
  | [] => Arr1 []
  | [[x]] => Arr0 x
  | [rw] => Arr1 rw
  | rw :: _ =>
      match rw with
      | [_] => Arr1 (map (fun r => nth 0 r 0) rws)
      | _ => Arr2 (length rw) rws
      end
  end.

(** [np.loadtxt(file)] on the text of the file. *)
Definition loadtxt (content : string) : res ndarray :=
  rws ← read_rows None (splitlines content); Ok (squeeze rws).

End WithFloat.

(** The rational number a finite [float64] stands for. *)
Definition value (x : float) : option Q :=
  match Prim2SF x with
  | S754_zero _ => Some 0%Q
  | S754_finite s m e => Some (inject_Z (cond_Zopp s (Zpos m)) * Qpower 2 e)%Q
  | _ => None
  end.

(** [len(xs)] as the [float64] numpy divides by. *)
Definition float_of_len (n : nat) : float :=
  of_uint63 (Uint63.of_Z (Z.of_nat n)).

(** [r[k] += a[i + k]] on the eight running sums. *)
Fixpoint add_lanes (r xs : list float) : list float :=
  match r, xs with
  | a :: r', x :: xs' => (a + x) :: add_lanes r' xs'
  | _, _ => r
  end.

(** The unrolled loop over [blocks] blocks of eight items: the running
    sums and the items left. *)
Fixpoint lanes (blocks : nat) (r xs : list float) : list float * list float :=
  match blocks with
  | O => (r, xs)
  | S b => lanes b (add_lanes r (firstn 8 xs)) (skipn 8 xs)
  end.

(** [pairwise_sum] on 8 to 128 items: the running sums start at the
    first eight items, are combined two by two, and the items beyond the
    last full block are added one by one. *)
Definition sum_block (xs : list float) : float :=
  let '(r, rest) := lanes (length xs / 8 - 1) (firstn 8 xs) (skipn 8 xs) in
  let res := ((nth 0 r 0 + nth 1 r 0) + (nth 2 r 0 + nth 3 r 0)) +
             ((nth 4 r 0 + nth 5 r 0) + (nth 6 r 0 + nth 7 r 0)) in
  fold_left PrimFloat.add rest res.

(** numpy's [pairwise_sum].  Above 128 items the array is cut at half
    its length, rounded down to a multiple of 8; [fuel] bounds the depth
    of the cuts, and the length of the array is enough of it. *)
Fixpoint pairwise_sum (fuel : nat) (xs : list float) : float :=
  let n := length xs in
  if (n <? 8)%nat then fold_left PrimFloat.add xs (-0)
  else if (n <=? 128)%nat then sum_block xs
  else
    match fuel with
    | O => nan
    | S fuel' =>
        let n2 := (n / 2 - Nat.modulo (n / 2) 8)%nat in
        pairwise_sum fuel' (firstn n2 xs) + pairwise_sum fuel' (skipn n2 xs)
    end.

(** [np.sum(xs)]: [0.0] for the empty array. *)
Definition sum (xs : list float) : float :=
  match xs with
  | [] => 0
  | _ :: _ => -0 + pairwise_sum (length xs) xs
  end.

(** [np.mean(xs)] *)
Definition mean (xs : list float) : float := sum xs / float_of_len (length xs).

(** [np.maximum(a, b)], which lets a NaN through. *)
Definition maximum (a b : float) : float :=
  if (b <=? a) || is_nan a then a else b.

(** [np.max(xs)] of a non-empty array: the greatest item, or a NaN when
    there is one.  The scripts take it of absolute values, where the
    order of the comparisons does not change it. *)
Definition max (xs : list float) : float :=
  match xs with
  | [] => nan
  | x :: xs' => fold_left maximum xs' x
  end.

(** [np.any(mask)] *)
Definition any (mask : list bool) : bool := existsb (fun b => b) mask.

(** [xs[mask]]: the items where the mask holds; the mask must be as long
    as the array. *)
Fixpoint select_items (mask : list bool) (xs : list float) : list float :=
  match mask, xs with
  | b :: mask', x :: xs' =>
      if b then x :: select_items mask' xs' else select_items mask' xs'
  | _, _ => []
  end.

Definition select (mask : list bool) (xs : list float) : res (list float) :=
  if (length mask =? length xs)%nat then Ok (select_items mask xs)
  else Raise IndexError.

(** [np.argmin(xs)] of a non-empty array: the first index of the least
    item, or of the first NaN. *)
Fixpoint argmin_from (xs : list float) (i : nat) (mp : float) (ind : nat) : nat :=
  match xs with
  | [] => ind
  | x :: xs' =>
      if negb (mp <=? x) then
        if is_nan x then i else argmin_from xs' (S i) x i
      else argmin_from xs' (S i) mp ind
  end.

Definition argmin (xs : list float) : nat :=
  match xs with
  | [] => 0%nat
  | x :: xs' => if is_nan x then 0%nat else argmin_from xs' 1 x 0
  end.

(** [arr[i]] at an index in range. *)
Definition get (arr : list float) (i : Z) : float := nth (Z.to_nat i) arr 0.

(** The scan of [binary_search_with_guess] on up to four sample points:
    the items from index [i] on are passed while they are at most [x];
    the result is the index of the last one passed. *)
Fixpoint search (x : float) (xp : list float) (i : nat) : nat :=
  match xp with
  | [] => (i - 1)%nat
  | a :: xp' => if a <=? x then search x xp' (S i) else (i - 1)%nat
  end.

(** The bisection of [binary_search_with_guess], [imin] when it ends;
    the length of the array is enough [fuel]. *)
Fixpoint bisect (fuel : nat) (key : float) (arr : list float) (imin imax : Z) : Z :=
  match fuel with
  | O => imin
  | S fuel' =>
      if (imin <? imax)%Z then
        let imid := (imin + (imax - imin) / 2)%Z in
        if get arr imid <=? key then bisect fuel' key arr (imid + 1)%Z imax
        else bisect fuel' key arr imin imid
      else imin
  end.

(** numpy's [binary_search_with_guess]: [-1] below the first sample
    point, the length above the last one. *)
Definition binary_search_with_guess (key : float) (arr : list float) (guess : Z) : Z :=
  let len := Z.of_nat (length arr) in
  if get arr (len - 1) <? key then len
  else if key <? get arr 0 then (-1)%Z
  else if (len <=? 4)%Z then Z.of_nat (search key (tl arr) 1)
  else
    let guess := if (len - 3 <? guess)%Z then (len - 3)%Z else guess in
    let guess := if (guess <? 1)%Z then 1%Z else guess in
    if key <? get arr guess then
      if key <? get arr (guess - 1) then
        let imin :=
          if (8 <? guess)%Z && (get arr (guess - 8) <=? key) then (guess - 8)%Z
          else 0%Z in
        (bisect (length arr) key arr imin (guess - 1) - 1)%Z
      else (guess - 1)%Z
    else if key <? get arr (guess + 1) then guess
    else if key <? get arr (guess + 2) then (guess + 1)%Z
    else
      let imax :=
        if (guess <? len - 8 - 1)%Z && (key <? get arr (guess + 8)) then (guess + 8)%Z
        else len in
      (bisect (length arr) key arr (guess + 2) imax - 1)%Z.

(** One value of [np.interp] at the index [j] found: flat outside the
    sampled range, linear inside. *)
Definition interp_at (xp fp : list float) (j : Z) (x : float) : float :=
  let len := Z.of_nat (length xp) in
  if (j =? -1)%Z then get fp 0
  else if (j =? len)%Z then get fp (len - 1)
  else if (j =? len - 1)%Z then get fp j
  else if get xp j =? x then get fp j
  else
    let slope := (get fp (j + 1) - get fp j) / (get xp (j + 1) - get xp j) in
    let y := slope * (x - get xp j) + get fp j in
    if is_nan y then
      let y' := slope * (x - get xp (j + 1)) + get fp (j + 1) in
      if is_nan y' && (get fp j =? get fp (j + 1)) then get fp j else y'
    else y.

(** The loop over the items of [x]: the index found for an item is the
    guess for the next one; a NaN is passed on as it is. *)
Fixpoint interp_loop (xp fp : list float) (j : Z) (x : list float) : list float :=
  match x with
  | [] => []
  | x_val :: x' =>
      if is_nan x_val then x_val :: interp_loop xp fp j x'
      else
        let j' := binary_search_with_guess x_val xp j in
        interp_at xp fp j' x_val :: interp_loop xp fp j' x'
  end.

(** [np.interp(x, xp, fp)]: [ValueError] on empty sample points and on
    [fp] of another length, [TypeError] on an [fp] that is [None]; a
    single sample point gives its value everywhere. *)
Definition interp (x xp : list float) (fp : option (list float))
  : res (list float) :=
  match fp with
  | None => Raise TypeError
  | Some fp =>
      match xp with
      | [] => Raise ValueError
      | _ =>
          if (length fp =? length xp)%nat then
            match xp, fp with
            | [_], [fp0] => Ok (map (fun _ => fp0) x)
            | _, _ => Ok (interp_loop xp fp 0 x)
            end
          else Raise ValueError
      end
  end.

End Np.

(** ** 4.2 Simulation-sample reader *)

Module Reader.

Local Open Scope float_scope.

(** What a path names: a regular file with its text, or a directory with
    its entries in the order [iterdir] yields them. *)
#[warnings="-register-all"]
Inductive node : Type :=
  | File (content : string)
  | Dir (entries : list (string * node)).

(** The [time] argument: the default ['latestTime'], or [str(time)], the
    name of one entry of the sampling root. *)
Inductive time_sel : Type :=
  | LatestTime
  | AtTime (name : string).

Definition is_dir (n : node) : bool :=
  match n with Dir _ => true | File _ => false end.

Fixpoint lookup (name : string) (es : list (string * node)) : option node :=
  match es with
  | [] => None
  | (n, x) :: es' => if String.eqb n name then Some x else lookup name es'
  end.

(** [parent / name], when it exists. *)
Definition child (parent : option node) (name : string) : option node :=
  match parent with
  | Some (Dir es) => lookup name es
  | _ => None
  end.

(** [p.iterdir()] *)
Definition iterdir (p : option node) : res (list (string * node)) :=
  match p with
  | None => Raise FileNotFoundError
  | Some (File _) => Raise NotADirectoryError
  | Some (Dir es) => Ok es
  end.

(** The four subdirectories of the example, in the order named. *)
Definition four_times : list (string * node) :=
  [("0", Dir []); ("10", Dir []); ("2.5", Dir []); ("latest_garbage", Dir [])].

(** The number of dots of a name. *)
Fixpoint dots (s : string) : nat :=
  match s with
  | EmptyString => 0
  | String c s' => (if Ascii.eqb c "." then 1 else 0) + dots s'
  end.

(** [[d for d in sample_dir.iterdir() if d.is_dir()]] *)
Definition times (es : list (string * node)) : list (string * node) :=
  filter (λ d, is_dir (snd d) = true) es.

(** What [read_openfoam_sample] returns: [None] stands for the triple
    [(None, None, None)]. *)
Record sample := mk_sample {
  position : list float;
  pressure : list float;
  velocity : list (list float)
}.

Section WithFloat.

Variable py_float : string -> option float.

(** [x.name.replace('.', '').isdigit()] *)
Definition numeric_name (name : string) : bool :=
  PyStr.isdigit (PyStr.replace "." "" name).

(** [lambda x: float(x.name) if x.name.replace('.', '').isdigit() else 0] *)
Definition time_key (name : string) : res float :=
  if numeric_name name then
    match py_float name with
    | Some v => Ok v
    | None => Raise ValueError
    end
  else Ok 0.

(** [max(times, key=...)] after its first item: a later item replaces the
    best one when its key is strictly greater. *)
Fixpoint max_from (best : string * node) (kbest : float)
    (rest : list (string * node)) : res (string * node) :=
  match rest with
  | [] => Ok best
  | d :: rest' =>
      k ← time_key (fst d);
      if kbest <? k then max_from d k rest' else max_from best kbest rest'
  end.

Definition max_by_key (times : list (string * node)) : res (option (string * node)) :=
  match times with
  | [] => Ok None
  | d :: rest => k ← time_key (fst d); best ← max_from d k rest; Ok (Some best)
  end.

(** The time directory the reader goes on with; [None] when it returns
    the not-found triple at this point. *)
Definition select_time_dir (sample_dir : option node) (time : time_sel)
  : res (option (string * node)) :=
  match time with
  | LatestTime =>
      es ← iterdir sample_dir;
      max_by_key (times es)
  | AtTime name =>
      match child sample_dir name with
      | Some n => Ok (Some (name, n))
      | None => Ok None
      end
  end.

Definition xy_name (set_name : string) : string := set_name ++ "_p_U.xy".

Definition read_openfoam_sample (sample_dir : option node) (set_name : string)
    (time : time_sel) : res (option sample) :=
  td ← select_time_dir sample_dir time;
  match td with
  | None => Ok None
  | Some (_, time_dir) =>
      match child (Some time_dir) (xy_name set_name) with
      | None => Ok None
      | Some (Dir _) => Raise IsADirectoryError
      | Some (File content) =>
          data ← Np.loadtxt py_float content;
          if (Np.size data =? 0)%nat then Ok None
          else
            pos ← Np.column data 0;
            p ← Np.column data 1;
            U ← Np.columns data 2 5;
            Ok (Some (mk_sample pos p U))
      end
  end.

(** The text has no data: every line is blank or a comment. *)
Definition no_data (content : string) : Prop :=
  Forall (λ l, PyStr.split (Np.strip_comment l) = []) (Np.splitlines content).

(** The cases in which there is nothing to read: the time directory asked
    for does not exist, no time directory is selected, the table file is
    not in the time directory, or it has no data. *)
Definition not_found (sample_dir : option node) (set_name : string)
    (time : time_sel) : Prop :=
  (∃ name, time = AtTime name ∧ child sample_dir name = None) ∨
  select_time_dir sample_dir time = Ok None ∨
  ∃ d, select_time_dir sample_dir time = Ok (Some d) ∧
       (child (Some (snd d)) (xy_name set_name) = None ∨
        ∃ content, child (Some (snd d)) (xy_name set_name) = Some (File content) ∧
                   no_data content).

End WithFloat.

End Reader.

(** ** 4.3 Error metrics *)

Module Metrics.

Local Open Scope float_scope.

Record metrics := mk_metrics {
  RMSE : float;
  MAE : float;
  R2 : float;
  MaxErr : float;
  NRMSE : float
}.

Definition sq (x : float) : float := x * x.

(** [sim_interp - exp_u_filt] *)
Fixpoint sub_arrays (a b : list float) : list float :=
  match a, b with
  | x :: a', y :: b' => (x - y) :: sub_arrays a' b'
  | _, _ => []
  end.

(** The five metrics of the errors against the kept experimental values. *)
Definition metrics_of (errors exp_u_filt : list float) : metrics :=
  let rmse := sqrt (Np.mean (map sq errors)) in
  let mae := Np.mean (map abs errors) in
  let max_err := Np.max (map abs errors) in
  let ss_res := Np.sum (map sq errors) in
  let m := Np.mean exp_u_filt in
  let ss_tot := Np.sum (map (fun u => sq (u - m)) exp_u_filt) in
  let r2 := if 0 <? ss_tot then 1 - ss_res / ss_tot else nan in
  let peak := Np.max (map abs exp_u_filt) in
  let nrmse := if 0 <? peak then rmse / peak * 100 else nan in
  mk_metrics rmse mae r2 max_err nrmse.

(** [mask = exp_u != 0] *)
Definition nonzero_mask (exp_u : list float) : list bool :=
  map (fun u => negb (u =? 0)) exp_u.

Definition calculate_error_metrics (exp_r exp_u sim_r sim_u : option (list float))
  : res (option metrics) :=
  match sim_r, exp_r with
  | None, _ | Some [], _ | _, None => Ok None
  | Some sim_r, Some exp_r =>
      match exp_u with
      | None => Raise TypeError     (* [None != 0] is [True]; [None[True]] *)
      | Some exp_u =>
          let mask := nonzero_mask exp_u in
          if negb (Np.any mask) then Ok None
          else
            exp_r_filt ← Np.select mask exp_r;
            let exp_u_filt := Np.select_items mask exp_u in
            match Np.interp exp_r_filt sim_r sim_u with
            | Raise _ => Ok None    (* except: return None *)
            | Ok sim_interp =>
                Ok (Some (metrics_of (sub_arrays sim_interp exp_u_filt) exp_u_filt))
            end
      end
  end.

(** The binary64 value next to one tenth, Python's [0.1]. *)
Definition tenth : float := 0x1.999999999999ap-4.

(** Every experimental value is a zero ([0.0] or [-0.0]). *)
Definition all_zero (exp_u : option (list float)) : Prop :=
  ∃ us, exp_u = Some us ∧ Forall (λ u, (u =? 0) = true) us.

(** [np.interp] raises on these sample points: the sampled values are
    absent or of another length. *)
Definition interp_fails (sim_r sim_u : option (list float)) : Prop :=
  ∃ xp, sim_r = Some xp ∧
        (sim_u = None ∨ ∃ fp, sim_u = Some fp ∧ length fp ≠ length xp).

(** The inputs on which the function returns [None]. *)
Definition undefined_input (exp_r exp_u sim_r sim_u : option (list float)) : Prop :=
  sim_r = None ∨ sim_r = Some [] ∨ exp_r = None ∨
  all_zero exp_u ∨ interp_fails sim_r sim_u.

(** The two experimental arrays are one curve: with an abscissa come
    values, as many as there are positions. *)
Definition paired (exp_r exp_u : option (list float)) : Prop :=
  ∀ xs, exp_r = Some xs → ∃ us, exp_u = Some us ∧ length xs = length us.

End Metrics.

(** ** 4.4 Jet width *)

Module Jet.

Local Open Scope float_scope.

(** [u_axial[i]] *)
Definition item (xs : list float) (i : nat) : res float :=
  match nth_error xs i with
  | Some x => Ok x
  | None => Raise IndexError
  end.

(** The [for i in range(len(u_pos) - 1)] loop, on the two masked arrays
    side by side. *)
Fixpoint crossing (u_half : float) (r_pos u_pos : list float) : option float :=
  match r_pos, u_pos with
  | r0 :: (r1 :: _) as r_pos', u0 :: (u1 :: _) as u_pos' =>
      if (u_half <=? u0) && (u1 <? u_half) then
        let t := (u_half - u0) / (u1 - u0) in
        let r_half := r0 + t * (r1 - r0) in
        Some (2 * r_half)
      else crossing u_half r_pos' u_pos'
  | _, _ => None
  end.

Definition calculate_jet_width (r u_axial : option (list float))
  : res (option float) :=
  match r, u_axial with
  | None, _ | _, None => Ok None
  | Some r, Some u_axial =>
      if (length r <? 3)%nat then Ok None
      else
        let center_idx := Np.argmin (map abs r) in
        u_center ← item u_axial center_idx;
        if u_center <=? 0 then Ok None
        else
          let u_half := u_center / 2 in
          let positive_r_mask := map (fun x => 0 <=? x) r in
          let r_pos := Np.select_items positive_r_mask r in
          u_pos ← Np.select positive_r_mask u_axial;
          Ok (crossing u_half r_pos u_pos)
  end.

(** No two neighbours of [u_pos] go from at least [u_half] to below it. *)
Definition no_crossing (u_half : float) (u_pos : list float) : Prop :=
  ∀ (i : nat) (v0 v1 : float),
    nth_error u_pos i = Some v0 → nth_error u_pos (S i) = Some v1 →
    (u_half <=? v0) && (v1 <? u_half) = false.

(** The first index [i] at which the loop of [crossing] returns. *)
Fixpoint crossing_index (u_half : float) (u_pos : list float) : option nat :=
  match u_pos with
  | u0 :: ((u1 :: _) as u_pos') =>
      if (u_half <=? u0) && (u1 <? u_half) then Some 0%nat
      else option_map S (crossing_index u_half u_pos')
  | _ => None
  end.

End Jet.

(** ** The scripts that call the utilities *)

Module Callers.
Import Reader.

Local Open Scope float_scope.

(** [sim_U[:, j]] on the velocity rows of a sample. *)
Definition component (U : list (list float)) (j : nat) : res (list float) :=
  Np.column (Np.Arr2 (length (hd [] U)) U) j.

(** [x * 1000] on every item. *)
Definition to_mm (xs : list float) : list float := map (λ x, x * 1000) xs.

(** [exp_found[:, 0]] and [exp_found[:, 1]] on the array of a section:
    the array of no rows has one dimension, and the index raises. *)
Definition exp_columns (rws : Parser.rows) : res (list float * list float) :=
  match rws with
  | [] => Raise IndexError
  | _ :: _ => Ok (map fst rws, map snd rws)
  end.

Section WithFloat.

Variable py_float : string -> option float.

(** The body of the loop over [z_locations] in [main] of
    [vv_jet_width.py]: the jet width at one station, [None] when the
    sample is not found or the width is undefined. *)
Definition station_jet_width (postprocess_dir : option node) (set_name : string)
  : res (option float) :=
  s ← read_openfoam_sample py_float postprocess_dir set_name LatestTime;
  match s with
  | None => Ok None
  | Some s =>
      u ← component (velocity s) 2;
      Jet.calculate_jet_width (Some (position s)) (Some u)
  end.

End WithFloat.

(** [plot_radial_profile_comparison] of [vv_axial_velocity.py] after
    its search for the section, on the section found and the sample
    read.  Of the calls that draw, the indexing of their arguments is
    kept. *)
Definition radial_profile_metrics (exp_found : option Parser.rows) (sim : option sample)
  : res (option Metrics.metrics) :=
  metrics ←
    match exp_found with
    | Some rws =>
        cols ← exp_columns rws;             (* mask = exp_found[:, 1] != 0 *)
        match sim with
        | Some s =>
            u ← component (velocity s) 2;
            Metrics.calculate_error_metrics
              (Some (to_mm (fst cols))) (Some (snd cols))
              (Some (to_mm (position s))) (Some u)
        | None => Ok None
        end
    | None => Ok None
    end;
  _ ← match sim with
      | Some s => component (velocity s) 2  (* ax.plot(sim_pos * 1000, sim_U[:, 2]) *)
      | None => Ok []
      end;
  Ok metrics.

(** [plot_radial_velocity_profile] of [vv_radial_velocity.py] after its
    search for the section: the same comparison on the second velocity
    component, under the test [np.any(mask)]. *)
Definition radial_velocity_metrics (exp_found : option Parser.rows) (sim : option sample)
  : res (option Metrics.metrics) :=
  metrics ←
    match exp_found with
    | Some rws =>
        cols ← exp_columns rws;             (* mask = exp_found[:, 1] != 0 *)
        if Np.any (Metrics.nonzero_mask (snd cols)) then
          match sim with
          | Some s =>
              u ← component (velocity s) 1;
              Metrics.calculate_error_metrics
                (Some (to_mm (fst cols))) (Some (snd cols))
                (Some (to_mm (position s))) (Some u)
          | None => Ok None
          end
        else Ok None
    | None => Ok None
    end;
  _ ← match sim with
      | Some s => component (velocity s) 1  (* ax.plot(sim_pos * 1000, sim_U[:, 1]) *)
      | None => Ok []
      end;
  Ok metrics.

(** [needle in key] *)
Fixpoint contains (needle s : string) : bool :=
  PyStr.startswith needle s ||
  match s with
  | EmptyString => false
  | String _ s' => contains needle s'
  end.

(** A character of the class [[\d.]]. *)
Definition is_num_char (c : ascii) : bool := PyStr.is_digit c || Ascii.eqb c ".".

(** The longest prefix of characters of that class. *)
Fixpoint take_num (s : string) : string :=
  match s with
  | EmptyString => EmptyString
  | String c s' => if is_num_char c then String c (take_num s') else EmptyString
  end.

(** [[\d.]+] at the front of [s], as long as it can be. *)
Definition num_group (s : string) : option string :=
  match take_num s with
  | EmptyString => None
  | g => Some g
  end.

(** [\s+(-?[\d.]+)] matched at the front of [s], group 1.  The white
    space is taken whole: what follows it must be a ["-"] or a character
    of the class, which are no white space; and a ["-"] that no
    character of the class follows matches nothing. *)
Definition group_after (s : string) : option string :=
  match s with
  | String c s' =>
      if PyStr.is_space c then
        match PyStr.lstrip s' with
        | String "-" t =>
            match num_group t with
            | Some g => Some (String "-" g)
            | None => None
            end
        | t => num_group t
        end
      else None
  | EmptyString => None
  end.

(** [s] without the prefix [p], when it starts with it. *)
Fixpoint after_prefix (p s : string) : option string :=
  match p, s with
  | EmptyString, _ => Some s
  | String a p', String b s' => if Ascii.eqb a b then after_prefix p' s' else None
  | String _ _, EmptyString => None
  end.

(** [re.search(r'at-z\s+(-?[\d.]+)', key)]: group 1 of the leftmost
    match, [None] without a match. *)
Fixpoint search_at_z (key : string) : option string :=
  match
    match after_prefix "at-z" key with
    | Some rest => group_after rest
    | None => None
    end
  with
  | Some g => Some g
  | None =>
      match key with
      | EmptyString => None
      | String _ key' => search_at_z key'
      end
  end.

(** Python's [0.001]. *)
Definition tolerance : float := 0x1.0624dd2f1a9fcp-10.

Section WithFloat.

Variable py_float : string -> option float.

(** The position a label names, for the labels that hold [needle] and
    match the pattern: [float(match.group(1))], which raises
    [ValueError] on a group that is no number. *)
Definition key_z (needle key : string) : res (option float) :=
  if contains needle key then
    match search_at_z key with
    | Some g =>
        match py_float g with
        | Some z => Ok (Some z)
        | None => Raise ValueError
        end
    | None => Ok None
    end
  else Ok None.

(** The [for key in exp_data] loop of the two profile functions, on the
    items of the dictionary in the order of its keys: the section of the
    first label within [0.001] of [z_exp_val]. *)
Fixpoint find_profile (needle : string) (exp_data : list (string * Parser.rows))
    (z_exp_val : float) : res (option Parser.rows) :=
  match exp_data with
  | [] => Ok None
  | (key, rws) :: exp_data' =>
      z ← key_z needle key;
      match z with
      | Some z_in_key =>
          if abs (z_in_key - z_exp_val) <? tolerance then Ok (Some rws)
          else find_profile needle exp_data' z_exp_val
      | None => find_profile needle exp_data' z_exp_val
      end
  end.

(** [plot_radial_profile_comparison] of [vv_axial_velocity.py]: what it
    returns, or raises. *)
Definition plot_radial_profile_comparison (exp_data : list (string * Parser.rows))
    (sim : option sample) (z_exp_val : float) : res (option Metrics.metrics) :=
  exp_found ← find_profile "profile-axial-velocity-at-z" exp_data z_exp_val;
  radial_profile_metrics exp_found sim.

(** [plot_radial_velocity_profile] of [vv_radial_velocity.py]. *)
Definition plot_radial_velocity_profile (exp_data : list (string * Parser.rows))
    (sim : option sample) (z_exp_val : float) : res (option Metrics.metrics) :=
  exp_found ← find_profile "profile-radial-velocity-at-z" exp_data z_exp_val;
  radial_velocity_metrics exp_found sim.

End WithFloat.

End Callers.

(** ** The master script [run_all_vv.py] *)

Module Orchestrator.
Import Reader.

(** [name] ends with [suf]: what the pattern ["*" + suf] matches. *)
Fixpoint endswith (suf s : string) : bool :=
  String.eqb suf s ||
  match s with
  | EmptyString => false
  | String _ s' => endswith suf s'
  end.

(** [data_dir.rglob("*.xy")] yields something: below the directory, at
    any depth, an entry has a name that ends with [.xy]. *)
Fixpoint has_xy (n : node) : bool :=
  match n with
  | File _ => false
  | Dir es =>
      (fix any (es : list (string * node)) : bool :=
         match es with
         | [] => false
         | (name, c) :: es' => endswith ".xy" name || has_xy c || any es'
         end) es
  end.

(** The check of [main] before the analyses run. *)
Definition has_data (data_dir : option node) : bool :=
  match data_dir with
  | Some n => has_xy n
  | None => false
  end.

(** The entries of a directory without the one named [name]:
    [shutil.rmtree(target)]. *)
Definition rmtree (name : string) (es : list (string * node)) : list (string * node) :=
  filter (λ e, fst e ≠ name) es.

(** The loop of [sync_simulation_data] over the entries of the source: a
    directory with a numeric name replaces the entry of its name in the
    destination, and is counted.  Every copy into a directory succeeds (a
    copy that fails is passed over by the script, and counted).  A
    destination that is a regular file takes no copy, and a regular file
    in the place of a target makes [rmtree] raise. *)
Fixpoint sync_items (items : list (string * node)) (dest : node) (count : nat)
  : res (node * nat) :=
  match items with
  | [] => Ok (dest, count)
  | (name, item) :: items' =>
      if is_dir item && numeric_name name then
        match dest with
        | File _ => sync_items items' dest (S count)
        | Dir ds =>
            match lookup name ds with
            | Some (File _) => Raise NotADirectoryError
            | _ => sync_items items' (Dir (rmtree name ds ++ [(name, item)])) (S count)
            end
        end
      else sync_items items' dest count
  end.

(** [sync_simulation_data]: what it returns, and the destination
    afterwards. *)
Definition sync_simulation_data (source_dir dest_dir : option node)
  : res (bool * option node) :=
  match source_dir with
  | None => Ok (false, dest_dir)
  | Some _ =>
      let dest := match dest_dir with Some d => d | None => Dir [] end in
      items ← iterdir source_dir;
      r ← sync_items items dest 0;
      Ok (negb (snd r =? 0)%nat, Some (fst r))
  end.

End Orchestrator.

(** ** Notions of the statements *)

Module Notions.

Local Open Scope float_scope.

(** The pair of neighbours at [i] goes from at least [u_half] to below it. *)
Definition crosses (u_half : float) (u_pos : list float) (i : nat) : Prop :=
  ∃ v0 v1, nth_error u_pos i = Some v0 ∧ nth_error u_pos (S i) = Some v1 ∧
           (u_half <=? v0) && (v1 <? u_half) = true.

(** A value that is not below zero: [+0], a positive number, [+inf] or a
    NaN. *)
Definition nonneg_sf (x : spec_float) : Prop :=
  match x with
  | S754_zero s | S754_infinity s | S754_finite s _ _ => s = false
  | S754_nan => True
  end.

Definition nonneg (x : float) : Prop := nonneg_sf (Prim2SF x).

(** The total sum of squares of the kept experimental values about
    their mean, as [calculate_error_metrics] computes it. *)
Definition total_squares (kept : list float) : float :=
  Np.sum (map (λ u, Metrics.sq (u - Np.mean kept)) kept).

(** The parser state [st] with the dataset [d] under its own. *)
Definition over (d : gmap string Parser.rows) (st : Parser.pstate) : Parser.pstate :=
  Parser.mk_pstate (Parser.data st ∪ d) (Parser.current_section st) (Parser.current_data st).

(** What [read_openfoam_sample] does with the rows [np.loadtxt] read. *)
Definition of_rows (rws : list (list float)) : res (option Reader.sample) :=
  let data := Np.squeeze rws in
  if (Np.size data =? 0)%nat then Ok None
  else
    pos ← Np.column data 0;
    p ← Np.column data 1;
    U ← Np.columns data 2 5;
    Ok (Some (Reader.mk_sample pos p U)).

(** A sampling root with one time directory, which holds one table of
    five columns. *)
Definition one_table : option Reader.node :=
  Some (Reader.Dir [("10", Reader.Dir [("radial_z_000_p_U.xy", Reader.File "# r p Ux Uy Uz
0 0 0 0 4
1 0 0 0 3
2 0 0 0 1")])]).

(** The sample of that table. *)
Definition one_sample : Reader.sample :=
  Reader.mk_sample [0; 1; 2] [0; 0; 0] [[0; 0; 4]; [0; 0; 3]; [0; 0; 1]].

(** An experimental file of one section. *)
Definition one_section : list string :=
  ["plot-profile-axial-velocity-at-z 0.0"; "0.0  4.0"; "0.5  3.0"].

(** The dictionary the parser returns for that file. *)
Definition one_dict : list (string * Parser.rows) :=
  [("plot-profile-axial-velocity-at-z 0.0", [(0, 4); (0x1p-1, 3)])].

(** The label [key] names a position within [0.001] of [z]. *)
Definition names_position (py_float : string → option float) (needle : string)
    (z : float) (key : string) : Prop :=
  ∃ z_in_key, Callers.key_z py_float needle key = Ok (Some z_in_key) ∧
              (abs (z_in_key - z) <? Callers.tolerance) = true.

(** The group of the label, if the label is one the search looks at, is
    a number for [float]. *)
Definition readable_label (py_float : string → option float) (needle key : string) : Prop :=
  ∀ g, Callers.contains needle key = true → Callers.search_at_z key = Some g →
       is_Some (py_float g).

(** [exp_data] lists sections of the dataset parsed from [lines]. *)
Definition sections_of (py_float : string → option float) (lines : list string)
    (exp_data : list (string * Parser.rows)) : Prop :=
  ∀ k rws, In (k, rws) exp_data →
           Parser.parse_experimental_file py_float lines !! k = Some rws.

(** What the search returns on [exp_data]: the section of the first
    label that names a position within [0.001] of [z]. *)
Definition first_section (py_float : string → option float) (needle : string)
    (z : float) (exp_data : list (string * Parser.rows))
    (exp_found : option Parser.rows) : Prop :=
  match exp_found with
  | Some rws =>
      ∃ pre k post, exp_data = pre ++ (k, rws) :: post ∧
        names_position py_float needle z k ∧
        Forall (λ it, ¬ names_position py_float needle z (fst it)) pre
  | None => Forall (λ it, ¬ names_position py_float needle z (fst it)) exp_data
  end.

End Notions.

(** * Properties *)

(** ** Facts on binary64 comparisons and arithmetic *)

Module FloatFacts.

Local Open Scope Z_scope.

Lemma iter_pos_nat {A} (f : A → A) (n : positive) (x : A) :
  SpecFloat.iter_pos f n x = Nat.iter (Pos.to_nat n) f x.
Proof.
  revert x. induction n as [n IH|n IH|]; intros x; cbn [SpecFloat.iter_pos].
  - rewrite !IH, Pos2Nat.inj_xI.
    replace (S (2 * Pos.to_nat n)) with (Pos.to_nat n + S (Pos.to_nat n))%nat by lia.
    rewrite Nat.iter_add, Nat.iter_succ_r. reflexivity.
  - rewrite !IH, Pos2Nat.inj_xO.
    replace (2 * Pos.to_nat n)%nat with (Pos.to_nat n + Pos.to_nat n)%nat by lia.
    rewrite Nat.iter_add. reflexivity.
  - reflexivity.
Qed.

Lemma shr_nat_pos (k : nat) : ∀ p r s,
  (k < Pos.to_nat (digits2_pos p))%nat →
  ∃ q r' s', Nat.iter k shr_1 (Build_shr_record (Zpos p) r s) = Build_shr_record (Zpos q) r' s'.
Proof.
  induction k as [|k IH]; intros p r s Hk.
  - exists p, r, s. reflexivity.
  - rewrite Nat.iter_succ_r.
    destruct p as [p|p|]; simpl in Hk |- *.
    + apply IH. rewrite Pos2Nat.inj_succ in Hk. lia.
    + apply IH. rewrite Pos2Nat.inj_succ in Hk. lia.
    + lia.
Qed.

Lemma shr_fexp_pos (p : positive) (e : Z) (l : location) :
  (-1074) <= e →
  ∃ q r s e', shr_fexp prec emax (Zpos p) e l = (Build_shr_record (Zpos q) r s, e')
                   ∧ (-1074) <= e'.
Proof.
  intros He. unfold shr_fexp, shr.
  assert (Hrec : ∃ r s, shr_record_of_loc (Zpos p) l = Build_shr_record (Zpos p) r s).
  { destruct l as [|[| |]]; simpl; eauto. }
  destruct Hrec as (r & s & ->).
  remember (fexp prec emax (Zdigits2 (Z.pos p) + e) - e) as n eqn:Hn.
  unfold fexp in Hn. simpl Zdigits2 in Hn.
  destruct n as [|k|k]; try (exists p, r, s, e; split; [reflexivity | assumption]).
  rewrite iter_pos_nat.
  destruct (shr_nat_pos (Pos.to_nat k) p r s) as (q & r' & s' & ->).
  { apply Nat2Z.inj_lt. rewrite !positive_nat_Z. unfold SpecFloat.emin, prec, emax in Hn. lia. }
  exists q, r', s', (e + Z.pos k). split; [reflexivity|].
  unfold SpecFloat.emin, prec, emax in Hn. lia.
Qed.

Lemma round_pos (q : positive) (l : location) :
  ∃ q', round_nearest_even (Zpos q) l = Zpos q'.
Proof.
  destruct l as [|[| |]]; cbn [round_nearest_even];
    try destruct (Z.even (Z.pos q));
    first [ exists q; reflexivity | exists (q + 1)%positive; reflexivity ].
Qed.

Lemma binary_round_aux_pos (sx : bool) (p : positive) (e : Z) (l : location) :
  (-1074) <= e →
  (∃ m e', binary_round_aux prec emax sx (Zpos p) e l = S754_finite sx m e')
  ∨ binary_round_aux prec emax sx (Zpos p) e l = S754_infinity sx.
Proof.
  intros He. unfold binary_round_aux.
  destruct (shr_fexp_pos p e l He) as (q & r & s & e' & -> & He').
  cbn [shr_m].
  destruct (round_pos q (loc_of_shr_record {| shr_m := Z.pos q; shr_r := r; shr_s := s |})) as (q' & ->).
  destruct (shr_fexp_pos q' e' loc_Exact He') as (q'' & r'' & s'' & e'' & -> & He'').
  cbn [shr_m]. destruct (e'' <=? emax - prec); eauto.
Qed.

Lemma binary_normalize_pos (p : positive) :
  (∃ m e, binary_normalize prec emax (Zpos p) 0 false = S754_finite false m e)
  ∨ binary_normalize prec emax (Zpos p) 0 false = S754_infinity false.
Proof.
  unfold binary_normalize, binary_round, shl_align.
  destruct (fexp prec emax (Z.pos (digits2_pos p) + 0) - 0) eqn:Hd;
    apply binary_round_aux_pos; unfold fexp, SpecFloat.emin, prec, emax in *; lia.
Qed.

Local Open Scope float_scope.

Lemma SF_zero : Prim2SF 0 = S754_zero false.
Proof. reflexivity. Qed.

(** A value that is neither above zero nor at most zero is a NaN. *)
Lemma nan_of_compare (u : float) :
  (0 <? u) = false → (u <=? 0) = false → Prim2SF u = S754_nan.
Proof.
  rewrite ltb_spec, leb_spec, SF_zero.
  destruct (Prim2SF u) as [s|[|]| |[|] m e]; simpl; try discriminate; reflexivity.
Qed.

Lemma leb_nan_l (a x : float) : Prim2SF a = S754_nan → (a <=? x) = false.
Proof. intros H. rewrite leb_spec, H. reflexivity. Qed.

Lemma div_nan_l (a y : float) : Prim2SF a = S754_nan → Prim2SF (a / y) = S754_nan.
Proof. intros H. rewrite div_spec, H. reflexivity. Qed.

Local Open Scope float_scope.

(** The count of a non-empty array is a positive [float64]. *)
Lemma float_of_len_pos (n : nat) :
  (0 < Z.of_nat n < 2 ^ 63)%Z →
  (∃ m e, Prim2SF (Np.float_of_len n) = S754_finite false m e)
  ∨ Prim2SF (Np.float_of_len n) = S754_infinity false.
Proof.
  intros Hn. unfold Np.float_of_len.
  rewrite of_uint63_spec, Uint63.of_Z_spec.
  rewrite Z.mod_small by (change Uint63.wB with (2 ^ 63)%Z; lia).
  destruct (Z.of_nat n) as [|p|p]; try lia. apply binary_normalize_pos.
Qed.

Lemma zero_div_pos (y : float) :
  (∃ m e, Prim2SF y = S754_finite false m e) ∨ Prim2SF y = S754_infinity false →
  0 / y = 0.
Proof.
  intros Hy. apply Prim2SF_inj. rewrite div_spec, SF_zero.
  destruct Hy as [(m & e & ->) | ->]; reflexivity.
Qed.

(** A finite value minus itself is [+0]. *)
Lemma sub_self (c : float) : is_finite c = true → c - c = 0.
Proof.
  unfold is_finite, is_nan, is_infinity.
  rewrite !FloatAxioms.eqb_spec, abs_spec. intros Hf.
  apply Prim2SF_inj. rewrite sub_spec, SF_zero.
  destruct (Prim2SF c) as [[|]|[|]| |s m e]; try discriminate; try reflexivity.
  unfold SF64sub, SFsub. rewrite Z.sub_diag. reflexivity.
Qed.

(** What the additions of [np.sum] keep, however they are grouped. *)
Section SumClosed.

Variable P : float → Prop.
Hypothesis Hadd : ∀ a b, P a → P b → P (a + b).
Hypothesis Hstart : ∀ b, P b → P (-0 + b).

Lemma fold_add_closed (xs : list float) : ∀ acc,
  P acc → Forall P xs → P (fold_left PrimFloat.add xs acc).
Proof.
  induction xs as [|x xs IH]; intros acc Hacc Hxs; [exact Hacc|].
  inversion Hxs; subst. cbn [fold_left]. apply IH; [apply Hadd|]; assumption.
Qed.

Lemma add_lanes_closed (r : list float) : ∀ xs,
  Forall P r → Forall P xs → Forall P (Np.add_lanes r xs).
Proof.
  induction r as [|a r IH]; intros xs Hr Hxs; [constructor|].
  inversion Hr; subst. destruct xs as [|x xs]; [exact Hr|].
  inversion Hxs; subst. cbn [Np.add_lanes]. constructor; [apply Hadd | apply IH]; assumption.
Qed.

Lemma add_lanes_length (r : list float) : ∀ xs,
  length (Np.add_lanes r xs) = length r.
Proof.
  induction r as [|a r IH]; intros xs; [reflexivity|].
  destruct xs as [|x xs]; [reflexivity|]. cbn [Np.add_lanes length]. rewrite IH. reflexivity.
Qed.

Lemma lanes_closed (b : nat) : ∀ r xs,
  Forall P r → Forall P xs →
  Forall P (fst (Np.lanes b r xs)) ∧ Forall P (snd (Np.lanes b r xs)).
Proof.
  induction b as [|b IH]; intros r xs Hr Hxs; [split; assumption|].
  cbn [Np.lanes]. apply IH.
  - apply add_lanes_closed; [assumption | apply Forall_take; assumption].
  - apply Forall_drop. assumption.
Qed.

Lemma lanes_length (b : nat) : ∀ r xs,
  length (fst (Np.lanes b r xs)) = length r.
Proof.
  induction b as [|b IH]; intros r xs; [reflexivity|].
  cbn [Np.lanes]. rewrite IH. apply add_lanes_length.
Qed.

Lemma sum_block_closed (xs : list float) :
  (8 <= length xs)%nat → Forall P xs → P (Np.sum_block xs).
Proof.
  intros Hlen Hxs. unfold Np.sum_block.
  pose proof (lanes_closed (length xs / 8 - 1) (firstn 8 xs) (skipn 8 xs)
                (Forall_take _ 8%nat _ Hxs) (Forall_drop _ 8%nat _ Hxs)) as [Hr Hrest].
  pose proof (lanes_length (length xs / 8 - 1) (firstn 8 xs) (skipn 8 xs)) as Hl.
  rewrite length_firstn in Hl.
  destruct (Np.lanes (length xs / 8 - 1) (firstn 8 xs) (skipn 8 xs)) as [r rest].
  cbn [fst snd] in Hr, Hrest, Hl.
  assert (Hnth : ∀ k, (k < 8)%nat → P (nth k r 0)).
  { intros k Hk. rewrite Forall_forall in Hr. apply Hr, list_elem_of_In, nth_In. lia. }
  apply fold_add_closed; [|assumption].
  repeat apply Hadd; apply Hnth; lia.
Qed.

Lemma pairwise_sum_closed (fuel : nat) : ∀ xs,
  (length xs <= fuel)%nat → xs ≠ [] → Forall P xs → P (Np.pairwise_sum fuel xs).
Proof.
  induction fuel as [|fuel IH]; intros xs Hfuel Hne Hxs.
  - destruct xs; [contradiction | simpl in Hfuel; lia].
  - cbn [Np.pairwise_sum].
    destruct (Nat.ltb_spec (length xs) 8) as [H8|H8].
    { destruct xs as [|x xs]; [contradiction|]. inversion Hxs; subst.
      cbn [fold_left]. apply fold_add_closed; [apply Hstart|]; assumption. }
    destruct (Nat.leb_spec (length xs) 128) as [H128|H128].
    { apply sum_block_closed; assumption. }
    pose proof (Nat.div_mod_eq (length xs) 2) as Hd.
    pose proof (Nat.mod_upper_bound (length xs) 2 ltac:(lia)) as Hm.
    pose proof (Nat.mod_upper_bound (length xs / 2) 8 ltac:(lia)) as Hm8.
    apply Hadd; apply IH.
    + rewrite length_firstn. lia.
    + intros H. apply (f_equal (@length float)) in H. rewrite length_firstn in H.
      cbn [length] in H. lia.
    + apply Forall_take. assumption.
    + rewrite length_skipn. lia.
    + intros H. apply (f_equal (@length float)) in H. rewrite length_skipn in H.
      cbn [length] in H. lia.
    + apply Forall_drop. assumption.
Qed.

Lemma sum_closed (xs : list float) : P 0 → Forall P xs → P (Np.sum xs).
Proof.
  intros H0 Hxs. unfold Np.sum. destruct xs as [|x xs]; [exact H0|].
  apply Hstart, pairwise_sum_closed; [lia | discriminate | assumption].
Qed.

End SumClosed.

Lemma sum_zeros (n : nat) : Np.sum (repeat 0 n) = 0.
Proof.
  apply (sum_closed (λ x, x = 0)).
  - intros a b -> ->. reflexivity.
  - intros b ->. reflexivity.
  - reflexivity.
  - apply Forall_forall. intros x Hx. apply list_elem_of_In, repeat_spec in Hx. exact Hx.
Qed.

Lemma mean_zeros (n : nat) :
  (0 < Z.of_nat n < 2 ^ 63)%Z → Np.mean (repeat 0 n) = 0.
Proof.
  intros Hn. unfold Np.mean. rewrite sum_zeros, repeat_length.
  apply zero_div_pos, float_of_len_pos. assumption.
Qed.

End FloatFacts.

(** ** The order of binary64 values *)

Module FloatOrder.

Local Open Scope Z_scope.

(** [SFltb] on two finite values, as an order on sign, exponent and
    mantissa. *)
Lemma SFltb_finite (s1 s2 : bool) (m1 m2 : positive) (e1 e2 : Z) :
  SFltb (S754_finite s1 m1 e1) (S754_finite s2 m2 e2) = true ↔
  match s1, s2 with
  | true, false => True
  | false, true => False
  | false, false => e1 < e2 ∨ (e1 = e2 ∧ Zpos m1 < Zpos m2)
  | true, true => e2 < e1 ∨ (e1 = e2 ∧ Zpos m2 < Zpos m1)
  end.
Proof.
  unfold SFltb, SFcompare. destruct s1, s2.
  - destruct (Z.compare_spec e1 e2) as [He|He|He].
    + rewrite Pos.compare_cont_spec. simpl.
      destruct (Pos.compare_spec m1 m2) as [Hm|Hm|Hm]; simpl; split;
        try discriminate; try reflexivity; intros; lia.
    + split; [discriminate | lia].
    + split; [intros _; lia | reflexivity].
  - split; [trivial | reflexivity].
  - split; [discriminate | contradiction].
  - destruct (Z.compare_spec e1 e2) as [He|He|He].
    + rewrite Pos.compare_cont_spec. simpl.
      destruct (Pos.compare_spec m1 m2) as [Hm|Hm|Hm]; simpl; split;
        try discriminate; try reflexivity; intros; lia.
    + split; [intros _; lia | reflexivity].
    + split; [discriminate | lia].
Qed.

Lemma SFltb_trans (x y z : spec_float) :
  SFltb x y = true → SFltb y z = true → SFltb x z = true.
Proof.
  destruct x as [sx|sx| |sx mx ex], y as [sy|sy| |sy my ey], z as [sz|sz| |sz mz ez];
    try (destruct sx); try (destruct sy); try (destruct sz);
    try (cbv; congruence);
    rewrite !SFltb_finite; intros; try tauto; try lia.
Qed.

Lemma SFltb_asym (x y : spec_float) : SFltb x y = true → SFltb y x = false.
Proof.
  intros H. destruct (SFltb y x) eqn:H'; [|reflexivity].
  exfalso. revert H H'.
  destruct x as [sx|sx| |sx mx ex], y as [sy|sy| |sy my ey];
    try (destruct sx); try (destruct sy);
    try (cbv; congruence);
    rewrite !SFltb_finite; intros; try tauto; try lia.
Qed.

Lemma SFleb_finite (s1 s2 : bool) (m1 m2 : positive) (e1 e2 : Z) :
  SFleb (S754_finite s1 m1 e1) (S754_finite s2 m2 e2) = true ↔
  match s1, s2 with
  | true, false => True
  | false, true => False
  | false, false => e1 < e2 ∨ (e1 = e2 ∧ Zpos m1 <= Zpos m2)
  | true, true => e2 < e1 ∨ (e1 = e2 ∧ Zpos m2 <= Zpos m1)
  end.
Proof.
  unfold SFleb, SFcompare. destruct s1, s2.
  - destruct (Z.compare_spec e1 e2) as [He|He|He].
    + rewrite Pos.compare_cont_spec. simpl.
      destruct (Pos.compare_spec m1 m2) as [Hm|Hm|Hm]; simpl; split;
        try discriminate; try reflexivity; intros; lia.
    + split; [discriminate | lia].
    + split; [intros _; lia | reflexivity].
  - split; [trivial | reflexivity].
  - split; [discriminate | contradiction].
  - destruct (Z.compare_spec e1 e2) as [He|He|He].
    + rewrite Pos.compare_cont_spec. simpl.
      destruct (Pos.compare_spec m1 m2) as [Hm|Hm|Hm]; simpl; split;
        try discriminate; try reflexivity; intros; lia.
    + split; [intros _; lia | reflexivity].
    + split; [discriminate | lia].
Qed.

Lemma SFleb_trans (x y z : spec_float) :
  SFleb x y = true → SFleb y z = true → SFleb x z = true.
Proof.
  destruct x as [sx|sx| |sx mx ex], y as [sy|sy| |sy my ey], z as [sz|sz| |sz mz ez];
    try (destruct sx); try (destruct sy); try (destruct sz);
    try (cbv; congruence);
    rewrite !SFleb_finite; intros; try tauto; try lia.
Qed.

Lemma SFltb_leb_trans (x y z : spec_float) :
  SFltb x y = true → SFleb y z = true → SFltb x z = true.
Proof.
  destruct x as [sx|sx| |sx mx ex], y as [sy|sy| |sy my ey], z as [sz|sz| |sz mz ez];
    try (destruct sx); try (destruct sy); try (destruct sz);
    try (cbv; congruence);
    rewrite !SFltb_finite, SFleb_finite; intros; try tauto; try lia.
Qed.

Lemma SFltb_leb (x y : spec_float) : SFltb x y = true → SFleb x y = true.
Proof.
  unfold SFltb, SFleb. destruct (SFcompare x y) as [[| |]|]; congruence.
Qed.

(** Two values that are no NaN compare one way or the other. *)
Lemma SFleb_total (x y : spec_float) :
  x ≠ S754_nan → y ≠ S754_nan → SFleb x y = false → SFleb y x = true.
Proof.
  intros Hx Hy H. destruct (SFleb y x) eqn:H'; [reflexivity|]. exfalso.
  apply not_true_iff_false in H, H'. revert H H'.
  destruct x as [sx|sx| |sx mx ex], y as [sy|sy| |sy my ey];
    try contradiction;
    try (destruct sx); try (destruct sy);
    try (cbv; tauto);
    rewrite !SFleb_finite; intros; try tauto; try lia.
Qed.

Local Open Scope float_scope.

Lemma ltb_trans (a b c : float) : (a <? b) = true → (b <? c) = true → (a <? c) = true.
Proof. rewrite !ltb_spec. apply SFltb_trans. Qed.

Lemma ltb_asym (a b : float) : (a <? b) = true → (b <? a) = false.
Proof. rewrite !ltb_spec. apply SFltb_asym. Qed.

Lemma ltb_irrefl (a : float) : (a <? a) = false.
Proof.
  destruct (a <? a) eqn:H; [|reflexivity].
  rewrite (ltb_asym a a H) in H. discriminate.
Qed.


Lemma ltb_leb_trans (a b c : float) :
  (a <? b) = true → (b <=? c) = true → (a <? c) = true.
Proof. rewrite !ltb_spec, leb_spec. apply SFltb_leb_trans. Qed.

Lemma ltb_leb (a b : float) : (a <? b) = true → (a <=? b) = true.
Proof. rewrite ltb_spec, leb_spec. apply SFltb_leb. Qed.

(** What is not at most a value is not below it. *)
Lemma not_leb_not_ltb (a b : float) : (a <=? b) = false → (a <? b) = false.
Proof.
  intros H. destruct (a <? b) eqn:Hlt; [|reflexivity].
  rewrite (ltb_leb a b Hlt) in H. discriminate.
Qed.

(** Nothing above a value is at most a value not above it. *)
Lemma above_not_leb (a b c : float) :
  (a <? b) = true → (a <? c) = false → (b <=? c) = false.
Proof.
  intros Hab Hac. destruct (b <=? c) eqn:Hbc; [|reflexivity].
  rewrite (ltb_leb_trans a b c Hab Hbc) in Hac. discriminate.
Qed.

Lemma is_nan_SF (a : float) : is_nan a = false ↔ Prim2SF a ≠ S754_nan.
Proof.
  unfold is_nan. rewrite FloatAxioms.eqb_spec, negb_false_iff.
  destruct (Prim2SF a) as [s|s| |s m e]; unfold SFeqb; simpl.
  - split; [discriminate | reflexivity].
  - destruct s; (split; [discriminate | reflexivity]).
  - split; [discriminate | contradiction].
  - split; [discriminate | intros _].
    destruct s; rewrite Z.compare_refl, Pos.compare_cont_refl; reflexivity.
Qed.

Lemma leb_trans (a b c : float) : (a <=? b) = true → (b <=? c) = true → (a <=? c) = true.
Proof. rewrite !leb_spec. apply SFleb_trans. Qed.

Lemma leb_total (a b : float) :
  is_nan a = false → is_nan b = false → (a <=? b) = false → (b <=? a) = true.
Proof. rewrite !is_nan_SF, !leb_spec. apply SFleb_total. Qed.

Lemma leb_refl (a : float) : is_nan a = false → (a <=? a) = true.
Proof.
  intros Ha. destruct (a <=? a) eqn:H; [reflexivity|].
  pose proof (leb_total a a Ha Ha H). congruence.
Qed.

Lemma abs_not_nan (a : float) : is_nan a = false → is_nan (abs a) = false.
Proof.
  rewrite !is_nan_SF, abs_spec. destruct (Prim2SF a); simpl; congruence.
Qed.

End FloatOrder.

(** ** numpy calls *)

Module NpSpec.
Import FloatOrder.

Local Open Scope float_scope.

(** [np.interp] returns, with one value for each item of [x], when the
    sampled values are as many as the sample points. *)
Lemma interp_loop_length (xp fp x : list float) : ∀ j,
  length (Np.interp_loop xp fp j x) = length x.
Proof.
  induction x as [|x_val x IH]; intros j; [reflexivity|].
  cbn [Np.interp_loop]. destruct (is_nan x_val); cbn [length]; rewrite IH; reflexivity.
Qed.

Lemma interp_some (x xp fp : list float) :
  xp ≠ [] → length fp = length xp →
  ∃ ys, Np.interp x xp (Some fp) = Ok ys ∧ length ys = length x.
Proof.
  intros Hne Hlen. unfold Np.interp. destruct xp as [|a xp]; [contradiction|].
  rewrite Hlen, Nat.eqb_refl.
  destruct xp as [|b xp].
  - destruct fp as [|fp0 [|fp1 fp]]; try discriminate.
    eexists. split; [reflexivity | apply length_map].
  - eexists. split; [reflexivity | apply interp_loop_length].
Qed.

Lemma interp_mismatch (x xp fp : list float) :
  xp ≠ [] → length fp ≠ length xp → Np.interp x xp (Some fp) = Raise ValueError.
Proof.
  intros Hne Hlen. unfold Np.interp. destruct xp as [|a xp]; [contradiction|].
  destruct (Nat.eqb_spec (length fp) (length (a :: xp))); [contradiction | reflexivity].
Qed.

(** The cuts of [pairwise_sum] need no more fuel than the length of the
    array. *)
Lemma pairwise_sum_fuel (fuel : nat) : ∀ more xs,
  (length xs <= fuel)%nat →
  Np.pairwise_sum (fuel + more) xs = Np.pairwise_sum fuel xs.
Proof.
  induction fuel as [|fuel IH]; intros more xs Hfuel.
  - destruct xs; [|simpl in Hfuel; lia]. destruct more; reflexivity.
  - cbn [Nat.add Np.pairwise_sum].
    destruct (Nat.ltb_spec (length xs) 8) as [H8|H8]; [reflexivity|].
    destruct (Nat.leb_spec (length xs) 128) as [H128|H128]; [reflexivity|].
    pose proof (Nat.div_mod_eq (length xs) 2) as Hd.
    pose proof (Nat.mod_upper_bound (length xs) 2 ltac:(lia)) as Hm.
    pose proof (Nat.mod_upper_bound (length xs / 2) 8 ltac:(lia)) as Hm8.
    rewrite !IH; [reflexivity | rewrite length_skipn; lia | rewrite length_firstn; lia].
Qed.

(** The bisection needs no more fuel than the width of its interval. *)
Lemma bisect_fuel (key : float) (arr : list float) (fuel : nat) : ∀ more imin imax,
  (imax - imin <= Z.of_nat fuel)%Z →
  Np.bisect (fuel + more) key arr imin imax = Np.bisect fuel key arr imin imax.
Proof.
  induction fuel as [|fuel IH]; intros more imin imax Hw.
  - cbn [Nat.add Np.bisect]. destruct more as [|more]; [reflexivity|].
    cbn [Np.bisect]. destruct (Z.ltb_spec imin imax); [lia | reflexivity].
  - cbn [Nat.add Np.bisect]. destruct (Z.ltb_spec imin imax) as [Hlt|]; [|reflexivity].
    assert (Hmid : (0 <= (imax - imin) / 2 < imax - imin)%Z).
    { split; [apply Z.div_pos; lia | apply Z.div_lt_upper_bound; lia]. }
    destruct (Np.get arr (imin + (imax - imin) / 2) <=? key); apply IH; lia.
Qed.

(** [np.argmin] on values that are no NaN: the index held is in range and
    its value is at most every value passed. *)
Lemma argmin_from_least (xs : list float) : ∀ (pre : list float) (mp : float) (ind : nat),
  Forall (λ x, is_nan x = false) (pre ++ xs) →
  nth_error pre ind = Some mp →
  (∀ x, x ∈ pre → (mp <=? x) = true) →
  let i := Np.argmin_from xs (length pre) mp ind in
  ∃ m, nth_error (pre ++ xs) i = Some m ∧ ∀ x, x ∈ pre ++ xs → (m <=? x) = true.
Proof.
  induction xs as [|x xs IH]; intros pre mp ind Hnan Hind Hle; cbn [Np.argmin_from].
  - exists mp. rewrite app_nil_r. split; assumption.
  - assert (Hx : is_nan x = false).
    { apply Forall_app in Hnan as [_ Hnan]. inversion Hnan; assumption. }
    assert (Hmp : is_nan mp = false).
    { apply Forall_app in Hnan as [Hnan _]. rewrite Forall_forall in Hnan.
      apply Hnan. apply list_elem_of_In. eapply nth_error_In. eassumption. }
    replace (pre ++ x :: xs) with ((pre ++ [x]) ++ xs) in * by (rewrite <- app_assoc; reflexivity).
    replace (S (length pre)) with (length (pre ++ [x])) by (rewrite length_app; simpl; lia).
    destruct (mp <=? x) eqn:Hcmp; cbn [negb].
    + apply IH; [assumption | | ].
      * rewrite nth_error_app1; [assumption|]. apply nth_error_Some. congruence.
      * intros y Hy. apply elem_of_app in Hy as [Hy | Hy]; [auto|].
        apply list_elem_of_singleton in Hy. subst y. assumption.
    + rewrite Hx. apply IH; [assumption | | ].
      * rewrite nth_error_app2 by lia. rewrite Nat.sub_diag. reflexivity.
      * intros y Hy. apply elem_of_app in Hy as [Hy | Hy].
        -- apply (leb_trans x mp y); [|auto]. apply leb_total; assumption.
        -- apply list_elem_of_singleton in Hy. subst y. apply leb_refl; assumption.
Qed.

Lemma argmin_least (xs : list float) :
  xs ≠ [] → Forall (λ x, is_nan x = false) xs →
  ∃ m, nth_error xs (Np.argmin xs) = Some m ∧ ∀ x, x ∈ xs → (m <=? x) = true.
Proof.
  destruct xs as [|x xs]; [contradiction|]. intros _ Hnan.
  assert (Hx : is_nan x = false) by (inversion Hnan; assumption).
  unfold Np.argmin. rewrite Hx.
  apply (argmin_from_least xs [x] x 0%nat); [assumption | reflexivity|].
  intros y Hy. apply list_elem_of_singleton in Hy. subst y. apply leb_refl; assumption.
Qed.

End NpSpec.

(** ** Python's [float] on the names of time directories *)

Module PyFloatSpec.

Local Open Scope string_scope.

Lemma append_cons (c : ascii) (s t : string) : String c s ++ t = String c (s ++ t).
Proof. reflexivity. Qed.

Lemma append_nil (t : string) : "" ++ t = t.
Proof. reflexivity. Qed.

(** A run of digits is read to its end. *)
Lemma digitpart_digits (s : string) : ∀ acc n prev,
  PyStr.all_digits s = true → prev = true ∨ s ≠ "" →
  ∃ m k, PyFloat.digitpart s acc n prev = Some (m, k, "").
Proof.
  induction s as [|c s IH]; intros acc n prev Hd Hne; cbn [PyFloat.digitpart].
  - destruct Hne as [-> | Hne]; [eauto | contradiction].
  - cbn [PyStr.all_digits] in Hd. apply andb_true_iff in Hd as [Hc Hs].
    rewrite Hc. apply IH; auto.
Qed.

(** A run of digits before a dot is read up to the dot. *)
Lemma digitpart_dot (s rest : string) : ∀ acc n prev,
  PyStr.all_digits s = true → prev = true ∨ s ≠ "" →
  ∃ m k, PyFloat.digitpart (s ++ String "." rest) acc n prev = Some (m, k, String "." rest).
Proof.
  induction s as [|c s IH]; intros acc n prev Hd Hne.
  - rewrite append_nil. destruct Hne as [-> | Hne]; [|contradiction]. cbn. eauto.
  - rewrite append_cons. cbn [PyFloat.digitpart].
    cbn [PyStr.all_digits] in Hd. apply andb_true_iff in Hd as [Hc Hs].
    rewrite Hc. apply IH; auto.
Qed.

(** A name of digits and at most one dot is a run of digits, or two runs
    around a dot. *)
Lemma numeric_shape (s : string) :
  PyStr.all_digits (PyStr.replace "." "" s) = true → (Reader.dots s <= 1)%nat →
  PyStr.all_digits s = true ∨
  ∃ a b, s = a ++ String "." b ∧ PyStr.all_digits a = true ∧ PyStr.all_digits b = true.
Proof.
  induction s as [|c s IH]; intros Hd Hdots; [left; reflexivity|].
  cbn [PyStr.replace Reader.dots] in Hd, Hdots.
  destruct (Ascii.eqb_spec c ".") as [-> | Hc].
  - right. exists "", s. split; [reflexivity|]. split; [reflexivity|].
    rewrite append_nil in Hd.
    destruct IH as [Hs | (a & b & -> & Ha & Hb)]; [assumption | lia | assumption |].
    exfalso. clear -Hdots. induction a as [|c a IH].
    + rewrite append_nil in Hdots. cbn in Hdots. lia.
    + rewrite append_cons in Hdots. cbn [Reader.dots] in Hdots. apply IH. lia.
  - cbn [PyStr.all_digits] in Hd. apply andb_true_iff in Hd as [Hc' Hs].
    destruct IH as [Hs' | (a & b & -> & Ha & Hb)]; [assumption | lia | |].
    + left. cbn. rewrite Hc', Hs'. reflexivity.
    + right. exists (String c a), b. split; [reflexivity|]. split; [|assumption].
      cbn. rewrite Hc', Ha. reflexivity.
Qed.

(** The text after the sign, for a token that starts with a digit or a
    dot, and the special words it is not. *)
Lemma plain_start (c : ascii) (s : string) :
  PyStr.is_digit c = true ∨ c = "."%char →
  PyFloat.sign (String c s) = (false, String c s) ∧
  ∀ t, String.eqb (PyFloat.lower_str (String c s)) (String "i" t) = false ∧
       String.eqb (PyFloat.lower_str (String c s)) (String "n" t) = false.
Proof.
  intros Hc.
  destruct c as [[] [] [] [] [] [] [] []];
    try (destruct Hc as [Hc | Hc]; discriminate);
    (split; [reflexivity | intros t; split; reflexivity]).
Qed.

Lemma py_float_plain (c : ascii) (s : string) :
  PyStr.is_digit c = true ∨ c = "."%char →
  PyFloat.py_float (String c s) = PyFloat.number false (String c s).
Proof.
  intros Hc. destruct (plain_start c s Hc) as [Hsign Hlow].
  unfold PyFloat.py_float. rewrite Hsign.
  rewrite (proj1 (Hlow "nf")), (proj1 (Hlow "nfinity")), (proj2 (Hlow "an")).
  reflexivity.
Qed.

(** [number] on a token that does not start with a dot. *)
Lemma number_digit_start (c : ascii) (s : string) :
  PyStr.is_digit c = true →
  PyFloat.number false (String c s) =
  match PyFloat.digitpart (String c s) 0 0 false with
  | Some (m, _, String "." rest) =>
      if PyFloat.starts_digit rest then
        match PyFloat.digitpart rest m 0 false with
        | Some (m', k, rest') =>
            match PyFloat.exponent rest' with
            | Some e => Some (PyFloat.of_decimal false m' (e - Z.of_nat k))
            | None => None
            end
        | None => None
        end
      else
        match PyFloat.exponent rest with
        | Some e => Some (PyFloat.of_decimal false m (e - Z.of_nat 0))
        | None => None
        end
  | Some (m, _, rest) =>
      match PyFloat.exponent rest with
      | Some e => Some (PyFloat.of_decimal false m (e - Z.of_nat 0))
      | None => None
      end
  | None => None
  end.
Proof.
  intros Hc. unfold PyFloat.number.
  destruct c as [[] [] [] [] [] [] [] []]; try discriminate; reflexivity.
Qed.

(** Python's [float] reads every name of digits with at most one dot. *)
Lemma py_float_numeric (s : string) :
  Reader.numeric_name s = true → (Reader.dots s <= 1)%nat →
  ∃ v, PyFloat.py_float s = Some v.
Proof.
  unfold Reader.numeric_name, PyStr.isdigit. intros Hn Hdots.
  apply andb_true_iff in Hn as [Hne Hd].
  destruct (numeric_shape s Hd Hdots) as [Hs | (a & b & -> & Ha & Hb)].
  - (* digits only *)
    destruct s as [|c s]; [discriminate|].
    pose proof Hs as Hs'.
    cbn [PyStr.all_digits] in Hs'. apply andb_true_iff in Hs' as [Hc _].
    rewrite py_float_plain by auto. rewrite number_digit_start by assumption.
    destruct (digitpart_digits (String c s) 0%Z 0%nat false Hs) as (m & k & ->).
    { right. discriminate. }
    cbn. eauto.
  - destruct a as [|c a].
    + (* a dot, then digits *)
      rewrite append_nil in *.
      destruct b as [|d b]; [discriminate|].
      rewrite py_float_plain by auto.
      unfold PyFloat.number.
      destruct (digitpart_digits (String d b) 0%Z 0%nat false Hb) as (m & k & ->).
      { right. discriminate. }
      cbn. eauto.
    + (* digits, a dot, then digits or nothing *)
      rewrite append_cons in *.
      pose proof Ha as Ha'.
      cbn [PyStr.all_digits] in Ha'. apply andb_true_iff in Ha' as [Hc _].
      rewrite py_float_plain by auto. rewrite number_digit_start by assumption.
      rewrite <- append_cons.
      destruct (digitpart_dot (String c a) b 0%Z 0%nat false Ha) as (m & k & ->).
      { right. discriminate. }
      destruct b as [|d b].
      * cbn. eauto.
      * pose proof Hb as Hb'.
        cbn [PyStr.all_digits] in Hb'. apply andb_true_iff in Hb' as [Hd' _].
        cbn [PyFloat.starts_digit]. rewrite Hd'.
        destruct (digitpart_digits (String d b) m 0%nat false Hb) as (m' & k' & ->).
        { right. discriminate. }
        cbn. eauto.
Qed.

End PyFloatSpec.

(** ** The parser *)

Module ParserSpec.
Import Parser.

Section WithFloat.

Variable py_float : string -> option float.

Abbreviation step := (step py_float).
Abbreviation row_of_line := (row_of_line py_float).
Abbreviation body_rows := (body_rows py_float).
Abbreviation parse := (parse_experimental_file py_float).
Abbreviation inv := (inv py_float).

Lemma is_header_nonempty raw :
  is_header raw = true → PyStr.is_empty (PyStr.strip raw) = false.
Proof.
  unfold is_header. destruct (PyStr.strip raw); [discriminate | reflexivity].
Qed.

Lemma closed_at_snoc ls k body l :
  closed_at ls k body → closed_at (ls ++ [l]) k body.
Proof.
  intros (pre & hdr & h & t & -> & Hh & Hk & Hb & Hn).
  exists pre, hdr, h, (t ++ [l]). repeat split; try assumption.
  rewrite <- !app_assoc. simpl. rewrite <- app_assoc. reflexivity.
Qed.

Lemma open_at_snoc ls k body l :
  is_header l = false → open_at ls k body → open_at (ls ++ [l]) k (body ++ [l]).
Proof.
  intros Hl (pre & hdr & -> & Hh & Hk & Hb).
  exists pre, hdr. repeat split; try assumption.
  - rewrite <- app_assoc. reflexivity.
  - apply Forall_app; split; [assumption | repeat constructor; assumption].
Qed.

Lemma open_at_close ls k body h :
  is_header h = true → open_at ls k body → closed_at (ls ++ [h]) k body.
Proof.
  intros Hl (pre & hdr & -> & Hh & Hk & Hb).
  exists pre, hdr, h, []. repeat split; try assumption.
  rewrite <- app_assoc. reflexivity.
Qed.

Lemma open_at_new ls h : is_header h = true → open_at (ls ++ [h]) (PyStr.strip h) [].
Proof. intros Hh. exists ls, h. repeat split; [assumption | constructor]. Qed.

Lemma body_rows_snoc body l :
  body_rows (body ++ [l]) =
  body_rows body ++ match row_of_line l with Some r => [r] | None => [] end.
Proof.
  unfold Parser.body_rows. rewrite omap_app. simpl.
  destruct (row_of_line l); reflexivity.
Qed.

(** What is stored once the open section is flushed comes from a closed
    section or from the open one. *)
Lemma flush_lookup st k rws :
  flush st !! k = Some rws →
  data st !! k = Some rws ∨
  (current_section st = Some k ∧ PyStr.is_empty k = false ∧
   rws = current_data st ∧ rws ≠ []).
Proof.
  unfold flush, open_section.
  destruct (current_section st) as [s|]; [|auto].
  destruct (PyStr.is_empty s) eqn:Hs; [auto|].
  destruct (current_data st) as [|r cd] eqn:Hcd; [auto|].
  rewrite lookup_insert. case_decide as Hk.
  - intros [= <-]. subst k. right. repeat split; [assumption | discriminate].
  - auto.
Qed.

Lemma inv_init : inv [] init.
Proof.
  split.
  - intros k rws. simpl. rewrite lookup_empty. discriminate.
  - simpl. split; [constructor | reflexivity].
Qed.

Lemma inv_step ls st l : inv ls st → inv (ls ++ [l]) (step st l).
Proof.
  intros [Hd Hc]. unfold Parser.step.
  destruct (PyStr.is_empty (PyStr.strip l)) eqn:He.
  { (* a blank line *)
    assert (Hl : is_header l = false).
    { unfold is_header. destruct (PyStr.strip l); [reflexivity | discriminate]. }
    assert (Hr : row_of_line l = None) by (unfold Parser.row_of_line; rewrite He; reflexivity).
    split.
    - intros k rws Hk. destruct (Hd k rws Hk) as (Hne & body & Hcl & ->).
      split; [assumption|]. exists body. split; [apply closed_at_snoc; assumption | reflexivity].
    - destruct (current_section st) as [s|].
      + destruct Hc as (Hs & body & Ho & Hcd). split; [assumption|].
        exists (body ++ [l]). split; [apply open_at_snoc; assumption|].
        rewrite body_rows_snoc, Hr, app_nil_r. assumption.
      + destruct Hc as [Hf Hcd]. split; [|assumption].
        apply Forall_app; split; [assumption | repeat constructor; assumption]. }
  destruct (PyStr.startswith "plot-" (PyStr.strip l)) eqn:Hh.
  { (* a header *)
    split; simpl.
    - intros k rws Hk. apply flush_lookup in Hk as [Hk | (Hcs & Hk & -> & Hne)].
      + destruct (Hd k rws Hk) as (Hne & body & Hcl & ->).
        split; [assumption|]. exists body. split; [apply closed_at_snoc; assumption | reflexivity].
      + rewrite Hcs in Hc. destruct Hc as (_ & body & Ho & Hcd).
        split; [assumption|]. exists body. split; [|assumption].
        apply open_at_close; assumption.
    - split; [assumption|]. exists []. split; [apply open_at_new; assumption | reflexivity]. }
  (* a data line *)
  assert (Hl : is_header l = false) by exact Hh.
  assert (Hr : row_of_line l = row_of_parts py_float (tokens (PyStr.strip l)))
    by (unfold Parser.row_of_line; rewrite He; reflexivity).
  assert (Hd' : ∀ k rws, data st !! k = Some rws →
            rws ≠ [] ∧ ∃ body, closed_at (ls ++ [l]) k body ∧ rws = body_rows body).
  { intros k rws Hk. destruct (Hd k rws Hk) as (Hne & body & Hcl & ->).
    split; [assumption|]. exists body. split; [apply closed_at_snoc; assumption | reflexivity]. }
  destruct (current_section st) as [s|] eqn:Hcs; simpl.
  - destruct Hc as (Hs & body & Ho & Hcd). rewrite Hs.
    rewrite <- Hr.
    destruct (row_of_line l) as [row|] eqn:Hrow.
    + split; simpl; [assumption|]. split; [assumption|].
      exists (body ++ [l]). split; [apply open_at_snoc; assumption|].
      rewrite body_rows_snoc, Hrow, Hcd. reflexivity.
    + split; [assumption|]. rewrite Hcs. split; [assumption|].
      exists (body ++ [l]). split; [apply open_at_snoc; assumption|].
      rewrite body_rows_snoc, Hrow, app_nil_r. assumption.
  - split; [assumption|]. rewrite Hcs. destruct Hc as [Hf Hcd]. split; [|assumption].
    apply Forall_app; split; [assumption | repeat constructor; assumption].
Qed.

Lemma inv_fold ls : inv ls (fold_left step ls init).
Proof.
  induction ls as [|l ls IH] using rev_ind.
  - apply inv_init.
  - rewrite fold_left_app. simpl. apply inv_step. assumption.
Qed.

Lemma closed_section ls k body : closed_at ls k body → section_at ls k body.
Proof.
  intros (pre & hdr & h & t & -> & Hh & Hk & Hb & Hn).
  exists pre, hdr, (h :: t). repeat split; try assumption. right. eauto.
Qed.

Lemma open_section_at ls k body : open_at ls k body → section_at ls k body.
Proof.
  intros (pre & hdr & -> & Hh & Hk & Hb).
  exists pre, hdr, []. repeat split; try assumption.
  - rewrite app_nil_r. reflexivity.
  - left. reflexivity.
Qed.

(** Every stored table is the non-empty list of the rows of one section
    of the file. *)
Lemma parse_stored lines k rws :
  parse lines !! k = Some rws →
  rws ≠ [] ∧ ∃ body, section_at lines k body ∧ rws = body_rows body.
Proof.
  unfold Parser.parse_experimental_file. intros Hk.
  destruct (inv_fold lines) as [Hd Hc].
  apply flush_lookup in Hk as [Hk | (Hcs & Hk & -> & Hne)].
  - destruct (Hd k rws Hk) as (Hne & body & Hcl & ->).
    split; [assumption|]. exists body. split; [apply closed_section; assumption | reflexivity].
  - rewrite Hcs in Hc. destruct Hc as (_ & body & Ho & Hcd).
    split; [assumption|]. exists body. split; [apply open_section_at; assumption | assumption].
Qed.

Lemma step_no_header st l :
  current_section st = None → is_header l = false → step st l = st.
Proof.
  intros Hcs Hl. unfold Parser.step.
  destruct (PyStr.is_empty (PyStr.strip l)); [reflexivity|].
  unfold is_header in Hl. rewrite Hl, Hcs. reflexivity.
Qed.

Lemma fold_no_header lines :
  Forall (λ l, is_header l = false) lines → fold_left step lines init = init.
Proof.
  induction 1 as [|l ls Hl _ IH]; [reflexivity|].
  simpl. rewrite step_no_header by (reflexivity || assumption). assumption.
Qed.

Lemma two_numbers_false raw :
  two_numbers py_float raw = false → row_of_line raw = None.
Proof.
  unfold Parser.two_numbers, Parser.row_of_line, Parser.row_of_parts.
  destruct (PyStr.is_empty (PyStr.strip raw)); [reflexivity|].
  destruct (tokens (PyStr.strip raw)) as [|p0 [|p1 ps]]; try reflexivity.
  destruct (py_float p0) as [r|]; [|reflexivity].
  destruct (py_float p1) as [u|]; [|reflexivity].
  intros H. exfalso. apply andb_false_iff in H as [H | H];
    apply bool_decide_eq_false in H; apply H; eexists; reflexivity.
Qed.

(** A line that is no header and appends no row leaves the state as it
    is. *)
Lemma step_skip st raw :
  is_header raw = false → row_of_line raw = None → step st raw = st.
Proof.
  unfold is_header, Parser.row_of_line, Parser.step. intros Hh Hr.
  destruct (PyStr.is_empty (PyStr.strip raw)); [reflexivity|].
  rewrite Hh, Hr. destruct (open_section (current_section st)); reflexivity.
Qed.

(** C8: every stored section has at least one row; its rows are those of
    the lines of one section of the file, in the order of these lines; a
    label whose sections have no valid row is not stored; and a file
    without a line starting with [plot-] gives the empty dataset.  (The
    parser strips a line before it looks at it: a header is a line whose
    text after the leading white space starts with [plot-].) *)
Theorem C8_stored_sections (lines : list string) :
  (∀ k rws, parse lines !! k = Some rws →
     rws ≠ [] ∧ ∃ body, section_at lines k body ∧ rws = body_rows body) ∧
  (∀ k, (∀ body, section_at lines k body → body_rows body = []) →
     parse lines !! k = None) ∧
  (Forall (λ l, is_header l = false) lines → parse lines = ∅).
Proof.
  split; [|split].
  - intros k rws. apply parse_stored.
  - intros k Hall. destruct (parse lines !! k) as [rws|] eqn:Hk; [|reflexivity].
    apply parse_stored in Hk as (Hne & body & Hs & ->).
    exfalso. apply Hne, Hall. assumption.
  - intros Hno. unfold Parser.parse_experimental_file.
    rewrite fold_no_header by assumption. reflexivity.
Qed.

(** C9: a line whose first two tokens are not both numbers (or that has
    fewer than two tokens) adds no row: when it is no header the loop
    state is unchanged and the file parses as it does without the line;
    when it is a header the rows stored after it were already there, in
    the dataset or in the open section.  The parser is a total function:
    it goes through all the lines and raises nothing. *)
Theorem C9_line_without_two_numbers (raw : string)
    (Hbad : two_numbers py_float raw = false) :
  (∀ st, is_header raw = false → step st raw = st) ∧
  (∀ st,
     (current_data (step st raw) = current_data st ∨ current_data (step st raw) = []) ∧
     (∀ k rws, data (step st raw) !! k = Some rws →
        data st !! k = Some rws ∨ rws = current_data st)) ∧
  (∀ pre post, is_header raw = false →
     parse (pre ++ raw :: post) = parse (pre ++ post)).
Proof.
  pose proof (two_numbers_false raw Hbad) as Hr.
  split; [|split].
  - intros st Hh. apply step_skip; assumption.
  - intros st. destruct (is_header raw) eqn:Hh.
    + unfold Parser.step. rewrite (is_header_nonempty raw Hh).
      unfold is_header in Hh. rewrite Hh. simpl. split; [right; reflexivity|].
      intros k rws Hk. apply flush_lookup in Hk as [Hk | (_ & _ & -> & _)]; auto.
    + rewrite step_skip by assumption. auto.
  - intros pre post Hh. unfold Parser.parse_experimental_file.
    rewrite !fold_left_app. simpl. rewrite step_skip by assumption. reflexivity.
Qed.

End WithFloat.

(** A line with one number and a word, under Python's [float]. *)
Lemma C9_line_without_two_numbers_witness :
  two_numbers PyFloat.py_float "0.004  n/a" = false ∧
  ∀ pre post, is_header "0.004  n/a" = false →
    parse_experimental_file PyFloat.py_float (pre ++ "0.004  n/a" :: post) =
    parse_experimental_file PyFloat.py_float (pre ++ post).
Proof.
  split; [vm_compute; reflexivity|].
  apply (C9_line_without_two_numbers PyFloat.py_float "0.004  n/a").
  vm_compute. reflexivity.
Defined.

End ParserSpec.

(** ** The sample reader *)

Module ReaderSpec.
Import Reader.

Local Open Scope float_scope.

Section WithFloat.

Variable py_float : string -> option float.

Abbreviation time_key := (time_key py_float).
Abbreviation max_from := (max_from py_float).
Abbreviation max_by_key := (max_by_key py_float).
Abbreviation select_time_dir := (select_time_dir py_float).
Abbreviation read_openfoam_sample := (read_openfoam_sample py_float).

(** [max(..., key=...)] on the items [pre ++ best :: mid ++ rest], of
    which [rest] is still to come: [best] holds the first greatest key so
    far, and so does the result in the end. *)
Lemma max_from_first (rest : list (string * node)) : ∀ pre best kbest mid,
  (∀ d' k', d' ∈ pre → time_key (fst d') = Ok k' → (kbest <=? k') = false) →
  (∀ d' k', d' ∈ mid → time_key (fst d') = Ok k' → (kbest <? k') = false) →
  time_key (fst best) = Ok kbest →
  (∀ d, d ∈ rest → ∃ v, time_key (fst d) = Ok v) →
  ∃ d k pre' post',
    max_from best kbest rest = Ok d ∧
    pre ++ best :: mid ++ rest = pre' ++ d :: post' ∧
    time_key (fst d) = Ok k ∧
    (∀ d' k', d' ∈ pre' → time_key (fst d') = Ok k' → (k <=? k') = false) ∧
    (∀ d' k', d' ∈ post' → time_key (fst d') = Ok k' → (k <? k') = false).
Proof.
  induction rest as [|d1 rest IH]; intros pre best kbest mid Hpre Hmid Hbest Hkeys.
  - exists best, kbest, pre, mid. rewrite app_nil_r. repeat split; assumption.
  - destruct (Hkeys d1) as [k1 Hk1]; [left|].
    assert (Hrest : ∀ d, d ∈ rest → ∃ v, time_key (fst d) = Ok v)
      by (intros d Hd; apply Hkeys; right; assumption).
    cbn [Reader.max_from]. rewrite Hk1. cbn.
    destruct (kbest <? k1) eqn:Hlt.
    + destruct (IH (pre ++ best :: mid) d1 k1 []) as (d & k & pre' & post' & Hm & Heq & Hr);
        try assumption.
      * intros d' k' Hd' Hk'. apply elem_of_app in Hd' as [Hd' | Hd'];
          [|apply elem_of_cons in Hd' as [-> | Hd']].
        -- apply (FloatOrder.above_not_leb kbest); [assumption|].
           apply FloatOrder.not_leb_not_ltb. eapply Hpre; eassumption.
        -- assert (k' = kbest) by congruence. subst k'.
           apply (FloatOrder.above_not_leb kbest); [assumption|].
           apply FloatOrder.ltb_irrefl.
        -- apply (FloatOrder.above_not_leb kbest); [assumption|].
           eapply Hmid; eassumption.
      * intros d' k' Hd'. inversion Hd'.
      * exists d, k, pre', post'. split; [assumption|]. split; [|assumption].
        rewrite <- Heq, <- app_assoc. reflexivity.
    + destruct (IH pre best kbest (mid ++ [d1])) as (d & k & pre' & post' & Hm & Heq & Hr);
        try assumption.
      * intros d' k' Hd' Hk'. apply elem_of_app in Hd' as [Hd' | Hd'].
        -- eapply Hmid; eassumption.
        -- apply list_elem_of_singleton in Hd'. subst d'.
           assert (k' = k1) by congruence. subst k'. assumption.
      * exists d, k, pre', post'. split; [assumption|]. split; [|assumption].
        rewrite <- Heq, <- app_assoc. reflexivity.
Qed.

Lemma max_by_key_first (ts : list (string * node)) :
  ts ≠ [] →
  (∀ d, d ∈ ts → ∃ v, time_key (fst d) = Ok v) →
  ∃ d k pre post,
    max_by_key ts = Ok (Some d) ∧ ts = pre ++ d :: post ∧
    time_key (fst d) = Ok k ∧
    (∀ d' k', d' ∈ pre → time_key (fst d') = Ok k' → (k <=? k') = false) ∧
    (∀ d' k', d' ∈ post → time_key (fst d') = Ok k' → (k <? k') = false).
Proof.
  destruct ts as [|d0 rest]; [contradiction|]. intros _ Hkeys.
  destruct (Hkeys d0) as [k0 Hk0]; [left|].
  destruct (max_from_first rest [] d0 k0 []) as (d & k & pre & post & Hm & Heq & Hr);
    try assumption.
  - intros d' k' Hd'. inversion Hd'.
  - intros d' k' Hd'. inversion Hd'.
  - intros d Hd. apply Hkeys. right. assumption.
  - exists d, k, pre, post. cbn [Reader.max_by_key]. rewrite Hk0. cbn. rewrite Hm. cbn.
    split; [reflexivity|]. split; [exact Heq | assumption].
Qed.

Lemma time_key_other (name : string) : numeric_name name = false → time_key name = Ok 0.
Proof. unfold Reader.time_key. intros ->. reflexivity. Qed.

End WithFloat.

(** Under Python's [float] the key of a name with at most one dot raises
    nothing. *)
Lemma time_key_one_dot (name : string) :
  (dots name <= 1)%nat → ∃ v, time_key PyFloat.py_float name = Ok v.
Proof.
  intros Hdots. unfold time_key.
  destruct (numeric_name name) eqn:Hn; [|eauto].
  destruct (PyFloatSpec.py_float_numeric name Hn Hdots) as [v ->]. eauto.
Qed.

(** C2 as stated fails: a name that is no number shares the time 0 with
    the directory "0", and listed before it, it is the one selected,
    though it is not the only entry. *)
Lemma C2_counterexample :
  let es := [("latest_garbage", Dir []); ("0", Dir [])] in
  select_time_dir PyFloat.py_float (Some (Dir es)) LatestTime
    = Ok (Some ("latest_garbage", Dir [])) ∧
  numeric_name "latest_garbage" = false ∧
  times es = es.
Proof. vm_compute. repeat split. Qed.

(** C2, amended: when no key raises, the most recent time is the first
    listed of the subdirectories of greatest time value (that of its
    name, 0 for a name that is no number): no subdirectory listed before
    it has a time value at or above its own and none listed after it has
    one above; so a name that is no number is selected only when no
    subdirectory has a time above 0; of the names "0", "10", "2.5",
    "latest_garbage" it is "10"; without subdirectories the reader
    reports not found. *)
Theorem C2_latest_time (py_float : string → option float)
    (es : list (string * node))
    (Hkeys : ∀ d, d ∈ times es → ∃ v, time_key py_float (fst d) = Ok v) :
  (times es = [] →
   select_time_dir py_float (Some (Dir es)) LatestTime = Ok None ∧
   ∀ set_name, read_openfoam_sample py_float (Some (Dir es)) set_name LatestTime = Ok None) ∧
  (times es ≠ [] →
   ∃ d k pre post,
     select_time_dir py_float (Some (Dir es)) LatestTime = Ok (Some d) ∧
     times es = pre ++ d :: post ∧ time_key py_float (fst d) = Ok k ∧
     (∀ d' k', d' ∈ pre → time_key py_float (fst d') = Ok k' → (k <=? k') = false) ∧
     (∀ d' k', d' ∈ post → time_key py_float (fst d') = Ok k' → (k <? k') = false) ∧
     (numeric_name (fst d) = false →
      ∀ d' k', d' ∈ times es → time_key py_float (fst d') = Ok k' → (0 <? k') = false)) ∧
  select_time_dir PyFloat.py_float (Some (Dir four_times)) LatestTime = Ok (Some ("10", Dir [])).
Proof.
  split; [|split].
  - intros Hnil. unfold read_openfoam_sample, select_time_dir. cbn. rewrite Hnil.
    split; reflexivity.
  - intros Hne. destruct (max_by_key_first py_float (times es) Hne Hkeys)
      as (d & k & pre & post & Hm & Heq & Hk & Hpre & Hpost).
    exists d, k, pre, post. unfold select_time_dir. cbn.
    repeat split; try assumption.
    intros Hnum d' k' Hd' Hk'. rewrite (time_key_other py_float _ Hnum) in Hk.
    injection Hk as <-. rewrite Heq in Hd'.
    apply elem_of_app in Hd' as [Hd' | Hd']; [|apply elem_of_cons in Hd' as [-> | Hd']].
    + apply FloatOrder.not_leb_not_ltb. eapply Hpre; eassumption.
    + rewrite (time_key_other py_float _ Hnum) in Hk'. injection Hk' as <-. reflexivity.
    + eapply Hpost; eassumption.
  - vm_compute. reflexivity.
Qed.

(** The four directories of the example. *)
Lemma C2_latest_time_witness :
  ∃ d k pre post,
    select_time_dir PyFloat.py_float (Some (Dir four_times)) LatestTime = Ok (Some d) ∧
    times four_times = pre ++ d :: post ∧ time_key PyFloat.py_float (fst d) = Ok k ∧
    (∀ d' k', d' ∈ pre → time_key PyFloat.py_float (fst d') = Ok k' → (k <=? k') = false) ∧
    (∀ d' k', d' ∈ post → time_key PyFloat.py_float (fst d') = Ok k' → (k <? k') = false) ∧
    (numeric_name (fst d) = false →
     ∀ d' k', d' ∈ times four_times →
              time_key PyFloat.py_float (fst d') = Ok k' → (0 <? k') = false).
Proof.
  refine (proj1 (proj2 (C2_latest_time PyFloat.py_float four_times _)) _).
  - intros d Hd. apply time_key_one_dot. vm_compute in Hd.
    repeat (apply elem_of_cons in Hd as [-> | Hd]; [vm_compute; lia|]).
    inversion Hd.
  - discriminate.
Defined.

Lemma read_rows_no_data (py_float : string → option float) (lines : list string)
    (ncols : option nat) :
  Forall (λ l, PyStr.split (Np.strip_comment l) = []) lines →
  Np.read_rows py_float ncols lines = Ok [].
Proof.
  induction 1 as [|l ls Hl _ IH]; [reflexivity|].
  cbn [Np.read_rows]. rewrite Hl. assumption.
Qed.

Lemma loadtxt_no_data (py_float : string → option float) (content : string) :
  no_data content → Np.loadtxt py_float content = Ok (Np.Arr1 []).
Proof.
  intros H. unfold Np.loadtxt. rewrite (read_rows_no_data py_float _ None H). reflexivity.
Qed.

(** A name with two dots passes the test on its digits, and [float]
    raises on it. *)
Example two_dots_raise :
  numeric_name "1.2.3" = true ∧
  select_time_dir PyFloat.py_float (Some (Dir [("1.2.3", Dir [])])) LatestTime
    = Raise ValueError.
Proof. vm_compute. split; reflexivity. Qed.

(** Without a sampling root the listing of the most recent time raises,
    and the look-up of a named time reports not found. *)
Example missing_root :
  read_openfoam_sample PyFloat.py_float None "centerline" LatestTime
    = Raise FileNotFoundError ∧
  read_openfoam_sample PyFloat.py_float None "centerline" (AtTime "0.5") = Ok None.
Proof. vm_compute. split; reflexivity. Qed.

(** A table of a single row is read as an array of one dimension, on
    which the column index raises. *)
Example single_row_raises :
  read_openfoam_sample PyFloat.py_float
    (Some (Dir [("0.5", Dir [("centerline_p_U.xy", File "0 1 2 3 4")])]))
    "centerline" LatestTime = Raise IndexError.
Proof. vm_compute. reflexivity. Qed.

(** C1 as stated fails: on a table with a field that is no number
    [np.loadtxt] raises and the reader lets the [ValueError] through; on a
    table of two columns the reader returns positions and pressures with
    velocity rows that are empty. *)
Lemma C1_counterexample :
  let bad := Some (Dir [("0.5", Dir [("centerline_p_U.xy", File "0.0 1.0 n/a 0.0 0.0")])]) in
  let narrow := Some (Dir [("0.5", Dir [("centerline_p_U.xy", File "0 1
2 3")])]) in
  read_openfoam_sample PyFloat.py_float bad "centerline" LatestTime = Raise ValueError ∧
  read_openfoam_sample PyFloat.py_float bad "centerline" (AtTime "0.5") = Raise ValueError ∧
  read_openfoam_sample PyFloat.py_float narrow "centerline" LatestTime
    = Ok (Some (mk_sample [0; 2] [1; 3] [[]; []])).
Proof. vm_compute. repeat split. Qed.

(** C1, amended: the reader returns the not-found triple, and raises
    nothing, when the time directory asked for does not exist, when no
    time directory is selected, when the table file is not in the time
    directory, and when the table has no data. *)
Theorem C1_not_found (py_float : string → option float)
    (sample_dir : option node) (set_name : string) (time : time_sel)
    (Hcase : not_found py_float sample_dir set_name time) :
  read_openfoam_sample py_float sample_dir set_name time = Ok None.
Proof.
  unfold read_openfoam_sample.
  destruct Hcase as [(name & -> & Hname) | [Hsel | (d & Hsel & Hfile)]].
  - cbn. rewrite Hname. reflexivity.
  - rewrite Hsel. reflexivity.
  - rewrite Hsel. destruct d as [name time_dir]. cbn [snd] in Hfile.
    cbn -[child xy_name Np.loadtxt].
    destruct Hfile as [-> | (content & -> & Hno)]; [reflexivity|].
    rewrite (loadtxt_no_data py_float content Hno). reflexivity.
Qed.

(** A time directory whose table holds a comment and blank lines. *)
Lemma C1_not_found_witness :
  read_openfoam_sample PyFloat.py_float
    (Some (Dir [("0.5", Dir [("centerline_p_U.xy", File "# x p Ux Uy Uz

")])]))
    "centerline" LatestTime = Ok None.
Proof.
  apply C1_not_found. right; right.
  exists ("0.5", Dir [("centerline_p_U.xy", File "# x p Ux Uy Uz

")]).
  split; [vm_compute; reflexivity|]. right. eexists. split; [vm_compute; reflexivity|].
  unfold no_data. vm_compute. repeat constructor.
Defined.

End ReaderSpec.

(** ** Error metrics *)

Module MetricsSpec.
Import Metrics.

Local Open Scope float_scope.

Lemma any_mask_false (us : list float) :
  Np.any (nonzero_mask us) = false ↔ Forall (λ u, (u =? 0) = true) us.
Proof.
  unfold Np.any, nonzero_mask. induction us as [|u us IH]; simpl.
  - split; [constructor | reflexivity].
  - rewrite orb_false_iff, negb_false_iff, IH. split.
    + intros [Hu Hus]. constructor; assumption.
    + intros H. inversion H; subst. split; assumption.
Qed.

(** The function on a non-empty simulation abscissa and a paired
    experimental curve with a value that is not zero. *)
Lemma metrics_unfold (xs us xp : list float) (x : float) (sim_u : option (list float)) :
  length xs = length us → Np.any (nonzero_mask us) = true →
  calculate_error_metrics (Some xs) (Some us) (Some (x :: xp)) sim_u =
  match Np.interp (Np.select_items (nonzero_mask us) xs) (x :: xp) sim_u with
  | Raise _ => Ok None
  | Ok sim_interp =>
      Ok (Some (metrics_of
                  (sub_arrays sim_interp (Np.select_items (nonzero_mask us) us))
                  (Np.select_items (nonzero_mask us) us)))
  end.
Proof.
  intros Hlen Hany. unfold calculate_error_metrics. rewrite Hany. simpl negb. cbv iota.
  assert (Hm : length (nonzero_mask us) = length xs)
    by (unfold nonzero_mask; rewrite length_map; auto).
  unfold Np.select. rewrite Hm, Nat.eqb_refl. reflexivity.
Qed.

(** C3: on a paired experimental curve the result is [None] exactly when
    the simulation abscissa is absent or empty, the experimental abscissa
    is absent, every experimental value is zero, or the interpolation
    fails; on every other input it is a record of the five metrics. *)
Theorem C3_undefined_exactly (exp_r exp_u sim_r sim_u : option (list float))
    (Hpaired : paired exp_r exp_u) :
  (calculate_error_metrics exp_r exp_u sim_r sim_u = Ok None
   ↔ undefined_input exp_r exp_u sim_r sim_u) ∧
  (¬ undefined_input exp_r exp_u sim_r sim_u →
   ∃ m, calculate_error_metrics exp_r exp_u sim_r sim_u = Ok (Some m)).
Proof.
  unfold undefined_input.
  destruct sim_r as [[|x xp]|].
  - split; [split; [auto | destruct exp_r; reflexivity] | intros H; exfalso; auto].
  - destruct exp_r as [xs|].
    2:{ split; [split; [auto | reflexivity] | intros H; exfalso; auto]. }
    destruct (Hpaired xs eq_refl) as (us & -> & Hlen).
    destruct (Np.any (nonzero_mask us)) eqn:Hany.
    2:{ assert (Hz : all_zero (Some us)) by (exists us; split; [reflexivity | apply any_mask_false; assumption]).
        assert (Hn : calculate_error_metrics (Some xs) (Some us) (Some (x :: xp)) sim_u = Ok None)
          by (unfold calculate_error_metrics; rewrite Hany; reflexivity).
        split; [split; auto | intros H; exfalso; auto 6]. }
    rewrite (metrics_unfold xs us xp x sim_u Hlen Hany).
    assert (Hnz : ¬ all_zero (Some us)).
    { intros (us' & [= <-] & Hall). apply any_mask_false in Hall. congruence. }
    destruct sim_u as [fp|]; [|cbn [Np.interp]].
    2:{ assert (Hf : interp_fails (Some (x :: xp)) None) by (exists (x :: xp); auto).
        split; [split; auto 6 | intros H; exfalso; auto 6]. }
    destruct (Nat.eq_dec (length fp) (length (x :: xp))) as [Heq | Hne].
    + destruct (NpSpec.interp_some (Np.select_items (nonzero_mask us) xs) (x :: xp) fp)
        as (ys & -> & _); [discriminate | assumption |].
      split; [|eauto]. split; [discriminate|].
      intros [H | [H | [H | [H | (xp' & [= <-] & [H | (fp' & [= <-] & H)])]]]];
        try discriminate; try contradiction.
    + rewrite NpSpec.interp_mismatch by (discriminate || assumption).
      assert (Hf : interp_fails (Some (x :: xp)) (Some fp)).
      { exists (x :: xp). split; [reflexivity|]. right. exists fp. auto. }
      split; [split; auto 6 | intros H; exfalso; auto 6].
  - split; [split; [auto | reflexivity] | intros H; exfalso; auto].
Qed.

(** A measured curve that is zero everywhere. *)
Lemma C3_undefined_exactly_witness :
  calculate_error_metrics (Some [0; 1]) (Some [0; -0]) (Some [0; 1]) (Some [3; 4]) = Ok None.
Proof.
  refine (proj2 (proj1 (C3_undefined_exactly (Some [0; 1]) (Some [0; -0]) (Some [0; 1]) (Some [3; 4]) _)) _).
  - intros xs [= <-]. exists [0; -0]. split; reflexivity.
  - right; right; right; left. exists [0; -0]. split; [reflexivity|].
    repeat constructor.
Defined.

(** Outside paired arrays the function raises: without the experimental
    values, and with more values than positions. *)
Example unpaired_raises :
  calculate_error_metrics (Some [0; 1]) None (Some [0; 1]) (Some [3; 4]) = Raise TypeError ∧
  calculate_error_metrics (Some [0; 1]) (Some [5; 6; 7]) (Some [0; 1]) (Some [3; 4])
    = Raise IndexError.
Proof. vm_compute. split; reflexivity. Qed.

(** C4: two identical curves over [0,1,2] with values [1,2,3] give
    RMSE 0, MAE 0, R2 1, MaxErr 0 and NRMSE 0. *)
Theorem C4_identical_curves :
  calculate_error_metrics (Some [0; 1; 2]) (Some [1; 2; 3]) (Some [0; 1; 2]) (Some [1; 2; 3])
  = Ok (Some {| RMSE := 0; MAE := 0; R2 := 1; MaxErr := 0; NRMSE := 0 |}).
Proof. vm_compute. reflexivity. Qed.

Section ConstantCurve.

Variable c : float.
Hypothesis Hnz : (c =? 0) = false.

Lemma mask_constant (us : list float) :
  Forall (λ u, u = c) us → nonzero_mask us = repeat true (length us).
Proof.
  induction 1 as [|u us -> _ IH]; [reflexivity|].
  simpl. rewrite Hnz, IH. reflexivity.
Qed.

Lemma select_all (xs : list float) (n : nat) :
  n = length xs → Np.select_items (repeat true n) xs = xs.
Proof.
  intros ->. induction xs as [|x xs IH]; [reflexivity|]. simpl. rewrite IH. reflexivity.
Qed.

Lemma any_constant (us : list float) :
  us ≠ [] → Forall (λ u, u = c) us → Np.any (nonzero_mask us) = true.
Proof.
  intros Hne Hc. rewrite (mask_constant us Hc).
  destruct us; [contradiction | reflexivity].
Qed.

Lemma errors_constant (us : list float) :
  is_finite c = true → Forall (λ u, u = c) us →
  sub_arrays us us = repeat 0 (length us).
Proof.
  intros Hf. induction 1 as [|u us -> _ IH]; [reflexivity|].
  simpl. rewrite IH, (FloatFacts.sub_self c Hf). reflexivity.
Qed.

Lemma deviations_constant (us : list float) :
  is_finite c = true → Forall (λ u, u = c) us →
  map (λ u, sq (u - c)) us = repeat 0 (length us).
Proof.
  intros Hf. induction 1 as [|u us -> _ IH]; [reflexivity|].
  simpl. rewrite IH, (FloatFacts.sub_self c Hf). reflexivity.
Qed.

End ConstantCurve.

Lemma squares_zero (n : nat) : map sq (repeat 0 n) = repeat 0 n.
Proof. induction n as [|n IH]; [reflexivity|]. simpl. rewrite IH. reflexivity. Qed.

(** C5 as stated fails: three experimental values 0.1, matched exactly by
    the simulation, have the binary64 mean 0.10000000000000002, so the
    total sum of squares is above zero and R2 is 1, not a NaN. *)
Lemma C5_counterexample :
  let exp_u := [tenth; tenth; tenth] in
  Forall (λ u, u = tenth) exp_u ∧ (tenth =? 0) = false ∧
  Np.interp [0; 1; 2] [0; 1; 2] (Some exp_u) = Ok exp_u ∧
  Np.mean exp_u = 0x1.999999999999bp-4 ∧
  ∃ m, calculate_error_metrics (Some [0; 1; 2]) (Some exp_u) (Some [0; 1; 2]) (Some exp_u)
       = Ok (Some m) ∧
       RMSE m = 0 ∧ R2 m = 1 ∧ is_nan (R2 m) = false.
Proof.
  cbv zeta. split; [repeat constructor|].
  repeat split; try (vm_compute; reflexivity).
  eexists. split; [vm_compute; reflexivity|]. repeat split.
Qed.

(** C5, amended: when the experimental values are all one finite constant
    that is not zero, there is at least one of them (and fewer than 2^63),
    their binary64 mean is that constant, and the interpolated simulation
    values are the experimental ones, the record has a NaN for R2 and
    RMSE 0. *)
Theorem C5_constant_curve (exp_r exp_u sim_r : list float)
    (sim_u : option (list float)) (c : float)
    (Hlen : length exp_r = length exp_u)
    (Hcount : (0 < Z.of_nat (length exp_u) < 2 ^ 63)%Z)
    (Hconst : Forall (λ u, u = c) exp_u)
    (Hnz : (c =? 0) = false)
    (Hfin : is_finite c = true)
    (Hmean : Np.mean exp_u = c)
    (Hmatch : Np.interp exp_r sim_r sim_u = Ok exp_u) :
  ∃ m, calculate_error_metrics (Some exp_r) (Some exp_u) (Some sim_r) sim_u = Ok (Some m) ∧
       is_nan (R2 m) = true ∧ RMSE m = 0.
Proof.
  assert (Hne : exp_u ≠ []) by (intros ->; simpl in Hcount; lia).
  destruct sim_r as [|x xp].
  { destruct sim_u; discriminate. }
  rewrite (metrics_unfold exp_r exp_u xp x sim_u Hlen (any_constant c Hnz exp_u Hne Hconst)).
  rewrite (mask_constant c Hnz exp_u Hconst).
  rewrite (select_all exp_r) by (symmetry; assumption).
  rewrite (select_all exp_u) by reflexivity.
  rewrite Hmatch. eexists. split; [reflexivity|].
  unfold metrics_of. cbn [R2 RMSE]. rewrite Hmean.
  rewrite (errors_constant c exp_u Hfin Hconst), (deviations_constant c exp_u Hfin Hconst).
  rewrite squares_zero, FloatFacts.sum_zeros, (FloatFacts.mean_zeros _ Hcount).
  split; reflexivity.
Qed.

(** Eight values 0.1 at eight positions: numpy adds them in eight
    running sums, and their mean is 0.1. *)
Lemma C5_constant_curve_witness :
  ∃ m, calculate_error_metrics
         (Some [0; 1; 2; 3; 4; 5; 6; 7]) (Some (repeat tenth 8))
         (Some [0; 1; 2; 3; 4; 5; 6; 7]) (Some (repeat tenth 8))
       = Ok (Some m) ∧
       is_nan (R2 m) = true ∧ RMSE m = 0.
Proof.
  apply (C5_constant_curve [0; 1; 2; 3; 4; 5; 6; 7] (repeat tenth 8)
           [0; 1; 2; 3; 4; 5; 6; 7] (Some (repeat tenth 8)) tenth);
    try (vm_compute; reflexivity).
  - simpl. lia.
  - repeat constructor.
Defined.

(** The grouping of the additions decides the mean: thirteen values 0.1
    are added as eight running sums and five more items, their mean is
    0.10000000000000002, and R2 is 1. *)
Example thirteen_tenths :
  let r := [0; 1; 2; 3; 4; 5; 6; 7; 8; 9; 10; 11; 12] in
  Np.mean (repeat tenth 8) = tenth ∧
  Np.mean (repeat tenth 13) = 0x1.999999999999bp-4 ∧
  ∃ m, calculate_error_metrics (Some r) (Some (repeat tenth 13))
         (Some r) (Some (repeat tenth 13)) = Ok (Some m) ∧
       RMSE m = 0 ∧ R2 m = 1.
Proof.
  cbv zeta. repeat split; try (vm_compute; reflexivity).
  eexists. split; [vm_compute; reflexivity|]. split; reflexivity.
Qed.

End MetricsSpec.

(** ** Jet width *)

Module JetSpec.
Import Jet.

Local Open Scope float_scope.

Lemma crossing_step (u_half r0 r1 u0 u1 : float) (r_pos u_pos : list float) :
  crossing u_half (r0 :: r1 :: r_pos) (u0 :: u1 :: u_pos) =
  if (u_half <=? u0) && (u1 <? u_half)
  then Some (2 * (r0 + (u_half - u0) / (u1 - u0) * (r1 - r0)))
  else crossing u_half (r1 :: r_pos) (u1 :: u_pos).
Proof. reflexivity. Qed.

Lemma crossing_none (u_half : float) (u_pos r_pos : list float) :
  no_crossing u_half u_pos → crossing u_half r_pos u_pos = None.
Proof.
  revert r_pos. induction u_pos as [|u0 u_pos IH]; intros r_pos Hno.
  - destruct r_pos as [|r0 [|r1 r_pos]]; reflexivity.
  - destruct r_pos as [|r0 [|r1 r_pos]]; try reflexivity.
    destruct u_pos as [|u1 u_pos]; [reflexivity|].
    rewrite crossing_step, (Hno 0%nat u0 u1) by reflexivity.
    apply IH. intros i v0 v1 H0 H1. apply (Hno (S i)); assumption.
Qed.

Lemma no_crossing_nan (u_half : float) (u_pos : list float) :
  Prim2SF u_half = S754_nan → no_crossing u_half u_pos.
Proof.
  intros Hn i v0 v1 _ _. rewrite (FloatFacts.leb_nan_l _ _ Hn). reflexivity.
Qed.

(** The function after its guard on the arguments, for paired arrays. *)
Lemma jet_width_unfold (r u : list float) (uc : float) :
  length r = length u →
  nth_error u (Np.argmin (map abs r)) = Some uc →
  calculate_jet_width (Some r) (Some u) =
  if (length r <? 3)%nat then Ok None
  else if uc <=? 0 then Ok None
  else Ok (crossing (uc / 2)
             (Np.select_items (map (λ x, 0 <=? x) r) r)
             (Np.select_items (map (λ x, 0 <=? x) r) u)).
Proof.
  intros Hlen Hc. unfold calculate_jet_width, item. rewrite Hc.
  destruct (length r <? 3)%nat; [reflexivity|]. simpl.
  destruct (uc <=? 0); [reflexivity|].
  unfold Np.select. rewrite length_map, Hlen, Nat.eqb_refl. reflexivity.
Qed.

(** The centerline sample: among positions that are no NaN, the one at
    [np.argmin(np.abs(r))] is at least as near to zero as every other. *)
Lemma center_closest (r : list float) :
  r ≠ [] → Forall (λ x, is_nan x = false) r →
  ∃ rc, nth_error r (Np.argmin (map abs r)) = Some rc ∧
        ∀ x, x ∈ r → (abs rc <=? abs x) = true.
Proof.
  intros Hne Hnan.
  destruct (NpSpec.argmin_least (map abs r)) as (m & Hm & Hle).
  - destruct r; [contradiction | discriminate].
  - apply Forall_map. eapply Forall_impl; [exact Hnan|].
    intros x Hx. apply FloatOrder.abs_not_nan. assumption.
  - rewrite nth_error_map in Hm.
    destruct (nth_error r (Np.argmin (map abs r))) as [rc|]; [|discriminate].
    injection Hm as <-. exists rc. split; [reflexivity|].
    intros x Hx. apply Hle. apply list_elem_of_fmap. exists x. auto.
Qed.

(** C6: for paired samples, the width is undefined when the velocity at
    the sample nearest to zero is not above zero, whatever the other
    samples, and when the samples at non-negative positions show no
    crossing of half that velocity; so it is for positions
    [-2,-1,0,1,2] with velocities [1,1,2,1,1]. *)
Theorem C6_undefined_width (r u : list float) (uc : float)
    (Hpaired : length r = length u)
    (Hcenter : nth_error u (Np.argmin (map abs r)) = Some uc) :
  ((0 <? uc) = false → calculate_jet_width (Some r) (Some u) = Ok None) ∧
  (no_crossing (uc / 2) (Np.select_items (map (λ x, 0 <=? x) r) u) →
   calculate_jet_width (Some r) (Some u) = Ok None) ∧
  calculate_jet_width (Some [-2; -1; 0; 1; 2]) (Some [1; 1; 2; 1; 1]) = Ok None.
Proof.
  rewrite (jet_width_unfold r u uc Hpaired Hcenter).
  split; [|split].
  - intros Hpos. destruct (length r <? 3)%nat; [reflexivity|].
    destruct (uc <=? 0) eqn:Hle; [reflexivity|].
    rewrite crossing_none; [reflexivity|].
    apply no_crossing_nan, FloatFacts.div_nan_l, FloatFacts.nan_of_compare; assumption.
  - intros Hno. destruct (length r <? 3)%nat; [reflexivity|].
    destruct (uc <=? 0); [reflexivity|].
    rewrite crossing_none by assumption. reflexivity.
  - vm_compute. reflexivity.
Qed.

(** A centerline velocity of zero under two fast neighbours. *)
Lemma C6_undefined_width_witness :
  calculate_jet_width (Some [-1; 0; 1; 2]) (Some [8; 0; 8; 1]) = Ok None.
Proof.
  refine (proj1 (C6_undefined_width [-1; 0; 1; 2] [8; 0; 8; 1] 0 _ _) _);
    vm_compute; reflexivity.
Defined.

(** C7: for positions [0,1,2,3] and velocities [4,4,1,0] the centerline
    value is 4 and the threshold 2; the first crossing is between the
    samples at r=1 (v=4) and r=2 (v=1); the radius there is
    1 + (2-4)/(1-4) and the width twice that, the binary64 value next to
    10/3. *)
Theorem C7_symmetric_decay :
  let r := [0; 1; 2; 3] in
  let u := [4; 4; 1; 0] in
  item u (Np.argmin (map abs r)) = Ok 4 ∧
  4 / 2 = 2 ∧
  crossing_index 2 u = Some 1%nat ∧
  calculate_jet_width (Some r) (Some u) = Ok (Some (2 * (1 + (2 - 4) / (1 - 4) * (2 - 1)))) ∧
  ∃ w q, calculate_jet_width (Some r) (Some u) = Ok (Some w) ∧
         Np.value w = Some q ∧
         (Qabs (q - (10 # 3)) <= 1 # 1000000000000000)%Q.
Proof.
  cbv zeta. repeat split; try (vm_compute; reflexivity).
  eexists _, _. split; [vm_compute; reflexivity|].
  split; [vm_compute; reflexivity|].
  vm_compute. discriminate.
Qed.

(** C10: with fewer than three positions, or without a position or a
    velocity array, the width is undefined, and so it is for the two
    samples (0, 4) and (1, 1), whose centerline value is positive and
    whose velocities cross half of it. *)
Theorem C10_minimum_sample_count (r u : option (list float))
    (Hfew : r = None ∨ u = None ∨ ∃ rs, r = Some rs ∧ (length rs < 3)%nat) :
  calculate_jet_width r u = Ok None ∧
  (calculate_jet_width (Some [0; 1]) (Some [4; 1]) = Ok None ∧
   item [4; 1] (Np.argmin (map abs [0; 1])) = Ok 4 ∧ (0 <? 4) = true ∧
   ∃ w, crossing (4 / 2) [0; 1] [4; 1] = Some w).
Proof.
  split.
  - destruct Hfew as [-> | [-> | (rs & -> & Hlen)]].
    + reflexivity.
    + destruct r; reflexivity.
    + destruct u as [us|]; [|reflexivity].
      unfold calculate_jet_width.
      apply Nat.ltb_lt in Hlen. rewrite Hlen. reflexivity.
  - repeat split; try (vm_compute; reflexivity).
    eexists. vm_compute. reflexivity.
Qed.

(** Two samples, with a crossing between them. *)
Lemma C10_minimum_sample_count_witness :
  calculate_jet_width (Some [0; 1]) (Some [4; 1]) = Ok None.
Proof.
  refine (proj1 (C10_minimum_sample_count (Some [0; 1]) (Some [4; 1]) _)).
  right; right. exists [0; 1]. split; [reflexivity | simpl; lia].
Defined.

End JetSpec.

(** ** Jet width: when it returns, and what *)

Module JetProps.
Import Jet Notions.

Local Open Scope float_scope.

Lemma argmin_from_lt (xs : list float) : ∀ i mp ind,
  (ind < i)%nat → (Np.argmin_from xs i mp ind < i + length xs)%nat.
Proof.
  induction xs as [|x xs IH]; intros i mp ind Hind; cbn [Np.argmin_from length].
  - lia.
  - destruct (negb (mp <=? x)).
    + destruct (is_nan x); [lia|]. specialize (IH (S i) x i). lia.
    + specialize (IH (S i) mp ind). lia.
Qed.

Lemma argmin_lt (xs : list float) : xs ≠ [] → (Np.argmin xs < length xs)%nat.
Proof.
  destruct xs as [|x xs]; [contradiction|]. intros _. unfold Np.argmin.
  destruct (is_nan x); [simpl; lia|].
  pose proof (argmin_from_lt xs 1 x 0). simpl. lia.
Qed.

Lemma jet_total (r u : option (list float)) :
  (∀ rs us, r = Some rs → u = Some us → length rs = length us) →
  ∃ o, calculate_jet_width r u = Ok o.
Proof.
  intros Hp. destruct r as [rs|]; [|eexists; reflexivity].
  destruct u as [us|]; [|eexists; reflexivity].
  specialize (Hp rs us eq_refl eq_refl).
  unfold calculate_jet_width.
  destruct (length rs <? 3)%nat eqn:Hlen; [eexists; reflexivity|].
  apply Nat.ltb_ge in Hlen.
  assert (Hi : (Np.argmin (map abs rs) < length us)%nat).
  { rewrite <- Hp, <- (length_map abs). apply argmin_lt. destruct rs; [simpl in Hlen; lia | discriminate]. }
  unfold item. destruct (nth_error us (Np.argmin (map abs rs))) as [uc|] eqn:Hc.
  2:{ apply nth_error_None in Hc. lia. }
  cbn. destruct (uc <=? 0); [eexists; reflexivity|].
  unfold Np.select. rewrite length_map, Hp, Nat.eqb_refl. cbn. eexists; reflexivity.
Qed.

Lemma crossing_some (u_half : float) (u_pos : list float) : ∀ r_pos w,
  length r_pos = length u_pos →
  (crossing u_half r_pos u_pos = Some w ↔
   ∃ i r0 r1 u0 u1,
     nth_error r_pos i = Some r0 ∧ nth_error r_pos (S i) = Some r1 ∧
     nth_error u_pos i = Some u0 ∧ nth_error u_pos (S i) = Some u1 ∧
     (u_half <=? u0) && (u1 <? u_half) = true ∧
     (∀ j, (j < i)%nat → ¬ crosses u_half u_pos j) ∧
     w = 2 * (r0 + (u_half - u0) / (u1 - u0) * (r1 - r0))).
Proof.
  induction u_pos as [|u0 u_pos IH]; intros r_pos w Hlen.
  - destruct r_pos; [|discriminate]. split; [discriminate|].
    intros (i & r0 & r1 & a & b & H & _). destruct i; discriminate.
  - destruct r_pos as [|r0 r_pos]; [discriminate|]. injection Hlen as Hlen.
    destruct u_pos as [|u1 u_pos].
    + destruct r_pos; [|discriminate]. split; [discriminate|].
      intros (i & a & b & c & d & _ & H & _). destruct i as [|[|i]]; discriminate.
    + destruct r_pos as [|r1 r_pos]; [discriminate|].
      rewrite JetSpec.crossing_step.
      destruct ((u_half <=? u0) && (u1 <? u_half)) eqn:Hc.
      * split.
        -- intros [= <-]. exists 0%nat, r0, r1, u0, u1. repeat split; auto. intros j Hj. lia.
        -- intros (i & a & b & c & d & Ha & Hb & Hcc & Hd & Hcr & Hfirst & ->).
           destruct i as [|i].
           ++ cbn in Ha, Hb, Hcc, Hd. congruence.
           ++ exfalso. apply (Hfirst 0%nat); [lia|]. exists u0, u1. auto.
      * rewrite (IH (r1 :: r_pos) w Hlen). split.
        -- intros (i & a & b & c & d & Ha & Hb & Hcc & Hd & Hcr & Hfirst & ->).
           exists (S i), a, b, c, d. repeat split; auto.
           intros j Hj (v0 & v1 & H0 & H1 & Hx). destruct j as [|j].
           ++ cbn in H0, H1. congruence.
           ++ apply (Hfirst j); [lia|]. exists v0, v1. auto.
        -- intros (i & a & b & c & d & Ha & Hb & Hcc & Hd & Hcr & Hfirst & ->).
           destruct i as [|i].
           ++ cbn in Hcc, Hd. congruence.
           ++ exists i, a, b, c, d. repeat split; auto.
              intros j Hj (v0 & v1 & H0 & H1 & Hx). apply (Hfirst (S j)); [lia|].
              exists v0, v1. auto.
Qed.

(** X1: on arrays of the same length, or with one of them absent,
    [calculate_jet_width] raises nothing: it returns a width or [None]. *)
Theorem jet_width_returns_on_paired (r u : option (list float))
    (Hpaired : ∀ rs us, r = Some rs → u = Some us → length rs = length us) :
  ∃ o, calculate_jet_width r u = Ok o.
Proof. apply jet_total. assumption. Qed.

Lemma jet_width_returns_on_paired_witness :
  ∃ o, calculate_jet_width (Some [0; 1; 2]) (Some [4; 3; 1]) = Ok o.
Proof.
  apply (jet_width_returns_on_paired (Some [0; 1; 2]) (Some [4; 3; 1])).
  intros rs us [= <-] [= <-]. reflexivity.
Defined.

(** X2: on paired arrays of three samples or more, the width returned is
    [w] exactly when the centerline velocity is above zero and [w] is
    twice the radius interpolated at the first pair of neighbours, among
    the samples of radius at least zero, that goes from at least half the
    centerline velocity to below it. *)
Theorem jet_width_first_crossing (r u : list float) (uc w : float)
    (Hpaired : length r = length u)
    (Hlen : (3 <= length r)%nat)
    (Hcenter : nth_error u (Np.argmin (map abs r)) = Some uc) :
  let mask := map (λ x, 0 <=? x) r in
  let r_pos := Np.select_items mask r in
  let u_pos := Np.select_items mask u in
  let u_half := uc / 2 in
  calculate_jet_width (Some r) (Some u) = Ok (Some w) ↔
  (uc <=? 0) = false ∧
  ∃ i r0 r1 u0 u1,
    nth_error r_pos i = Some r0 ∧ nth_error r_pos (S i) = Some r1 ∧
    nth_error u_pos i = Some u0 ∧ nth_error u_pos (S i) = Some u1 ∧
    (u_half <=? u0) && (u1 <? u_half) = true ∧
    (∀ j, (j < i)%nat → ¬ crosses u_half u_pos j) ∧
    w = 2 * (r0 + (u_half - u0) / (u1 - u0) * (r1 - r0)).
Proof.
  cbv zeta. rewrite (JetSpec.jet_width_unfold r u uc Hpaired Hcenter).
  apply Nat.ltb_ge in Hlen. rewrite Hlen.
  assert (Hl : length (Np.select_items (map (λ x, 0 <=? x) r) r)
             = length (Np.select_items (map (λ x, 0 <=? x) r) u)).
  { clear -Hpaired. revert u Hpaired. induction r as [|x r IH]; intros [|y u] H; try discriminate.
    - reflexivity.
    - injection H as H. cbn. destruct (0 <=? x); cbn; [f_equal|]; apply IH; assumption. }
  destruct (uc <=? 0).
  - split; [discriminate | intros [? _]; discriminate].
  - rewrite <- (crossing_some (uc / 2) _ _ w Hl). split.
    + intros [= H]. split; [reflexivity | assumption].
    + intros [_ H]. rewrite H. reflexivity.
Qed.

Lemma jet_width_first_crossing_witness :
  (4 <=? 0) = false ∧
  ∃ i r0 r1 u0 u1,
    nth_error [0; 1; 2] i = Some r0 ∧ nth_error [0; 1; 2] (S i) = Some r1 ∧
    nth_error [4; 3; 1] i = Some u0 ∧ nth_error [4; 3; 1] (S i) = Some u1 ∧
    (2 <=? u0) && (u1 <? 2) = true ∧
    (∀ j, (j < i)%nat → ¬ crosses 2 [4; 3; 1] j) ∧
    3 = 2 * (r0 + (2 - u0) / (u1 - u0) * (r1 - r0)).
Proof.
  apply (proj1 (jet_width_first_crossing [0; 1; 2] [4; 3; 1] 4 3
                  eq_refl (le_n 3) eq_refl)).
  vm_compute. reflexivity.
Defined.

(** X3: with three radii or more and velocities of another count, the
    function returns [None] when the centerline value is read and is at
    or below zero, and raises [IndexError] in every other case: the
    centerline index, or the mask of the radii, does not fit the
    velocities. *)
Theorem jet_width_unpaired_raises (r u : list float)
    (Hlen : (3 <= length r)%nat)
    (Hdiff : length u ≠ length r) :
  calculate_jet_width (Some r) (Some u) =
  match nth_error u (Np.argmin (map abs r)) with
  | Some uc => if uc <=? 0 then Ok None else Raise IndexError
  | None => Raise IndexError
  end.
Proof.
  unfold calculate_jet_width. apply Nat.ltb_ge in Hlen. rewrite Hlen.
  unfold item. destruct (nth_error u (Np.argmin (map abs r))) as [uc|] eqn:Hc; [|reflexivity].
  cbn. destruct (uc <=? 0); [reflexivity|].
  unfold Np.select. rewrite length_map.
  destruct (Nat.eqb_spec (length r) (length u)); [congruence | reflexivity].
Qed.

(** Two velocities for three radii: a centerline value above zero, and
    one below. *)
Lemma jet_width_unpaired_raises_witness :
  calculate_jet_width (Some [0; 1; 2]) (Some [4; 3]) = Raise IndexError ∧
  calculate_jet_width (Some [0; 1; 2]) (Some [-1; 3]) = Ok None.
Proof.
  split.
  - apply (jet_width_unpaired_raises [0; 1; 2] [4; 3]); [simpl; lia | discriminate].
  - apply (jet_width_unpaired_raises [0; 1; 2] [-1; 3]); [simpl; lia | discriminate].
Defined.

End JetProps.

(** ** The sign of binary64 results *)

Module SignFacts.
Import Metrics Notions.

Local Open Scope float_scope.

Lemma binary_round_aux_sign (sx : bool) (m e : Z) (l : location) :
  match binary_round_aux prec emax sx m e l with
  | S754_zero s | S754_infinity s | S754_finite s _ _ => s = sx
  | S754_nan => True
  end.
Proof.
  unfold binary_round_aux.
  destruct (shr_fexp prec emax m e l) as [mrs' e'].
  destruct (shr_fexp prec emax _ e' loc_Exact) as [mrs'' e''].
  destruct (shr_m mrs''); [reflexivity | | exact I].
  destruct (e'' <=? emax - prec)%Z; reflexivity.
Qed.

Lemma binary_round_aux_nonneg (m e : Z) (l : location) :
  nonneg_sf (binary_round_aux prec emax false m e l).
Proof.
  pose proof (binary_round_aux_sign false m e l) as H.
  destruct (binary_round_aux prec emax false m e l); exact H.
Qed.

Lemma binary_round_nonneg (p : positive) (e : Z) :
  nonneg_sf (binary_round prec emax false p e).
Proof.
  unfold binary_round. destruct (shl_align p e _) as [mz ez].
  apply binary_round_aux_nonneg.
Qed.

Lemma binary_normalize_nonneg (z e : Z) :
  (0 <= z)%Z → nonneg_sf (binary_normalize prec emax z e false).
Proof.
  intros Hz. destruct z as [|p|p]; [reflexivity | | lia].
  apply binary_round_nonneg.
Qed.

Lemma nonneg_abs (x : float) : nonneg (abs x).
Proof. unfold nonneg. rewrite abs_spec. destruct (Prim2SF x); simpl; auto. Qed.

Lemma nonneg_sq (x : float) : nonneg (sq x).
Proof.
  unfold nonneg, sq. rewrite mul_spec. unfold SF64mul.
  destruct (Prim2SF x) as [s|s| |s m e]; simpl; auto using xorb_nilpotent.
  rewrite xorb_nilpotent. apply binary_round_aux_nonneg.
Qed.

Lemma nonneg_add (a b : float) : nonneg a → nonneg b → nonneg (a + b).
Proof.
  unfold nonneg. rewrite add_spec. unfold SF64add.
  destruct (Prim2SF a) as [sa|sa| |sa ma ea], (Prim2SF b) as [sb|sb| |sb mb eb];
    simpl; intros Ha Hb; subst; simpl; auto.
  apply binary_round_nonneg.
Qed.

Lemma nonneg_mul (a b : float) : nonneg a → nonneg b → nonneg (a * b).
Proof.
  unfold nonneg. rewrite mul_spec. unfold SF64mul.
  destruct (Prim2SF a) as [sa|sa| |sa ma ea], (Prim2SF b) as [sb|sb| |sb mb eb];
    simpl; intros Ha Hb; subst; simpl; auto.
  apply binary_round_aux_nonneg.
Qed.

Lemma nonneg_div (a b : float) : nonneg a → nonneg b → nonneg (a / b).
Proof.
  unfold nonneg. rewrite div_spec. unfold SF64div.
  destruct (Prim2SF a) as [sa|sa| |sa ma ea], (Prim2SF b) as [sb|sb| |sb mb eb];
    simpl; intros Ha Hb; subst; simpl; auto.
  destruct (SFdiv_core_binary prec emax (Z.pos ma) ea (Z.pos mb) eb) as [[mz ez] lz].
  apply binary_round_aux_nonneg.
Qed.

Lemma nonneg_sqrt (a : float) : nonneg a → nonneg (sqrt a).
Proof.
  unfold nonneg. rewrite sqrt_spec. unfold SF64sqrt.
  destruct (Prim2SF a) as [sa|sa| |sa ma ea]; simpl; intros Ha; subst; simpl; auto.
  destruct (SFsqrt_core_binary prec emax (Z.pos ma) ea) as [[mz ez] lz].
  apply binary_round_aux_nonneg.
Qed.

Lemma nonneg_len (n : nat) : nonneg (Np.float_of_len n).
Proof.
  unfold nonneg, Np.float_of_len. rewrite of_uint63_spec.
  apply binary_normalize_nonneg.
  pose proof (Uint63.to_Z_bounded (Uint63.of_Z (Z.of_nat n))). lia.
Qed.

Lemma nonneg_not_below (x : float) : nonneg x → (x <? 0) = false.
Proof.
  unfold nonneg. rewrite ltb_spec. change (Prim2SF 0) with (S754_zero false).
  destruct (Prim2SF x) as [s|s| |s m e]; simpl; try intros ->; reflexivity.
Qed.

Lemma nonneg_start (b : float) : nonneg b → nonneg (-0 + b).
Proof.
  unfold nonneg. rewrite add_spec. change (Prim2SF (-0)) with (S754_zero true).
  destruct (Prim2SF b) as [sb|sb| |sb mb eb]; simpl; intros Hb; subst; simpl; auto.
Qed.

(** The sum of values that are not below zero is not below zero, however
    [np.sum] groups the additions. *)
Lemma nonneg_sum (xs : list float) : Forall nonneg xs → nonneg (Np.sum xs).
Proof.
  apply (FloatFacts.sum_closed nonneg).
  - apply nonneg_add.
  - apply nonneg_start.
  - reflexivity.
Qed.

Lemma nonneg_mean (xs : list float) : Forall nonneg xs → nonneg (Np.mean xs).
Proof.
  intros H. unfold Np.mean. apply nonneg_div; [apply nonneg_sum; assumption | apply nonneg_len].
Qed.

Lemma maximum_cases (a b : float) : Np.maximum a b = a ∨ Np.maximum a b = b.
Proof. unfold Np.maximum. destruct ((b <=? a) || is_nan a); auto. Qed.

Lemma max_elem (x : float) (xs : list float) : Np.max (x :: xs) ∈ x :: xs.
Proof.
  unfold Np.max. revert x. induction xs as [|y xs IH]; intros x; simpl.
  - left.
  - destruct (maximum_cases x y) as [-> | ->].
    + specialize (IH x). apply elem_of_cons in IH as [-> | IH]; [left | right; right; assumption].
    + right. apply IH.
Qed.

Lemma nonneg_max (xs : list float) : Forall nonneg xs → nonneg (Np.max xs).
Proof.
  destruct xs as [|x xs]; [intros _; reflexivity|].
  intros H. rewrite Forall_forall in H. apply H, max_elem.
Qed.

End SignFacts.

(** ** Error metrics: signs, zero rows, exact agreement *)

Module MetricsProps.
Import Metrics Notions SignFacts.

Local Open Scope float_scope.

Lemma metrics_of_nonneg (errors kept : list float) :
  let m := metrics_of errors kept in
  nonneg (RMSE m) ∧ nonneg (MAE m) ∧ nonneg (MaxErr m) ∧ nonneg (NRMSE m).
Proof.
  cbv zeta. unfold metrics_of. cbn [RMSE MAE MaxErr NRMSE].
  assert (Hsq : Forall nonneg (map sq errors))
    by (apply Forall_map, Forall_forall; intros; apply nonneg_sq).
  assert (Habs : ∀ l, Forall nonneg (map abs l))
    by (intros l; apply Forall_map, Forall_forall; intros; apply nonneg_abs).
  assert (Hr : nonneg (sqrt (Np.mean (map sq errors))))
    by (apply nonneg_sqrt, nonneg_mean; assumption).
  repeat split.
  - assumption.
  - apply nonneg_mean, Habs.
  - apply nonneg_max, Habs.
  - destruct (0 <? Np.max (map abs kept)); [|exact I].
    apply nonneg_mul; [apply nonneg_div; [assumption | apply nonneg_max, Habs] | reflexivity].
Qed.

(** A record comes from [metrics_of]. *)
Lemma metrics_some_inv (exp_r exp_u sim_r sim_u : option (list float)) (m : metrics) :
  calculate_error_metrics exp_r exp_u sim_r sim_u = Ok (Some m) →
  ∃ errors kept, m = metrics_of errors kept.
Proof.
  unfold calculate_error_metrics.
  destruct sim_r as [[|x xp]|]; try discriminate;
    destruct exp_r as [xs|]; try discriminate.
  destruct exp_u as [us|]; try discriminate.
  destruct (negb (Np.any (nonzero_mask us))); try discriminate.
  destruct (Np.select (nonzero_mask us) xs) as [xf|]; try discriminate. cbn.
  destruct (Np.interp xf (x :: xp) sim_u) as [si|]; try discriminate.
  intros [= <-]. eauto.
Qed.

(** X4: whenever [calculate_error_metrics] returns a record, its RMSE,
    MAE, MaxErr and NRMSE are not below zero (each is zero, above zero or
    a NaN). *)
Theorem error_magnitudes_not_negative (exp_r exp_u sim_r sim_u : option (list float))
    (m : metrics)
    (Hm : calculate_error_metrics exp_r exp_u sim_r sim_u = Ok (Some m)) :
  (RMSE m <? 0) = false ∧ (MAE m <? 0) = false ∧
  (MaxErr m <? 0) = false ∧ (NRMSE m <? 0) = false.
Proof.
  destruct (metrics_some_inv _ _ _ _ _ Hm) as (errors & kept & ->).
  destruct (metrics_of_nonneg errors kept) as (H1 & H2 & H3 & H4).
  repeat split; apply nonneg_not_below; assumption.
Qed.

Lemma error_magnitudes_not_negative_witness :
  ∃ m, calculate_error_metrics (Some [0; 1]) (Some [1; 2]) (Some [0; 1]) (Some [1; 3])
       = Ok (Some m) ∧
       ((RMSE m <? 0) = false ∧ (MAE m <? 0) = false ∧
        (MaxErr m <? 0) = false ∧ (NRMSE m <? 0) = false).
Proof.
  assert (H : { m | calculate_error_metrics (Some [0; 1]) (Some [1; 2])
                      (Some [0; 1]) (Some [1; 3]) = Ok (Some m) })
    by (eexists; vm_compute; reflexivity).
  destruct H as [m H]. exists m. split; [exact H|].
  exact (error_magnitudes_not_negative _ _ _ _ m H).
Defined.


Lemma mask_app (us1 us2 : list float) :
  nonzero_mask (us1 ++ us2) = nonzero_mask us1 ++ nonzero_mask us2.
Proof. unfold nonzero_mask. apply map_app. Qed.

Lemma any_app (m1 m2 : list bool) : Np.any (m1 ++ m2) = Np.any m1 || Np.any m2.
Proof. unfold Np.any. apply existsb_app. Qed.

Lemma select_items_app (m1 m2 : list bool) (xs1 xs2 : list float) :
  length m1 = length xs1 →
  Np.select_items (m1 ++ m2) (xs1 ++ xs2) = Np.select_items m1 xs1 ++ Np.select_items m2 xs2.
Proof.
  revert xs1. induction m1 as [|b m1 IH]; intros [|x xs1] Hlen; try discriminate.
  - reflexivity.
  - injection Hlen as Hlen. simpl. rewrite IH by assumption. destruct b; reflexivity.
Qed.

(** X5: an experimental row whose value is zero changes nothing:
    [calculate_error_metrics] returns the same with the row and without
    it, whatever its position and the simulation curve. *)
Theorem zero_rows_dropped (xs1 xs2 us1 us2 : list float) (x z : float)
    (sim_r sim_u : option (list float))
    (Hlen : length xs1 = length us1)
    (Hz : (z =? 0) = true) :
  calculate_error_metrics (Some (xs1 ++ x :: xs2)) (Some (us1 ++ z :: us2)) sim_r sim_u =
  calculate_error_metrics (Some (xs1 ++ xs2)) (Some (us1 ++ us2)) sim_r sim_u.
Proof.
  unfold calculate_error_metrics.
  destruct sim_r as [[|p xp]|]; try reflexivity.
  assert (Hm : length (nonzero_mask us1) = length xs1)
    by (unfold nonzero_mask; rewrite length_map; auto).
  assert (Hmu : length (nonzero_mask us1) = length us1)
    by (unfold nonzero_mask; rewrite length_map; auto).
  rewrite !mask_app. change (nonzero_mask (z :: us2)) with (negb (z =? 0) :: nonzero_mask us2).
  rewrite Hz. cbn [negb]. rewrite !any_app. cbn [Np.any existsb orb].
  change (existsb (λ b : bool, b) (nonzero_mask us2)) with (Np.any (nonzero_mask us2)).
  destruct (negb (Np.any (nonzero_mask us1) || Np.any (nonzero_mask us2))); [reflexivity|].
  unfold Np.select. rewrite !length_app. cbn [length].
  rewrite !select_items_app by assumption. cbn [Np.select_items].
  replace (length (nonzero_mask us1) + S (length (nonzero_mask us2)) =? length xs1 + S (length xs2))%nat
    with (length (nonzero_mask us1) + length (nonzero_mask us2) =? length xs1 + length xs2)%nat.
  2:{ destruct (Nat.eqb_spec (length (nonzero_mask us1) + length (nonzero_mask us2))
                             (length xs1 + length xs2));
      destruct (Nat.eqb_spec (length (nonzero_mask us1) + S (length (nonzero_mask us2)))
                             (length xs1 + S (length xs2))); try reflexivity; lia. }
  reflexivity.
Qed.

Lemma zero_rows_dropped_witness :
  calculate_error_metrics (Some [0; 1; 2]) (Some [1; 0; 3]) (Some [0; 2]) (Some [1; 3]) =
  calculate_error_metrics (Some [0; 2]) (Some [1; 3]) (Some [0; 2]) (Some [1; 3]).
Proof.
  exact (zero_rows_dropped [0] [2] [1] [3] 1 0 (Some [0; 2]) (Some [1; 3]) eq_refl eq_refl).
Defined.
Lemma positive_SF (y : float) :
  (0 <? y) = true →
  (∃ m e, Prim2SF y = S754_finite false m e) ∨ Prim2SF y = S754_infinity false.
Proof.
  rewrite ltb_spec. change (Prim2SF 0) with (S754_zero false).
  destruct (Prim2SF y) as [s|[|]| |[|] m e]; simpl; try discriminate; eauto.
Qed.

Lemma abs_positive (v : float) :
  is_finite v = true → (v =? 0) = false → (0 <? abs v) = true.
Proof.
  unfold is_finite, is_nan, is_infinity.
  rewrite !FloatAxioms.eqb_spec, ltb_spec, abs_spec.
  change (Prim2SF 0) with (S754_zero false).
  destruct (Prim2SF v) as [s|s| |s m e]; simpl; try discriminate; try reflexivity;
    try (destruct s; discriminate).
Qed.

Lemma kept_values (us : list float) :
  Forall (λ u, is_finite u = true) us →
  Forall (λ u, is_finite u = true ∧ (u =? 0) = false)
         (Np.select_items (nonzero_mask us) us).
Proof.
  induction 1 as [|u us Hu _ IH]; [constructor|].
  cbn. destruct (u =? 0) eqn:Hz; cbn; [assumption|]. constructor; auto.
Qed.

Lemma kept_nonempty (us : list float) :
  Np.any (nonzero_mask us) = true → Np.select_items (nonzero_mask us) us ≠ [].
Proof.
  induction us as [|u us IH]; [discriminate|].
  cbn. destruct (u =? 0); cbn; [exact IH | discriminate].
Qed.

Lemma kept_length (mask : list bool) (us : list float) :
  (length (Np.select_items mask us) <= length us)%nat.
Proof.
  revert us. induction mask as [|b mask IH]; intros [|u us]; cbn; try lia.
  specialize (IH us). destruct b; cbn; lia.
Qed.

Lemma errors_exact (kept : list float) :
  Forall (λ u, is_finite u = true ∧ (u =? 0) = false) kept →
  sub_arrays kept kept = repeat 0 (length kept).
Proof.
  induction 1 as [|u us [Hf _] _ IH]; [reflexivity|].
  cbn. rewrite IH, (FloatFacts.sub_self u Hf). reflexivity.
Qed.

Lemma abs_zeros (n : nat) : map abs (repeat 0 n) = repeat 0 n.
Proof. induction n as [|n IH]; [reflexivity|]. cbn. rewrite IH. reflexivity. Qed.

Lemma max_zeros (n : nat) : Np.max (repeat 0 (S n)) = 0.
Proof.
  unfold Np.max. cbn [repeat]. induction n as [|n IH]; [reflexivity|].
  cbn [repeat fold_left]. exact IH.
Qed.

Lemma peak_positive (kept : list float) :
  kept ≠ [] → Forall (λ u, is_finite u = true ∧ (u =? 0) = false) kept →
  (0 <? Np.max (map abs kept)) = true.
Proof.
  intros Hne Hk. destruct kept as [|v kept]; [contradiction|].
  pose proof (max_elem (abs v) (map abs kept)) as Hin.
  change (abs v :: map abs kept) with (map abs (v :: kept)) in Hin.
  apply list_elem_of_fmap in Hin as (w & -> & Hw).
  rewrite Forall_forall in Hk. destruct (Hk w Hw). apply abs_positive; assumption.
Qed.

(** X6: when the simulation curve interpolated at the kept experimental
    positions gives the kept experimental values themselves, and these
    are finite, the record has RMSE, MAE, MaxErr and NRMSE equal to zero,
    and R2 equal to 1 when the total sum of squares of the kept values
    about their mean is above zero, and NaN when it is not. *)
Theorem exact_match_zero_errors (exp_r exp_u sim_r : list float)
    (sim_u : option (list float))
    (Hlen : length exp_r = length exp_u)
    (Hfin : Forall (λ u, is_finite u = true) exp_u)
    (Hany : Np.any (nonzero_mask exp_u) = true)
    (Hcount : (Z.of_nat (length exp_u) < 2 ^ 63)%Z)
    (Hmatch : Np.interp (Np.select_items (nonzero_mask exp_u) exp_r) sim_r sim_u
              = Ok (Np.select_items (nonzero_mask exp_u) exp_u)) :
  ∃ m, calculate_error_metrics (Some exp_r) (Some exp_u) (Some sim_r) sim_u = Ok (Some m) ∧
       RMSE m = 0 ∧ MAE m = 0 ∧ MaxErr m = 0 ∧ NRMSE m = 0 ∧
       R2 m = if 0 <? total_squares (Np.select_items (nonzero_mask exp_u) exp_u)
              then 1 else nan.
Proof.
  destruct sim_r as [|x xp].
  { destruct sim_u; discriminate. }
  rewrite (MetricsSpec.metrics_unfold exp_r exp_u xp x sim_u Hlen Hany), Hmatch.
  set (kept := Np.select_items (nonzero_mask exp_u) exp_u).
  pose proof (kept_values exp_u Hfin) as Hk. fold kept in Hk.
  pose proof (kept_nonempty exp_u Hany) as Hne. fold kept in Hne.
  pose proof (kept_length (nonzero_mask exp_u) exp_u) as Hkl. fold kept in Hkl.
  assert (Hn : (0 < Z.of_nat (length kept) < 2 ^ 63)%Z).
  { destruct kept; [contradiction | cbn [length]; cbn [length] in Hkl; lia]. }
  eexists. split; [reflexivity|].
  unfold metrics_of. cbn [RMSE MAE MaxErr NRMSE R2].
  rewrite (errors_exact kept Hk), MetricsSpec.squares_zero, abs_zeros.
  rewrite (FloatFacts.mean_zeros _ Hn), FloatFacts.sum_zeros.
  rewrite (peak_positive kept Hne Hk).
  assert (Hmax : Np.max (repeat 0 (length kept)) = 0).
  { destruct kept; [contradiction | apply max_zeros]. }
  rewrite Hmax. change (sqrt 0) with 0.
  rewrite (FloatFacts.zero_div_pos _ (positive_SF _ (peak_positive kept Hne Hk))).
  repeat split. unfold total_squares.
  destruct (0 <? Np.sum _) eqn:Hs; [|reflexivity].
  rewrite (FloatFacts.zero_div_pos _ (positive_SF _ Hs)). reflexivity.
Qed.

Lemma exact_match_zero_errors_witness :
  ∃ m, calculate_error_metrics (Some [0; 1]) (Some [1; 3]) (Some [0; 1]) (Some [1; 3])
       = Ok (Some m) ∧
       RMSE m = 0 ∧ MAE m = 0 ∧ MaxErr m = 0 ∧ NRMSE m = 0 ∧ R2 m = 1.
Proof.
  apply (exact_match_zero_errors [0; 1] [1; 3] [0; 1] (Some [1; 3])).
  - reflexivity.
  - repeat constructor.
  - reflexivity.
  - reflexivity.
  - vm_compute. reflexivity.
Defined.

End MetricsProps.

(** ** The sample reader: shape of a sample, selection of the time *)

Module ReaderProps.
Import Reader Notions.

Local Open Scope float_scope.

Section WithFloat.

Variable py_float : string -> option float.


Lemma convert_row_length (toks : list string) (rw : list float) :
  Np.convert_row py_float toks = Ok rw → length rw = length toks.
Proof.
  revert rw. induction toks as [|t toks IH]; intros rw; cbn [Np.convert_row].
  - intros [= <-]. reflexivity.
  - destruct (py_float t); [|discriminate].
    destruct (Np.convert_row py_float toks) as [xs|]; [|discriminate].
    cbn. intros [= <-]. cbn. rewrite (IH xs eq_refl). reflexivity.
Qed.

(** The rows of a table are as long as its first row. *)
Lemma read_rows_width (lines : list string) : ∀ ncols rws,
  Np.read_rows py_float ncols lines = Ok rws →
  match ncols, rws with
  | Some n, _ => Forall (λ rw, length rw = n) rws
  | None, rw :: _ => Forall (λ r, length r = length rw) rws
  | None, [] => True
  end.
Proof.
  induction lines as [|l lines IH]; intros ncols rws; cbn [Np.read_rows].
  - intros [= <-]. destruct ncols; [constructor | exact I].
  - destruct (PyStr.split (Np.strip_comment l)) as [|t toks]; [apply IH|].
    destruct (Np.convert_row py_float (t :: toks)) as [rw|]; [|discriminate]. cbn.
    destruct ncols as [n|].
    + destruct (Nat.eqb_spec (length rw) n) as [Hn|]; [|discriminate].
      destruct (Np.read_rows py_float (Some n) lines) as [rws'|] eqn:Hr; [|discriminate].
      cbn. intros [= <-]. constructor; [assumption|]. apply (IH (Some n) rws' Hr).
    + destruct (Np.read_rows py_float (Some (length rw)) lines) as [rws'|] eqn:Hr; [|discriminate].
      cbn. intros [= <-]. constructor; [reflexivity|]. apply (IH (Some (length rw)) rws' Hr).
Qed.

Lemma read_file (sample_dir : option node) (set_name : string) (time : time_sel)
    (d : string * node) (content : string) :
  select_time_dir py_float sample_dir time = Ok (Some d) →
  child (Some (snd d)) (xy_name set_name) = Some (File content) →
  read_openfoam_sample py_float sample_dir set_name time =
  rws ← Np.read_rows py_float None (Np.splitlines content); of_rows rws.
Proof.
  intros Hsel Hfile. unfold read_openfoam_sample. rewrite Hsel.
  destruct d as [name time_dir]. cbn [snd] in Hfile.
  cbn -[child xy_name Np.loadtxt Np.read_rows Np.squeeze]. rewrite Hfile.
  unfold Np.loadtxt.
  destruct (Np.read_rows py_float None (Np.splitlines content)); reflexivity.
Qed.

(** A sample comes from a table file. *)
Lemma read_some_inv (sample_dir : option node) (set_name : string) (time : time_sel)
    (s : sample) :
  read_openfoam_sample py_float sample_dir set_name time = Ok (Some s) →
  ∃ content rws,
    Np.read_rows py_float None (Np.splitlines content) = Ok rws ∧
    of_rows rws = Ok (Some s).
Proof.
  unfold read_openfoam_sample.
  destruct (select_time_dir py_float sample_dir time) as [[[name time_dir]|]|]; try discriminate.
  cbn -[child xy_name Np.loadtxt Np.read_rows Np.squeeze].
  destruct (child (Some time_dir) (xy_name set_name)) as [[content|]|]; try discriminate.
  unfold Np.loadtxt.
  destruct (Np.read_rows py_float None (Np.splitlines content)) as [rws|] eqn:Hr; [|discriminate].
  intros H. exists content, rws. split; [exact Hr | exact H].
Qed.

Lemma of_rows_some (rws : list (list float)) (s : sample) :
  of_rows rws = Ok (Some s) →
  ∃ rw rw' rest, rws = rw :: rw' :: rest ∧ (2 <= length rw)%nat ∧
    s = mk_sample (map (λ r, nth 0 r 0) rws) (map (λ r, nth 1 r 0) rws)
                  (map (λ r, firstn 3 (skipn 2 r)) rws).
Proof.
  unfold of_rows.
  destruct rws as [|rw [|rw' rest]].
  - discriminate.
  - destruct rw as [|x [|y rw]]; discriminate.
  - destruct rw as [|x [|y rw]]; try discriminate.
    + cbn [Np.squeeze Np.size length]. rewrite Nat.mul_0_r. discriminate.
    + intros H. exists (x :: y :: rw), rw', rest.
      split; [reflexivity|]. split; [cbn; lia|].
      cbn in H. injection H as <-. reflexivity.
Qed.


Lemma read_rows_nonempty (lines : list string) : ∀ ncols rws,
  Np.read_rows py_float ncols lines = Ok rws → Forall (λ rw, rw ≠ []) rws.
Proof.
  induction lines as [|l lines IH]; intros ncols rws; cbn [Np.read_rows].
  - intros [= <-]. constructor.
  - destruct (PyStr.split (Np.strip_comment l)) as [|t toks] eqn:Ht; [apply IH|].
    destruct (Np.convert_row py_float (t :: toks)) as [rw|] eqn:Hc; [|discriminate]. cbn.
    apply convert_row_length in Hc.
    assert (Hrw : rw ≠ []) by (intros ->; discriminate).
    destruct ncols as [n|].
    + destruct (length rw =? n)%nat; [|discriminate].
      destruct (Np.read_rows py_float (Some n) lines) as [rws'|] eqn:Hr; [|discriminate].
      cbn. intros [= <-]. constructor; [assumption | apply (IH _ _ Hr)].
    + destruct (Np.read_rows py_float (Some (length rw)) lines) as [rws'|] eqn:Hr; [|discriminate].
      cbn. intros [= <-]. constructor; [assumption | apply (IH _ _ Hr)].
Qed.

Lemma sample_dims (sample_dir : option node) (set_name : string) (time : time_sel)
    (s : sample)
    (Hread : read_openfoam_sample py_float sample_dir set_name time = Ok (Some s)) :
  ∃ n k, (2 <= n)%nat ∧ (k <= 3)%nat ∧
         length (position s) = n ∧ length (pressure s) = n ∧ length (velocity s) = n ∧
         Forall (λ v, length v = k) (velocity s).
Proof.
  destruct (read_some_inv _ _ _ _ Hread) as (content & rws & Hrows & Hof).
  destruct (of_rows_some rws s Hof) as (rw & rw' & rest & -> & Hw & ->).
  pose proof (read_rows_width _ None _ Hrows) as Hwidth. cbn in Hwidth.
  exists (length (rw :: rw' :: rest)), (Nat.min 3 (length rw - 2)).
  cbn [position pressure velocity]. rewrite !length_map.
  repeat split; [cbn; lia | lia |].
  apply Forall_map. eapply Forall_impl; [exact Hwidth|].
  intros r Hr. cbn beta. rewrite length_firstn, length_skipn, Hr. reflexivity.
Qed.

(** X7: a sample that [read_openfoam_sample] returns has two rows or
    more; positions, pressures and velocity rows are as many, and every
    velocity row has the same number of components, three at most. *)
Theorem sample_shape (sample_dir : option node) (set_name : string) (time : time_sel)
    (s : sample)
    (Hread : read_openfoam_sample py_float sample_dir set_name time = Ok (Some s)) :
  ∃ n k, (2 <= n)%nat ∧ (k <= 3)%nat ∧
         length (position s) = n ∧ length (pressure s) = n ∧ length (velocity s) = n ∧
         Forall (λ v, length v = k) (velocity s).
Proof. exact (sample_dims sample_dir set_name time s Hread). Qed.

(** X8: a table that is found and read raises [IndexError] at the column
    index when it has a single data row, or rows of a single column. *)
Theorem degenerate_table_raises (sample_dir : option node) (set_name : string)
    (time : time_sel) (d : string * node) (content : string) (rws : list (list float))
    (Hsel : select_time_dir py_float sample_dir time = Ok (Some d))
    (Hfile : child (Some (snd d)) (xy_name set_name) = Some (File content))
    (Hrows : Np.read_rows py_float None (Np.splitlines content) = Ok rws)
    (Hdeg : length rws = 1%nat ∨ ∃ x rest, rws = [x] :: rest) :
  read_openfoam_sample py_float sample_dir set_name time = Raise IndexError.
Proof.
  rewrite (read_file _ _ _ d content Hsel Hfile), Hrows. cbn [mbind res_bind].
  pose proof (read_rows_nonempty _ _ _ Hrows) as Hne.
  unfold of_rows. destruct Hdeg as [Hlen | (x & rest & ->)].
  - destruct rws as [|rw [|]]; try discriminate.
    inversion Hne as [|? ? Hrw _]; subst.
    destruct rw as [|x [|y rw]]; [contradiction | reflexivity | reflexivity].
  - destruct rest as [|rw' rest]; [reflexivity|]. reflexivity.
Qed.

Lemma max_from_mem (rest : list (string * node)) : ∀ best kbest d,
  max_from py_float best kbest rest = Ok d → d = best ∨ d ∈ rest.
Proof.
  induction rest as [|d1 rest IH]; intros best kbest d; cbn [max_from].
  - intros [= <-]. left. reflexivity.
  - destruct (time_key py_float (fst d1)) as [k1|]; [|discriminate]. cbn.
    destruct (kbest <? k1); intros H; apply IH in H as [-> | H];
      first [ left; reflexivity | right; left | right; right; assumption ].
Qed.

Lemma latest_in_root (sample_dir : option node) (d : string * node)
    (Hsel : select_time_dir py_float sample_dir LatestTime = Ok (Some d)) :
  ∃ es, sample_dir = Some (Dir es) ∧ d ∈ es ∧ is_dir (snd d) = true.
Proof.
  unfold select_time_dir in Hsel.
  destruct sample_dir as [[content|es]|]; try discriminate.
  exists es. split; [reflexivity|]. cbn in Hsel.
  assert (Hd : d ∈ times es).
  { unfold max_by_key in Hsel. destruct (times es) as [|d0 rest]; [discriminate|].
    destruct (time_key py_float (fst d0)) as [k0|]; [|discriminate]. cbn in Hsel.
    destruct (max_from py_float d0 k0 rest) as [b|] eqn:Hm; [|discriminate].
    cbn in Hsel. injection Hsel as <-.
    apply max_from_mem in Hm as [-> | Hm]; [left | right; assumption]. }
  unfold times in Hd. apply list_elem_of_filter in Hd as [Hdir Hd]. auto.
Qed.

(** X9: the directory selected for the most recent time is one of the
    immediate entries of the sampling root, and is a directory. *)
Theorem latest_time_is_subdirectory (sample_dir : option node) (d : string * node)
    (Hsel : select_time_dir py_float sample_dir LatestTime = Ok (Some d)) :
  ∃ es, sample_dir = Some (Dir es) ∧ d ∈ es ∧ is_dir (snd d) = true.
Proof. exact (latest_in_root sample_dir d Hsel). Qed.

Lemma time_key_raise (name : string) (e : exn) :
  time_key py_float name = Raise e → e = ValueError.
Proof.
  unfold time_key. destruct (numeric_name name); [|discriminate].
  destruct (py_float name); [discriminate|]. intros [= <-]. reflexivity.
Qed.

Lemma max_from_raise (rest : list (string * node)) : ∀ best kbest d,
  d ∈ rest → time_key py_float (fst d) = Raise ValueError →
  max_from py_float best kbest rest = Raise ValueError.
Proof.
  induction rest as [|d1 rest IH]; intros best kbest d Hd Hk.
  - inversion Hd.
  - cbn [max_from]. destruct (time_key py_float (fst d1)) as [k1|e] eqn:Hk1.
    + cbn. apply elem_of_cons in Hd as [-> | Hd]; [congruence|].
      destruct (kbest <? k1); eapply IH; eassumption.
    + cbn. rewrite (time_key_raise _ _ Hk1). reflexivity.
Qed.

(** X10: when the most recent time is requested and some subdirectory
    of the sampling root has a name of digits and dots that [float] does
    not read, the selection raises [ValueError], and so does the reader
    for every location, wherever that subdirectory is listed. *)
Theorem unreadable_time_name_raises (es : list (string * node)) (d : string * node)
    (Hd : d ∈ times es)
    (Hnum : numeric_name (fst d) = true)
    (Hfloat : py_float (fst d) = None) :
  select_time_dir py_float (Some (Dir es)) LatestTime = Raise ValueError ∧
  ∀ set_name,
    read_openfoam_sample py_float (Some (Dir es)) set_name LatestTime = Raise ValueError.
Proof.
  assert (Hk : time_key py_float (fst d) = Raise ValueError)
    by (unfold time_key; rewrite Hnum, Hfloat; reflexivity).
  assert (Hsel : select_time_dir py_float (Some (Dir es)) LatestTime = Raise ValueError).
  { unfold select_time_dir. cbn. unfold max_by_key.
    destruct (times es) as [|d0 rest]; [inversion Hd|].
    destruct (time_key py_float (fst d0)) as [k0|e] eqn:Hk0.
    - cbn. apply elem_of_cons in Hd as [-> | Hd]; [congruence|].
      rewrite (max_from_raise rest d0 k0 d Hd Hk). reflexivity.
    - cbn. rewrite (time_key_raise _ _ Hk0). reflexivity. }
  split; [assumption|]. intros set_name. unfold read_openfoam_sample. rewrite Hsel. reflexivity.
Qed.

Lemma lookup_unique (es : list (string * node)) (name : string) (n : node) :
  NoDup (map fst es) → In (name, n) es → lookup name es = Some n.
Proof.
  intros Hnames Hin. induction es as [|[nm c] es IH]; [contradiction|].
  cbn [map fst] in Hnames. apply NoDup_cons in Hnames as [Hn Hnd]. cbn [lookup].
  destruct Hin as [[= -> ->] | Hin].
  - rewrite String.eqb_refl. reflexivity.
  - destruct (String.eqb_spec nm name) as [-> | _]; [|apply IH; assumption].
    exfalso. apply Hn. apply list_elem_of_In. apply (in_map fst) in Hin. exact Hin.
Qed.

(** X23: the reader asked for the most recent time returns what it
    returns when asked for the selected directory by its name, the names
    of a directory's entries being distinct. *)
Theorem latest_agrees_with_explicit_time (es : list (string * node)) (d : string * node)
    (set_name : string)
    (Hnames : NoDup (map fst es))
    (Hsel : select_time_dir py_float (Some (Dir es)) LatestTime = Ok (Some d)) :
  read_openfoam_sample py_float (Some (Dir es)) set_name (AtTime (fst d)) =
  read_openfoam_sample py_float (Some (Dir es)) set_name LatestTime.
Proof.
  destruct (latest_in_root _ _ Hsel) as (es' & [= <-] & Hin & _).
  apply list_elem_of_In in Hin. destruct d as [name n].
  unfold read_openfoam_sample. rewrite Hsel.
  unfold select_time_dir. cbn [child fst].
  rewrite (lookup_unique es name n Hnames Hin). reflexivity.
Qed.

End WithFloat.

Lemma sample_shape_witness :
  ∃ n k, (2 <= n)%nat ∧ (k <= 3)%nat ∧
         length (position one_sample) = n ∧ length (pressure one_sample) = n ∧
         length (velocity one_sample) = n ∧
         Forall (λ v, length v = k) (velocity one_sample).
Proof.
  apply (sample_shape PyFloat.py_float one_table "radial_z_000" LatestTime one_sample).
  vm_compute. reflexivity.
Defined.

Lemma degenerate_table_raises_witness :
  read_openfoam_sample PyFloat.py_float
    (Some (Dir [("0.5", Dir [("centerline_p_U.xy", File "0 1 2 3 4")])]))
    "centerline" LatestTime = Raise IndexError.
Proof.
  apply (degenerate_table_raises PyFloat.py_float _ "centerline" LatestTime
           ("0.5", Dir [("centerline_p_U.xy", File "0 1 2 3 4")]) "0 1 2 3 4"
           [[0; 1; 2; 3; 4]]).
  - vm_compute. reflexivity.
  - vm_compute. reflexivity.
  - vm_compute. reflexivity.
  - left. reflexivity.
Defined.

Lemma latest_time_is_subdirectory_witness :
  ∃ es, Some (Dir four_times) = Some (Dir es) ∧
        ("10", Dir []) ∈ es ∧ is_dir (snd ("10", Dir [])) = true.
Proof.
  apply (latest_time_is_subdirectory PyFloat.py_float (Some (Dir four_times)) ("10", Dir [])).
  vm_compute. reflexivity.
Defined.

Lemma unreadable_time_name_raises_witness :
  select_time_dir PyFloat.py_float (Some (Dir [("0", Dir []); ("1.2.3", Dir [])])) LatestTime
    = Raise ValueError ∧
  ∀ set_name,
    read_openfoam_sample PyFloat.py_float (Some (Dir [("0", Dir []); ("1.2.3", Dir [])]))
      set_name LatestTime = Raise ValueError.
Proof.
  apply (unreadable_time_name_raises PyFloat.py_float
           [("0", Dir []); ("1.2.3", Dir [])] ("1.2.3", Dir [])).
  - apply list_elem_of_filter. split; [reflexivity|]. right. left.
  - vm_compute. reflexivity.
  - vm_compute. reflexivity.
Defined.

Lemma latest_agrees_with_explicit_time_witness :
  read_openfoam_sample PyFloat.py_float one_table "radial_z_000" (AtTime "10") =
  read_openfoam_sample PyFloat.py_float one_table "radial_z_000" LatestTime.
Proof.
  apply (latest_agrees_with_explicit_time PyFloat.py_float _
           ("10", Dir [("radial_z_000_p_U.xy", File "# r p Ux Uy Uz
0 0 0 0 4
1 0 0 0 3
2 0 0 0 1")]) "radial_z_000").
  - apply (bool_decide_unpack _). vm_compute. exact I.
  - vm_compute. reflexivity.
Defined.

End ReaderProps.

(** ** White space in lines and labels *)

Module PyStrSpec.

Lemma split_space (c : ascii) (s : string) :
  PyStr.is_space c = true → PyStr.split (String c s) = PyStr.split s.
Proof. intros H. cbn [PyStr.split]. rewrite H. reflexivity. Qed.

Lemma split_replace_tab (s : string) :
  PyStr.split (PyStr.replace TAB "  " s) = PyStr.split s.
Proof.
  induction s as [|c s IH]; [reflexivity|].
  cbn [PyStr.replace].
  destruct (Ascii.eqb_spec c TAB) as [-> | Hc].
  - change ("  " ++ PyStr.replace TAB "  " s)%string
      with (String " " (String " " (PyStr.replace TAB "  " s))).
    rewrite !split_space by reflexivity. rewrite IH. reflexivity.
  - destruct (PyStr.is_space c) eqn:Hs.
    + rewrite !split_space by assumption. exact IH.
    + cbn [PyStr.split]. rewrite Hs. rewrite IH.
      destruct s as [|c' s']; [reflexivity|].
      cbn [PyStr.replace]. destruct (Ascii.eqb_spec c' TAB) as [-> | Hc'].
      * reflexivity.
      * reflexivity.
Qed.

Lemma lstrip_head (s : string) :
  match PyStr.lstrip s with
  | EmptyString => True
  | String c _ => PyStr.is_space c = false
  end.
Proof.
  induction s as [|c s IH]; [exact I|].
  cbn [PyStr.lstrip]. destruct (PyStr.is_space c) eqn:Hc; [exact IH | exact Hc].
Qed.

Lemma rstrip_idem (s : string) : PyStr.rstrip (PyStr.rstrip s) = PyStr.rstrip s.
Proof.
  induction s as [|c s IH]; [reflexivity|].
  cbn [PyStr.rstrip].
  destruct (PyStr.is_space c && PyStr.is_empty (PyStr.rstrip s)) eqn:H; [reflexivity|].
  cbn [PyStr.rstrip]. rewrite IH, H. reflexivity.
Qed.

Lemma rstrip_head (c : ascii) (s : string) :
  PyStr.is_space c = false → PyStr.rstrip (String c s) = String c (PyStr.rstrip s).
Proof. intros H. cbn [PyStr.rstrip]. rewrite H. reflexivity. Qed.

Lemma strip_idem (s : string) : PyStr.strip (PyStr.strip s) = PyStr.strip s.
Proof.
  unfold PyStr.strip. pose proof (lstrip_head s) as Hh.
  destruct (PyStr.lstrip s) as [|c t]; [reflexivity|].
  rewrite (rstrip_head c t Hh). cbn [PyStr.lstrip]. rewrite Hh.
  rewrite <- (rstrip_head c t Hh). apply rstrip_idem.
Qed.

End PyStrSpec.

(** ** The parser: files part by part, labels, tabs *)

Module ParserProps.
Import Parser Notions.

Section WithFloat.

Variable py_float : string -> option float.


Abbreviation step := (step py_float).
Abbreviation body_rows := (body_rows py_float).
Abbreviation parse := (parse_experimental_file py_float).

Lemma flush_over d st : flush (over d st) = flush st ∪ d.
Proof.
  unfold flush, over. cbn.
  destruct (open_section (current_section st)) as [s|]; [|reflexivity].
  destruct (current_data st); [reflexivity|].
  rewrite insert_union_l. reflexivity.
Qed.

Lemma step_over d st l : step (over d st) l = over d (step st l).
Proof.
  unfold Parser.step.
  destruct (PyStr.is_empty (PyStr.strip l)); [reflexivity|].
  destruct (PyStr.startswith "plot-" (PyStr.strip l)).
  - rewrite flush_over. reflexivity.
  - cbn [current_section over].
    destruct (open_section (current_section st)); [|reflexivity].
    destruct (row_of_parts py_float (tokens (PyStr.strip l))); reflexivity.
Qed.

Lemma fold_over d ls : ∀ st,
  fold_left step ls (over d st) = over d (fold_left step ls st).
Proof.
  induction ls as [|l ls IH]; intros st; [reflexivity|].
  cbn [fold_left]. rewrite step_over. apply IH.
Qed.

Lemma step_header st h :
  is_header h = true → step st h = mk_pstate (flush st) (Some (PyStr.strip h)) [].
Proof.
  intros Hh. unfold Parser.step.
  rewrite (ParserSpec.is_header_nonempty h Hh). unfold is_header in Hh. rewrite Hh.
  reflexivity.
Qed.

Lemma parse_cut (a b : list string) (h : string) :
  is_header h = true →
  parse (a ++ h :: b) = parse (h :: b) ∪ parse a.
Proof.
  intros Hh. unfold Parser.parse_experimental_file.
  rewrite fold_left_app. cbn [fold_left]. rewrite !step_header by assumption.
  change (flush init) with (∅ : gmap string rows).
  change (mk_pstate (flush (fold_left step a init)) (Some (PyStr.strip h)) [])
    with (mk_pstate (flush (fold_left step a init)) (Some (PyStr.strip h)) []).
  replace (mk_pstate (flush (fold_left step a init)) (Some (PyStr.strip h)) [])
    with (over (flush (fold_left step a init)) (mk_pstate ∅ (Some (PyStr.strip h)) [])).
  2:{ unfold over. cbn. rewrite (left_id_L ∅ (∪)). reflexivity. }
  rewrite fold_over, flush_over. reflexivity.
Qed.

(** X11: a file cut in front of a header line is parsed part by part:
    the dataset of the whole is the dataset of the part from the header
    on, completed by the dataset of the part before it for the labels the
    later part does not store. *)
Theorem parse_app (a b : list string) (h : string)
    (Hh : is_header h = true) :
  parse (a ++ h :: b) = parse (h :: b) ∪ parse a.
Proof. exact (parse_cut a b h Hh). Qed.

(** X12: the lines in front of the first header line are ignored. *)
Theorem lines_before_first_header (pre rest : list string)
    (Hpre : Forall (λ l, is_header l = false) pre) :
  parse (pre ++ rest) = parse rest.
Proof.
  unfold Parser.parse_experimental_file.
  rewrite fold_left_app, (ParserSpec.fold_no_header py_float pre Hpre). reflexivity.
Qed.

Lemma body_rows_cons (l : string) (body : list string) :
  body_rows (l :: body) =
  match row_of_line py_float l with
  | Some r => r :: body_rows body
  | None => body_rows body
  end.
Proof. reflexivity. Qed.

(** The lines of a section under its header. *)
Lemma fold_body (body : list string) : ∀ d k cd,
  PyStr.is_empty k = false → Forall (λ l, is_header l = false) body →
  fold_left step body (mk_pstate d (Some k) cd) = mk_pstate d (Some k) (cd ++ body_rows body).
Proof.
  induction body as [|l body IH]; intros d k cd Hk Hb.
  - cbn. rewrite app_nil_r. reflexivity.
  - inversion Hb as [|? ? Hl Hb']; subst. cbn [fold_left].
    assert (Hs : step (mk_pstate d (Some k) cd) l =
                 mk_pstate d (Some k)
                   (cd ++ match row_of_line py_float l with Some r => [r] | None => [] end)).
    { unfold Parser.step, Parser.row_of_line.
      destruct (PyStr.is_empty (PyStr.strip l)); [rewrite app_nil_r; reflexivity|].
      unfold is_header in Hl. rewrite Hl. cbn [current_section open_section]. rewrite Hk.
      destruct (row_of_parts py_float (tokens (PyStr.strip l))); [reflexivity|].
      rewrite app_nil_r. reflexivity. }
    rewrite Hs, IH by assumption. f_equal. rewrite <- app_assoc. f_equal.
    rewrite body_rows_cons. destruct (row_of_line py_float l); reflexivity.
Qed.

(** A file that starts with a header and has no other header. *)
Lemma parse_single (h : string) (body : list string) :
  is_header h = true → Forall (λ l, is_header l = false) body →
  parse (h :: body) =
  match body_rows body with
  | [] => ∅
  | _ :: _ => {[ PyStr.strip h := body_rows body ]}
  end.
Proof.
  intros Hh Hb. unfold Parser.parse_experimental_file. cbn [fold_left].
  rewrite step_header by assumption.
  rewrite fold_body; [|apply ParserSpec.is_header_nonempty; assumption | assumption].
  unfold flush. cbn [current_section current_data open_section data app].
  rewrite (ParserSpec.is_header_nonempty h Hh).
  change (flush init) with (∅ : gmap string rows).
  destruct (body_rows body); reflexivity.
Qed.

(** A header whose label is not [k] and the lines under it store nothing
    at [k]. *)
Lemma parse_other_label (ls : list string) (k : string) :
  Forall (λ l, is_header l = true → PyStr.strip l ≠ k) ls → parse ls !! k = None.
Proof.
  intros Hno. destruct (parse ls !! k) as [rws|] eqn:Hk; [|reflexivity].
  apply ParserSpec.parse_stored in Hk as (_ & body & (pre & hdr & post & -> & Hh & Hs & _) & _).
  exfalso. rewrite Forall_forall in Hno. apply (Hno hdr); [|assumption | assumption].
  apply elem_of_app. right. left.
Qed.

(** X13: a section with a data row, followed by no header line of the
    same label, is stored at its label with the rows of its own lines,
    whatever comes before it: of two sections of one label the later one
    with a data row is the one kept. *)
Theorem last_section_stored (pre body post : list string) (hdr : string)
    (Hh : is_header hdr = true)
    (Hbody : Forall (λ l, is_header l = false) body)
    (Hpost : post = [] ∨ ∃ h t, post = h :: t ∧ is_header h = true)
    (Hlast : Forall (λ l, is_header l = true → PyStr.strip l ≠ PyStr.strip hdr) post)
    (Hrows : body_rows body ≠ []) :
  parse (pre ++ hdr :: body ++ post) !! PyStr.strip hdr = Some (body_rows body).
Proof.
  rewrite (parse_cut pre (body ++ post) hdr Hh).
  assert (Hhere : parse (hdr :: body ++ post) !! PyStr.strip hdr = Some (body_rows body)).
  { destruct Hpost as [-> | (h & t & -> & Hh')].
    - rewrite app_nil_r, parse_single by assumption.
      destruct (body_rows body) eqn:Hr; [contradiction|].
      apply lookup_singleton_eq.
    - change (hdr :: body ++ h :: t) with ((hdr :: body) ++ h :: t).
      rewrite (parse_cut (hdr :: body) t h Hh').
      rewrite lookup_union_r by (apply parse_other_label; assumption).
      rewrite parse_single by assumption.
      destruct (body_rows body) eqn:Hr; [contradiction|].
      apply lookup_singleton_eq. }
  apply lookup_union_Some_l. assumption.
Qed.

(** X14: every label of the dataset starts with [plot-], carries no
    white space at either end, and is the stripped text of a line of the
    file. *)
Theorem labels_are_headers (lines : list string) (k : string) (rws : rows)
    (Hk : parse lines !! k = Some rws) :
  PyStr.startswith "plot-" k = true ∧ PyStr.strip k = k ∧
  ∃ hdr, hdr ∈ lines ∧ PyStr.strip hdr = k.
Proof.
  apply ParserSpec.parse_stored in Hk as (_ & body & (pre & hdr & post & -> & Hh & Hs & _) & _).
  subst k. split; [exact Hh|]. split; [apply PyStrSpec.strip_idem|].
  exists hdr. split; [|reflexivity]. apply elem_of_app. right. left.
Qed.


Lemma step_strip st l : step st (PyStr.strip l) = step st l.
Proof. unfold Parser.step. cbv zeta. rewrite PyStrSpec.strip_idem. reflexivity. Qed.

Lemma fold_strip ls : ∀ st,
  fold_left step (map PyStr.strip ls) st = fold_left step ls st.
Proof.
  induction ls as [|l ls IH]; intros st; [reflexivity|].
  cbn [map fold_left]. rewrite step_strip. apply IH.
Qed.

(** X24: white space at the ends of the lines is ignored: the file with
    every line stripped is parsed to the same dataset. *)
Theorem parse_strip_invariant (lines : list string) :
  parse (map PyStr.strip lines) = parse lines.
Proof. unfold Parser.parse_experimental_file. rewrite fold_strip. reflexivity. Qed.

End WithFloat.

(** X15: replacing each tab by two spaces before the split changes
    nothing: the tokens of a line are those of [line.split()]. *)
Theorem tab_replacement_redundant (line : string) :
  Parser.tokens line = PyStr.split line.
Proof. unfold Parser.tokens. apply PyStrSpec.split_replace_tab. Qed.

Lemma parse_app_witness :
  parse_experimental_file PyFloat.py_float ["plot-a"; "1 2"; "plot-b"; "3 4"] =
  parse_experimental_file PyFloat.py_float ["plot-b"; "3 4"] ∪
  parse_experimental_file PyFloat.py_float ["plot-a"; "1 2"].
Proof.
  exact (parse_app PyFloat.py_float ["plot-a"; "1 2"] ["3 4"] "plot-b" eq_refl).
Defined.

Lemma lines_before_first_header_witness :
  parse_experimental_file PyFloat.py_float ["1 2"; "junk"; "plot-a"; "3 4"] =
  parse_experimental_file PyFloat.py_float ["plot-a"; "3 4"].
Proof.
  apply (lines_before_first_header PyFloat.py_float ["1 2"; "junk"] ["plot-a"; "3 4"]).
  repeat constructor.
Defined.

Lemma last_section_stored_witness :
  parse_experimental_file PyFloat.py_float
    ["plot-a"; "9 9"; "plot-a"; "1 2"; "plot-b"; "3 4"] !! "plot-a"
  = Some [(1%float, 2%float)].
Proof.
  apply (last_section_stored PyFloat.py_float ["plot-a"; "9 9"] ["1 2"] ["plot-b"; "3 4"]
           "plot-a").
  - reflexivity.
  - repeat constructor.
  - right. exists "plot-b", ["3 4"]. split; reflexivity.
  - repeat constructor; intros _; vm_compute; discriminate.
  - vm_compute. discriminate.
Defined.

Lemma labels_are_headers_witness :
  PyStr.startswith "plot-" "plot-a" = true ∧ PyStr.strip "plot-a" = "plot-a" ∧
  ∃ hdr, hdr ∈ ["  plot-a "; "1 2"] ∧ PyStr.strip hdr = "plot-a".
Proof.
  apply (labels_are_headers PyFloat.py_float ["  plot-a "; "1 2"] "plot-a"
           [(1%float, 2%float)]).
  vm_compute. reflexivity.
Defined.

End ParserProps.

(** ** The scripts: jet width at a station, metrics of a profile *)

Module CallersSpec.
Import Reader Callers Notions.

Local Open Scope float_scope.

Lemma component_ok (U : list (list float)) (j k : nat) :
  U ≠ [] → Forall (λ v, length v = k) U → (j < k)%nat →
  component U j = Ok (map (λ v, nth j v 0) U).
Proof.
  intros Hne Hk Hj. unfold component, Np.column.
  destruct U as [|v U]; [contradiction|]. inversion Hk; subst. cbn [hd].
  apply Nat.ltb_lt in Hj. rewrite Hj. reflexivity.
Qed.

Lemma component_raise (U : list (list float)) (j k : nat) :
  U ≠ [] → Forall (λ v, length v = k) U → (k <= j)%nat →
  component U j = Raise IndexError.
Proof.
  intros Hne Hk Hj. unfold component, Np.column.
  destruct U as [|v U]; [contradiction|]. inversion Hk; subst. cbn [hd].
  apply Nat.ltb_ge in Hj. rewrite Hj. reflexivity.
Qed.

(** The sample of a table: its rows are as many as its positions, which
    are two or more. *)
Lemma sample_rows (py_float : string → option float)
    (sample_dir : option node) (set_name : string) (time : time_sel) (s : sample) :
  read_openfoam_sample py_float sample_dir set_name time = Ok (Some s) →
  position s ≠ [] ∧ velocity s ≠ [] ∧ length (velocity s) = length (position s).
Proof.
  intros Hread.
  destruct (ReaderProps.sample_dims py_float _ _ _ _ Hread) as (n & k & Hn & _ & Hp & _ & Hv & _).
  repeat split.
  - intros H. rewrite H in Hp. simpl in Hp. lia.
  - intros H. rewrite H in Hv. simpl in Hv. lia.
  - lia.
Qed.

(** X16: at a station whose sample is read, the jet-width step raises
    [IndexError] when the table has fewer than five columns (the velocity
    rows have fewer than three components), and with five columns or more
    it returns, a width or [None]. *)
Theorem station_width_cases (py_float : string → option float)
    (postprocess_dir : option node) (set_name : string) (s : sample) (k : nat)
    (Hread : read_openfoam_sample py_float postprocess_dir set_name LatestTime = Ok (Some s))
    (Hk : Forall (λ v, length v = k) (velocity s)) :
  ((k < 3)%nat → station_jet_width py_float postprocess_dir set_name = Raise IndexError) ∧
  (k = 3%nat → ∃ o, station_jet_width py_float postprocess_dir set_name = Ok o).
Proof.
  destruct (sample_rows py_float _ _ _ _ Hread) as (_ & Hne & Hlen).
  unfold station_jet_width. rewrite Hread. cbn [mbind res_bind].
  split.
  - intros Hlt. rewrite (component_raise _ 2 k Hne Hk) by lia. reflexivity.
  - intros ->. rewrite (component_ok _ 2 3 Hne Hk) by lia. cbn [mbind res_bind].
    apply JetProps.jet_total. intros rs us [= <-] [= <-]. rewrite length_map. lia.
Qed.

Lemma station_width_cases_witness :
  ∃ o, station_jet_width PyFloat.py_float one_table "radial_z_000" = Ok o.
Proof.
  refine (proj2 (station_width_cases PyFloat.py_float one_table "radial_z_000"
                   one_sample 3 _ _) eq_refl).
  - vm_compute. reflexivity.
  - repeat constructor.
Defined.

(** The comparison of a section that holds a row with a sample of three
    velocity components, on the component [j]. *)
Lemma compare_cases (rws : Parser.rows) (s : sample) (j : nat) :
  rws ≠ [] → position s ≠ [] → length (velocity s) = length (position s) →
  Forall (λ v, length v = 3%nat) (velocity s) → (j < 3)%nat →
  ∃ u o, component (velocity s) j = Ok u ∧
    Metrics.calculate_error_metrics
      (Some (to_mm (map fst rws))) (Some (map snd rws))
      (Some (to_mm (position s))) (Some u) = Ok o ∧
    (o = None ↔ Np.any (Metrics.nonzero_mask (map snd rws)) = false).
Proof.
  intros Hrws Hpos Hlen Hk Hj.
  assert (Hne : velocity s ≠ []).
  { intros H. rewrite H in Hlen. destruct (position s); [contradiction | discriminate]. }
  exists (map (λ v, nth j v 0) (velocity s)).
  rewrite (component_ok _ j 3 Hne Hk Hj).
  destruct (Np.any (Metrics.nonzero_mask (map snd rws))) eqn:Hany.
  - destruct (position s) as [|x xp] eqn:Hp; [contradiction|].
    change (to_mm (x :: xp)) with (x * 1000 :: to_mm xp).
    rewrite MetricsSpec.metrics_unfold;
      [|unfold to_mm; rewrite !length_map; reflexivity | assumption].
    destruct (NpSpec.interp_some
                (Np.select_items (Metrics.nonzero_mask (map snd rws)) (to_mm (map fst rws)))
                (x * 1000 :: to_mm xp) (map (λ v, nth j v 0) (velocity s)))
      as (ys & -> & _);
      [discriminate | cbn [length]; unfold to_mm; rewrite !length_map, Hlen; reflexivity |].
    eexists. split; [reflexivity|]. split; [reflexivity|].
    split; discriminate.
  - exists None. split; [reflexivity|]. split; [|split; reflexivity].
    unfold Metrics.calculate_error_metrics.
    destruct (to_mm (position s)) as [|x xp] eqn:Hp.
    { unfold to_mm in Hp. apply map_eq_nil in Hp. contradiction. }
    rewrite Hany. reflexivity.
Qed.

Lemma exp_columns_ok (rws : Parser.rows) :
  rws ≠ [] → exp_columns rws = Ok (map fst rws, map snd rws).
Proof. destruct rws; [contradiction | reflexivity]. Qed.

Lemma all_zero_rows (rws : Parser.rows) :
  Np.any (Metrics.nonzero_mask (map snd rws)) = false
  ↔ Forall (λ p, (snd p =? 0) = true) rws.
Proof.
  rewrite MetricsSpec.any_mask_false. apply Forall_map.
Qed.

Section WithFloat.

Variable py_float : string -> option float.

(** The search on labels that [float] reads raises nothing, and finds
    the section of the first label that names the position. *)
Lemma find_profile_first (needle : string) (z : float)
    (exp_data : list (string * Parser.rows)) :
  Forall (λ it, readable_label py_float needle (fst it)) exp_data →
  ∃ exp_found, find_profile py_float needle exp_data z = Ok exp_found ∧
               first_section py_float needle z exp_data exp_found.
Proof.
  induction 1 as [|[key rws] exp_data Hkey _ IH].
  - exists None. split; [reflexivity | constructor].
  - cbn [find_profile]. cbn [fst] in Hkey.
    assert (Hz : ∃ zk, key_z py_float needle key = Ok zk).
    { unfold key_z. destruct (contains needle key) eqn:Hc; [|eauto].
      destruct (search_at_z key) as [g|] eqn:Hg; [|eauto].
      destruct (Hkey g Hc Hg) as [v ->]. eauto. }
    destruct Hz as [zk Hz]. rewrite Hz. cbn [mbind res_bind].
    assert (Hskip : ¬ names_position py_float needle z key →
              ∃ exp_found, find_profile py_float needle exp_data z = Ok exp_found ∧
                           first_section py_float needle z ((key, rws) :: exp_data) exp_found).
    { intros Hno. destruct IH as (exp_found & Hf & Hfirst). exists exp_found.
      split; [assumption|]. destruct exp_found as [rws'|].
      - destruct Hfirst as (pre & k & post & -> & Hk & Hpre).
        exists ((key, rws) :: pre), k, post. split; [reflexivity|].
        split; [assumption|]. constructor; assumption.
      - constructor; assumption. }
    destruct zk as [z_in_key|].
    + destruct (abs (z_in_key - z) <? tolerance) eqn:Hnear.
      * exists (Some rws). split; [reflexivity|].
        exists [], key, exp_data. split; [reflexivity|]. split; [|constructor].
        exists z_in_key. split; assumption.
      * apply Hskip. intros (z' & Hz' & Hn'). rewrite Hz in Hz'. injection Hz' as <-.
        congruence.
    + apply Hskip. intros (z' & Hz' & _). rewrite Hz in Hz'. discriminate.
Qed.

(** A section the search finds is one of the items. *)
Lemma first_section_item (needle : string) (z : float)
    (exp_data : list (string * Parser.rows)) (rws : Parser.rows) :
  first_section py_float needle z exp_data (Some rws) → ∃ k, In (k, rws) exp_data.
Proof.
  intros (pre & k & post & -> & _). exists k. apply in_elt.
Qed.

(** X17: on the sections of the parsed experimental file, with labels
    whose position [float] reads, and a sample read from a table of five
    columns or more, [plot_radial_profile_comparison] raises nothing: its
    search finds the section of the first label that names a position
    within 0.001 of the station, and it returns no metrics exactly when
    no section is found or every value of the section found is zero. *)
Theorem radial_profile_cases (lines : list string)
    (exp_data : list (string * Parser.rows)) (z : float)
    (sample_dir : option node) (set_name : string) (time : time_sel) (s : sample)
    (Hdict : sections_of py_float lines exp_data)
    (Hlabels : Forall (λ it, readable_label py_float "profile-axial-velocity-at-z" (fst it))
                      exp_data)
    (Hread : read_openfoam_sample py_float sample_dir set_name time = Ok (Some s))
    (Hk : Forall (λ v, length v = 3%nat) (velocity s)) :
  ∃ exp_found o,
    first_section py_float "profile-axial-velocity-at-z" z exp_data exp_found ∧
    plot_radial_profile_comparison py_float exp_data (Some s) z = Ok o ∧
    (o = None ↔
     exp_found = None ∨
     ∃ rws, exp_found = Some rws ∧ Forall (λ p, (snd p =? 0) = true) rws).
Proof.
  destruct (sample_rows py_float _ _ _ _ Hread) as (Hpos & Hne & Hlen).
  destruct (find_profile_first "profile-axial-velocity-at-z" z exp_data Hlabels)
    as (exp_found & Hfind & Hfirst).
  exists exp_found. unfold plot_radial_profile_comparison. rewrite Hfind.
  cbn [mbind res_bind]. unfold radial_profile_metrics.
  destruct exp_found as [rws|].
  2:{ rewrite (component_ok _ 2 3 Hne Hk) by lia.
      exists None. split; [assumption|]. split; [reflexivity|]. split; auto. }
  destruct (first_section_item _ _ _ _ Hfirst) as [k Hin].
  apply Hdict, ParserSpec.parse_stored in Hin as [Hrws _].
  destruct (compare_cases rws s 2 Hrws Hpos Hlen Hk) as (u & o & Hu & Hm & Ho); [lia|].
  rewrite (exp_columns_ok rws Hrws). cbn [mbind res_bind fst snd].
  rewrite Hu. cbn [mbind res_bind]. rewrite Hm. cbn [mbind res_bind].
  exists o. split; [assumption|]. split; [reflexivity|]. rewrite Ho, all_zero_rows. split.
  - intros H. right. exists rws. split; [reflexivity | assumption].
  - intros [H | (rws' & [= <-] & H)]; [discriminate | assumption].
Qed.

(** X18: [plot_radial_velocity_profile], which tests the mask before it
    calls the metrics and compares the second velocity component, behaves
    in the same way under the same conditions: it raises nothing, finds
    the section of the first label that names a position within 0.001 of
    the station, and returns no metrics exactly when no section is found
    or every value of the section found is zero. *)
Theorem radial_velocity_cases (lines : list string)
    (exp_data : list (string * Parser.rows)) (z : float)
    (sample_dir : option node) (set_name : string) (time : time_sel) (s : sample)
    (Hdict : sections_of py_float lines exp_data)
    (Hlabels : Forall (λ it, readable_label py_float "profile-radial-velocity-at-z" (fst it))
                      exp_data)
    (Hread : read_openfoam_sample py_float sample_dir set_name time = Ok (Some s))
    (Hk : Forall (λ v, length v = 3%nat) (velocity s)) :
  ∃ exp_found o,
    first_section py_float "profile-radial-velocity-at-z" z exp_data exp_found ∧
    plot_radial_velocity_profile py_float exp_data (Some s) z = Ok o ∧
    (o = None ↔
     exp_found = None ∨
     ∃ rws, exp_found = Some rws ∧ Forall (λ p, (snd p =? 0) = true) rws).
Proof.
  destruct (sample_rows py_float _ _ _ _ Hread) as (Hpos & Hne & Hlen).
  destruct (find_profile_first "profile-radial-velocity-at-z" z exp_data Hlabels)
    as (exp_found & Hfind & Hfirst).
  exists exp_found. unfold plot_radial_velocity_profile. rewrite Hfind.
  cbn [mbind res_bind]. unfold radial_velocity_metrics.
  destruct exp_found as [rws|].
  2:{ rewrite (component_ok _ 1 3 Hne Hk) by lia.
      exists None. split; [assumption|]. split; [reflexivity|]. split; auto. }
  destruct (first_section_item _ _ _ _ Hfirst) as [k Hin].
  apply Hdict, ParserSpec.parse_stored in Hin as [Hrws _].
  destruct (compare_cases rws s 1 Hrws Hpos Hlen Hk) as (u & o & Hu & Hm & Ho); [lia|].
  rewrite (exp_columns_ok rws Hrws). cbn [mbind res_bind fst snd].
  rewrite Hu.
  destruct (Np.any (Metrics.nonzero_mask (map snd rws))) eqn:Hany.
  - cbn [mbind res_bind]. rewrite Hm. cbn [mbind res_bind].
    exists o. split; [assumption|]. split; [reflexivity|]. rewrite Ho. split; [discriminate|].
    intros [H | (rws' & [= <-] & H)]; [discriminate|].
    apply all_zero_rows in H. congruence.
  - cbn [mbind res_bind]. exists None. split; [assumption|]. split; [reflexivity|].
    split; [|reflexivity]. intros _. right. exists rws. split; [reflexivity|].
    apply all_zero_rows. assumption.
Qed.

(** X26: a label that holds the text the search looks for and matches
    its pattern with a group [float] does not read, such as a position
    written [0.008.], makes the search raise [ValueError] when no label
    listed before it raises or names the position; both profile functions
    raise it, whatever the sample. *)
Theorem unreadable_label_raises (needle : string) (z : float)
    (pre post : list (string * Parser.rows)) (k g : string) (rws : Parser.rows)
    (Hneedle : contains needle k = true)
    (Hgroup : search_at_z k = Some g)
    (Hfloat : py_float g = None)
    (Hpre : Forall (λ it, readable_label py_float needle (fst it) ∧
                          ¬ names_position py_float needle z (fst it)) pre) :
  find_profile py_float needle (pre ++ (k, rws) :: post) z = Raise ValueError ∧
  (needle = "profile-axial-velocity-at-z" → ∀ sim,
     plot_radial_profile_comparison py_float (pre ++ (k, rws) :: post) sim z
     = Raise ValueError) ∧
  (needle = "profile-radial-velocity-at-z" → ∀ sim,
     plot_radial_velocity_profile py_float (pre ++ (k, rws) :: post) sim z
     = Raise ValueError).
Proof.
  assert (Hfind : find_profile py_float needle (pre ++ (k, rws) :: post) z = Raise ValueError).
  { induction Hpre as [|[key rws'] pre [Hkey Hno] _ IH].
    - cbn [app find_profile]. unfold key_z. rewrite Hneedle, Hgroup, Hfloat. reflexivity.
    - cbn [app find_profile]. cbn [fst] in Hkey, Hno.
      assert (Hz : ∃ zk, key_z py_float needle key = Ok zk).
      { unfold key_z. destruct (contains needle key) eqn:Hc; [|eauto].
        destruct (search_at_z key) as [g'|] eqn:Hg; [|eauto].
        destruct (Hkey g' Hc Hg) as [v ->]. eauto. }
      destruct Hz as [zk Hz]. rewrite Hz. cbn [mbind res_bind].
      destruct zk as [z_in_key|]; [|exact IH].
      destruct (abs (z_in_key - z) <? tolerance) eqn:Hnear; [|exact IH].
      exfalso. apply Hno. exists z_in_key. split; assumption. }
  split; [exact Hfind|]. split.
  - intros -> sim. unfold plot_radial_profile_comparison. rewrite Hfind. reflexivity.
  - intros -> sim. unfold plot_radial_velocity_profile. rewrite Hfind. reflexivity.
Qed.

End WithFloat.

Lemma radial_profile_cases_witness :
  ∃ exp_found o,
    first_section PyFloat.py_float "profile-axial-velocity-at-z" 0 one_dict exp_found ∧
    plot_radial_profile_comparison PyFloat.py_float one_dict (Some one_sample) 0 = Ok o ∧
    (o = None ↔
     exp_found = None ∨
     ∃ rws, exp_found = Some rws ∧ Forall (λ p, (snd p =? 0) = true) rws).
Proof.
  apply (radial_profile_cases PyFloat.py_float one_section one_dict 0
           one_table "radial_z_000" LatestTime one_sample).
  - intros k rws [[= <- <-] | []]. vm_compute. reflexivity.
  - repeat constructor. intros g _ Hg. vm_compute in Hg. injection Hg as <-.
    eexists. vm_compute. reflexivity.
  - vm_compute. reflexivity.
  - repeat constructor.
Defined.

Lemma radial_velocity_cases_witness :
  ∃ exp_found o,
    first_section PyFloat.py_float "profile-radial-velocity-at-z" 0
      [("plot-profile-radial-velocity-at-z 0.0", [(0, 4); (0x1p-1, 3)])] exp_found ∧
    plot_radial_velocity_profile PyFloat.py_float
      [("plot-profile-radial-velocity-at-z 0.0", [(0, 4); (0x1p-1, 3)])]
      (Some one_sample) 0 = Ok o ∧
    (o = None ↔
     exp_found = None ∨
     ∃ rws, exp_found = Some rws ∧ Forall (λ p, (snd p =? 0) = true) rws).
Proof.
  apply (radial_velocity_cases PyFloat.py_float
           ["plot-profile-radial-velocity-at-z 0.0"; "0.0  4.0"; "0.5  3.0"]
           [("plot-profile-radial-velocity-at-z 0.0", [(0, 4); (0x1p-1, 3)])] 0
           one_table "radial_z_000" LatestTime one_sample).
  - intros k rws [[= <- <-] | []]. vm_compute. reflexivity.
  - repeat constructor. intros g _ Hg. vm_compute in Hg. injection Hg as <-.
    eexists. vm_compute. reflexivity.
  - vm_compute. reflexivity.
  - repeat constructor.
Defined.

(** A label whose position ends with a dot. *)
Lemma unreadable_label_raises_witness :
  find_profile PyFloat.py_float "profile-axial-velocity-at-z"
    [("plot-profile-axial-velocity-at-z 0.008.", [(0, 4)])] 0 = Raise ValueError ∧
  ("profile-axial-velocity-at-z" = "profile-axial-velocity-at-z" → ∀ sim,
     plot_radial_profile_comparison PyFloat.py_float
       [("plot-profile-axial-velocity-at-z 0.008.", [(0, 4)])] sim 0 = Raise ValueError) ∧
  ("profile-axial-velocity-at-z" = "profile-radial-velocity-at-z" → ∀ sim,
     plot_radial_velocity_profile PyFloat.py_float
       [("plot-profile-axial-velocity-at-z 0.008.", [(0, 4)])] sim 0 = Raise ValueError).
Proof.
  apply (unreadable_label_raises PyFloat.py_float "profile-axial-velocity-at-z" 0
           [] [] "plot-profile-axial-velocity-at-z 0.008." "0.008." [(0, 4)]).
  - vm_compute. reflexivity.
  - vm_compute. reflexivity.
  - vm_compute. reflexivity.
  - constructor.
Defined.

End CallersSpec.

(** ** The master script: the data check and the sync *)

Module OrchestratorSpec.
Import Reader Orchestrator Notions.

Lemma endswith_app (a suf b : string) :
  endswith suf b = true → endswith suf (a ++ b) = true.
Proof.
  intros Hb. induction a as [|c a IH].
  - exact Hb.
  - change (String c a ++ b)%string with (String c (a ++ b)%string).
    cbn [endswith]. rewrite IH. apply orb_true_r.
Qed.

Lemma has_xy_entry (es : list (string * node)) (name : string) (c : node) :
  In (name, c) es → endswith ".xy" name = true ∨ has_xy c = true →
  has_xy (Dir es) = true.
Proof.
  intros Hin Hc. induction es as [|[nm c'] es IH]; [contradiction|].
  cbn [has_xy]. destruct Hin as [[= -> ->] | Hin].
  - destruct Hc as [-> | ->]; [reflexivity | rewrite orb_true_r; reflexivity].
  - apply IH in Hin. cbn [has_xy] in Hin. rewrite Hin. apply orb_true_r.
Qed.

Lemma lookup_In (name : string) (es : list (string * node)) (n : node) :
  lookup name es = Some n → In (name, n) es.
Proof.
  induction es as [|[nm c] es IH]; [discriminate|]. cbn [lookup].
  destruct (String.eqb_spec nm name) as [-> | Hne].
  - intros [= ->]. left. reflexivity.
  - intros H. right. apply IH. assumption.
Qed.

(** A table file in a selected time directory is seen by the check. *)
Lemma table_has_data (py_float : string → option float)
    (sample_dir : option node) (set_name : string) (time : time_sel)
    (d : string * node) (n : node) :
  select_time_dir py_float sample_dir time = Ok (Some d) →
  child (Some (snd d)) (xy_name set_name) = Some n →
  has_data sample_dir = true.
Proof.
  intros Hsel Hfile.
  assert (Hd : ∃ es, sample_dir = Some (Dir es) ∧ In d es).
  { destruct time as [|name].
    - destruct (ReaderProps.latest_in_root py_float _ _ Hsel) as (es & -> & Hin & _).
      exists es. split; [reflexivity|]. apply list_elem_of_In. assumption.
    - cbn in Hsel. destruct sample_dir as [[c|es]|]; try discriminate.
      cbn in Hsel. destruct (lookup name es) as [m|] eqn:Hl; [|discriminate].
      injection Hsel as <-. exists es. split; [reflexivity|]. apply lookup_In. assumption. }
  destruct Hd as (es & -> & Hin). destruct d as [name td]. cbn [snd] in Hfile.
  destruct td as [c|es2]; [discriminate|]. cbn in Hfile. apply lookup_In in Hfile.
  cbn [has_data]. apply (has_xy_entry es name (Dir es2) Hin). right.
  apply (has_xy_entry es2 _ n Hfile). left. apply endswith_app. reflexivity.
Qed.

(** X19: whenever [read_openfoam_sample] returns a sample from a
    directory, the check of [main] for a file named [*.xy] below that
    directory succeeds: the analyses are not refused on data a script can
    read. *)
Theorem sample_found_has_data (py_float : string → option float)
    (sample_dir : option node) (set_name : string) (time : time_sel) (s : sample)
    (Hread : read_openfoam_sample py_float sample_dir set_name time = Ok (Some s)) :
  has_data sample_dir = true.
Proof.
  unfold read_openfoam_sample in Hread.
  destruct (select_time_dir py_float sample_dir time) as [[d|]|] eqn:Hsel; try discriminate.
  destruct d as [name time_dir]. cbn -[child xy_name Np.loadtxt] in Hread.
  destruct (child (Some time_dir) (xy_name set_name)) as [n|] eqn:Hfile; [|discriminate].
  exact (table_has_data py_float sample_dir set_name time (name, time_dir) n Hsel Hfile).
Qed.

Lemma sample_found_has_data_witness : has_data one_table = true.
Proof.
  apply (sample_found_has_data PyFloat.py_float one_table "radial_z_000" LatestTime
           one_sample).
  vm_compute. reflexivity.
Defined.

Lemma lookup_app (name : string) (a b : list (string * node)) :
  lookup name (a ++ b) = match lookup name a with Some n => Some n | None => lookup name b end.
Proof.
  induction a as [|[nm c] a IH]; [reflexivity|]. cbn [app lookup].
  destruct (String.eqb nm name); [reflexivity | exact IH].
Qed.

Lemma lookup_rmtree_eq (name : string) (ds : list (string * node)) :
  lookup name (rmtree name ds) = None.
Proof.
  unfold rmtree. induction ds as [|[nm c] ds IH]; [reflexivity|].
  rewrite filter_cons. destruct (decide (fst (nm, c) ≠ name)) as [Hne | Heq]; [|exact IH].
  cbn [lookup]. cbn [fst] in Hne. destruct (String.eqb_spec nm name); [contradiction | exact IH].
Qed.

Lemma lookup_rmtree_ne (n name : string) (ds : list (string * node)) :
  n ≠ name → lookup name (rmtree n ds) = lookup name ds.
Proof.
  intros Hne. unfold rmtree. induction ds as [|[nm c] ds IH]; [reflexivity|].
  rewrite filter_cons. destruct (decide (fst (nm, c) ≠ n)) as [Hn | Hn]; cbn [fst] in Hn.
  - cbn [lookup]. rewrite IH. reflexivity.
  - cbn [lookup]. destruct (String.eqb_spec nm name) as [-> | _]; [|exact IH].
    exfalso. apply Hn. intros ->. apply Hne. reflexivity.
Qed.

(** The destination after the loop: a time directory of the source is
    there as it is in the source, and the other names are as before. *)
Lemma sync_items_dir (items : list (string * node)) :
  NoDup (map fst items) →
  ∀ ds count dest' count',
    sync_items items (Dir ds) count = Ok (dest', count') →
    ∃ ds', dest' = Dir ds' ∧ ∀ name,
      (∀ item, In (name, item) items → is_dir item && numeric_name name = true →
         lookup name ds' = Some item) ∧
      ((∀ item, In (name, item) items → is_dir item && numeric_name name = false) →
         lookup name ds' = lookup name ds).
Proof.
  induction items as [|[n it0] items IH]; intros Hnd ds count dest' count' Hs.
  - injection Hs as <- <-. exists ds. split; [reflexivity|]. intros name. split.
    + intros item [].
    + reflexivity.
  - cbn [map fst] in Hnd. apply NoDup_cons in Hnd as [Hn Hnd]. cbn [sync_items] in Hs.
    destruct (is_dir it0 && numeric_name n) eqn:Hflag.
    + assert (Hstep : sync_items items (Dir (rmtree n ds ++ [(n, it0)])) (S count)
                      = Ok (dest', count')).
      { destruct (lookup n ds) as [[c|es]|]; [discriminate | exact Hs | exact Hs]. }
      destruct (IH Hnd _ _ _ _ Hstep) as (ds' & -> & Hds'). exists ds'.
      split; [reflexivity|]. intros name. destruct (Hds' name) as [H1 H2]. split.
      * intros item [[= -> ->] | Hin] Hf.
        -- rewrite H2.
           ++ rewrite lookup_app, lookup_rmtree_eq. cbn [lookup].
              rewrite String.eqb_refl. reflexivity.
           ++ intros item' Hin'. exfalso. apply Hn. apply list_elem_of_In.
              apply (in_map fst) in Hin'. exact Hin'.
        -- apply H1; assumption.
      * intros Hall. assert (Hne : n ≠ name).
        { intros ->. specialize (Hall it0 (or_introl eq_refl)). congruence. }
        rewrite H2.
        -- rewrite lookup_app, lookup_rmtree_ne by assumption.
           destruct (lookup name ds); [reflexivity|]. cbn [lookup].
           destruct (String.eqb_spec n name); [contradiction | reflexivity].
        -- intros item Hin. apply Hall. right. assumption.
    + destruct (IH Hnd _ _ _ _ Hs) as (ds' & -> & Hds'). exists ds'.
      split; [reflexivity|]. intros name. destruct (Hds' name) as [H1 H2]. split.
      * intros item [[= -> ->] | Hin] Hf; [congruence | apply H1; assumption].
      * intros Hall. apply H2. intros item Hin. apply Hall. right. assumption.
Qed.

(** The count after the loop. *)
Lemma sync_items_count (items : list (string * node)) :
  ∀ dest count dest' count',
    sync_items items dest count = Ok (dest', count') →
    count' = count + length (List.filter (λ e, is_dir (snd e) && numeric_name (fst e)) items).
Proof.
  induction items as [|[n it0] items IH]; intros dest count dest' count' Hs.
  - injection Hs as <- <-. cbn. lia.
  - cbn [sync_items] in Hs. cbn [List.filter fst snd].
    destruct (is_dir it0 && numeric_name n) eqn:Hflag.
    + cbn [length]. destruct dest as [c|ds].
      * apply IH in Hs. lia.
      * destruct (lookup n ds) as [[c|es]|]; [discriminate | |]; apply IH in Hs; lia.
    + apply IH in Hs. lia.
Qed.

(** X20: after a sync into a destination that is a directory or does not
    exist, a subdirectory of the source with a numeric name is in the
    destination as it is in the source, the sync returns [True], and the
    reader asked for that time returns from the destination what it
    returns from the source, for every location. *)
Theorem sync_round_trip (py_float : string → option float)
    (items : list (string * node)) (dest_dir : option node)
    (flag : bool) (dest' : option node) (name : string) (item : node)
    (Hnames : NoDup (map fst items))
    (Hdest : ∀ c, dest_dir ≠ Some (File c))
    (Hsync : sync_simulation_data (Some (Dir items)) dest_dir = Ok (flag, dest'))
    (Hin : In (name, item) items)
    (Htime : is_dir item && numeric_name name = true) :
  flag = true ∧ child dest' name = Some item ∧
  ∀ set_name,
    read_openfoam_sample py_float dest' set_name (AtTime name)
    = read_openfoam_sample py_float (Some (Dir items)) set_name (AtTime name).
Proof.
  unfold sync_simulation_data in Hsync. cbn [iterdir mbind res_bind] in Hsync.
  set (d := match dest_dir with Some d => d | None => Dir [] end) in Hsync.
  destruct (sync_items items d 0) as [[d' count']|e] eqn:Hs; [|discriminate].
  cbn [fst snd] in Hsync. injection Hsync as <- <-.
  assert (Hd : ∃ ds, d = Dir ds).
  { subst d. destruct dest_dir as [[c|ds]|]; [destruct (Hdest c eq_refl) | |]; eauto. }
  destruct Hd as [ds Hd]. rewrite Hd in Hs.
  pose proof (sync_items_count _ _ _ _ _ Hs) as Hc.
  destruct (sync_items_dir items Hnames _ _ _ _ Hs) as (ds' & -> & Hds').
  destruct (Hds' name) as [H1 _]. specialize (H1 item Hin Htime).
  pose proof (ReaderProps.lookup_unique items name item Hnames Hin) as Hsrc.
  split; [|split].
  - assert (Hpos : 0 < length (List.filter (λ e, is_dir (snd e) && numeric_name (fst e)) items)).
    { assert (Hf : In (name, item) (List.filter (λ e, is_dir (snd e) && numeric_name (fst e)) items)).
      { apply filter_In. split; assumption. }
      destruct (List.filter _ items); [contradiction | cbn; lia]. }
    destruct count'; [lia | reflexivity].
  - exact H1.
  - intros set_name. unfold read_openfoam_sample, select_time_dir. cbn [child].
    rewrite H1, Hsrc. reflexivity.
Qed.

Lemma sync_round_trip_witness :
  true = true ∧
  child (Some (Dir [("notes", File "x"); ("10", Dir [("a_p_U.xy", File "0 1")])])) "10"
    = Some (Dir [("a_p_U.xy", File "0 1")]) ∧
  ∀ set_name,
    read_openfoam_sample PyFloat.py_float
      (Some (Dir [("notes", File "x"); ("10", Dir [("a_p_U.xy", File "0 1")])]))
      set_name (AtTime "10")
    = read_openfoam_sample PyFloat.py_float
        (Some (Dir [("10", Dir [("a_p_U.xy", File "0 1")]); ("log", Dir [])]))
        set_name (AtTime "10").
Proof.
  apply (sync_round_trip PyFloat.py_float
           [("10", Dir [("a_p_U.xy", File "0 1")]); ("log", Dir [])]
           (Some (Dir [("notes", File "x"); ("10", Dir [])]))
           true
           (Some (Dir [("notes", File "x"); ("10", Dir [("a_p_U.xy", File "0 1")])]))
           "10" (Dir [("a_p_U.xy", File "0 1")])).
  - apply (bool_decide_unpack _). vm_compute. exact I.
  - discriminate.
  - vm_compute. reflexivity.
  - left. reflexivity.
  - vm_compute. reflexivity.
Defined.

(** X21: a sync into a destination that is a directory or does not exist
    leaves every entry of the destination as it was, but those named as a
    subdirectory of the source with a numeric name. *)
Theorem sync_keeps_other_entries
    (items : list (string * node)) (dest_dir : option node)
    (flag : bool) (dest' : option node) (name : string)
    (Hnames : NoDup (map fst items))
    (Hdest : ∀ c, dest_dir ≠ Some (File c))
    (Hsync : sync_simulation_data (Some (Dir items)) dest_dir = Ok (flag, dest'))
    (Hother : ∀ item, In (name, item) items → is_dir item && numeric_name name = false) :
  child dest' name = child dest_dir name.
Proof.
  unfold sync_simulation_data in Hsync. cbn [iterdir mbind res_bind] in Hsync.
  set (d := match dest_dir with Some d => d | None => Dir [] end) in Hsync.
  destruct (sync_items items d 0) as [[d' count']|e] eqn:Hs; [|discriminate].
  cbn [fst snd] in Hsync. injection Hsync as <- <-.
  destruct dest_dir as [[c|ds]|]; [destruct (Hdest c eq_refl) | |]; subst d.
  - destruct (sync_items_dir items Hnames _ _ _ _ Hs) as (ds' & -> & Hds').
    destruct (Hds' name) as [_ H2]. cbn [child]. apply H2. exact Hother.
  - destruct (sync_items_dir items Hnames _ _ _ _ Hs) as (ds' & -> & Hds').
    destruct (Hds' name) as [_ H2]. cbn [child]. rewrite H2 by exact Hother. reflexivity.
Qed.

Lemma sync_keeps_other_entries_witness :
  child (Some (Dir [("notes", File "x"); ("10", Dir [("a_p_U.xy", File "0 1")])])) "notes"
  = child (Some (Dir [("notes", File "x"); ("10", Dir [])])) "notes".
Proof.
  apply (sync_keeps_other_entries
           [("10", Dir [("a_p_U.xy", File "0 1")]); ("log", Dir [])]
           (Some (Dir [("notes", File "x"); ("10", Dir [])]))
           true
           (Some (Dir [("notes", File "x"); ("10", Dir [("a_p_U.xy", File "0 1")])]))
           "notes").
  - apply (bool_decide_unpack _). vm_compute. exact I.
  - discriminate.
  - vm_compute. reflexivity.
  - intros item [H | [H | []]]; discriminate.
Defined.

Lemma lookup_None (name : string) (es : list (string * node)) (n : node) :
  lookup name es = None → ¬ In (name, n) es.
Proof.
  induction es as [|[nm c] es IH]; intros Hl Hin; [contradiction|].
  cbn [lookup] in Hl. destruct (String.eqb_spec nm name) as [-> | Hne]; [discriminate|].
  destruct Hin as [[= -> _] | Hin]; [contradiction | exact (IH Hl Hin)].
Qed.

(** The loop raises nothing when no regular file is in the place of a
    target. *)
Lemma sync_items_ok (items : list (string * node)) : ∀ ds count,
  (∀ name item, In (name, item) items → is_dir item && numeric_name name = true →
     ∀ c, lookup name ds ≠ Some (File c)) →
  ∃ r, sync_items items (Dir ds) count = Ok r.
Proof.
  induction items as [|[n it0] items IH]; intros ds count Hfree.
  - eexists. reflexivity.
  - cbn [sync_items]. destruct (is_dir it0 && numeric_name n) eqn:Hflag.
    + assert (Hstep : ∃ r, sync_items items (Dir (rmtree n ds ++ [(n, it0)])) (S count) = Ok r).
      { apply IH. intros name item Hin Hf c. rewrite lookup_app.
        destruct (String.eqb_spec n name) as [-> | Hne].
        - rewrite lookup_rmtree_eq. cbn [lookup]. rewrite String.eqb_refl.
          apply andb_true_iff in Hflag as [Hd _]. destruct it0; [discriminate|]. discriminate.
        - rewrite lookup_rmtree_ne by assumption.
          destruct (lookup name ds) as [m|] eqn:Hl.
          + intros [= ->]. apply (Hfree name item (or_intror Hin) Hf c). assumption.
          + cbn [lookup]. destruct (String.eqb_spec n name); [contradiction | discriminate]. }
      destruct (lookup n ds) as [[c|es]|] eqn:Hl; [|exact Hstep | exact Hstep].
      exfalso. apply (Hfree n it0 (or_introl eq_refl) Hflag c). assumption.
    + apply IH. intros name item Hin. apply Hfree. right. assumption.
Qed.

(** X25: a sync is repeatable: run again on the destination it left, it
    raises nothing, returns the same, and leaves every entry of the
    destination as the first run left it. *)
Theorem sync_idempotent
    (items : list (string * node)) (dest_dir : option node)
    (flag : bool) (dest' : option node)
    (Hnames : NoDup (map fst items))
    (Hdest : ∀ c, dest_dir ≠ Some (File c))
    (Hsync : sync_simulation_data (Some (Dir items)) dest_dir = Ok (flag, dest')) :
  ∃ dest'', sync_simulation_data (Some (Dir items)) dest' = Ok (flag, dest'') ∧
            ∀ name, child dest'' name = child dest' name.
Proof.
  unfold sync_simulation_data in Hsync. cbn [iterdir mbind res_bind] in Hsync.
  set (d := match dest_dir with Some d => d | None => Dir [] end) in Hsync.
  destruct (sync_items items d 0) as [[d' count']|e] eqn:Hs; [|discriminate].
  cbn [fst snd] in Hsync. injection Hsync as <- <-.
  assert (Hd : ∃ ds, d = Dir ds).
  { subst d. destruct dest_dir as [[c|ds]|]; [destruct (Hdest c eq_refl) | |]; eauto. }
  destruct Hd as [ds Hd]. rewrite Hd in Hs.
  pose proof (sync_items_count _ _ _ _ _ Hs) as Hc.
  destruct (sync_items_dir items Hnames _ _ _ _ Hs) as (ds' & -> & Hds').
  destruct (sync_items_ok items ds' 0) as [[d2 count2] Hs2].
  { intros name item Hin Hf c. destruct (Hds' name) as [H1 _].
    rewrite (H1 item Hin Hf). apply andb_true_iff in Hf as [Hdir _].
    destruct item; discriminate. }
  pose proof (sync_items_count _ _ _ _ _ Hs2) as Hc2.
  destruct (sync_items_dir items Hnames _ _ _ _ Hs2) as (ds2 & -> & Hds2).
  exists (Some (Dir ds2)). unfold sync_simulation_data.
  cbn [iterdir mbind res_bind]. rewrite Hs2. cbn [mbind res_bind fst snd].
  split; [rewrite Hc, Hc2; reflexivity|].
  intros name. cbn [child].
  destruct (Hds' name) as [H1 _]. destruct (Hds2 name) as [G1 G2].
  destruct (lookup name items) as [item|] eqn:Hl.
  - pose proof (lookup_In _ _ _ Hl) as Hin.
    destruct (is_dir item && numeric_name name) eqn:Hf.
    + rewrite (G1 item Hin Hf), (H1 item Hin Hf). reflexivity.
    + apply G2. intros item' Hin'.
      pose proof (ReaderProps.lookup_unique items name item' Hnames Hin') as Hl'.
      rewrite Hl in Hl'. injection Hl' as <-. exact Hf.
  - apply G2. intros item' Hin'. destruct (lookup_None _ _ item' Hl Hin').
Qed.

Lemma sync_idempotent_witness :
  ∃ dest'',
    sync_simulation_data (Some (Dir [("10", Dir [("a_p_U.xy", File "0 1")]); ("log", Dir [])]))
      (Some (Dir [("notes", File "x"); ("10", Dir [("a_p_U.xy", File "0 1")])]))
    = Ok (true, dest'') ∧
    ∀ name, child dest'' name
            = child (Some (Dir [("notes", File "x"); ("10", Dir [("a_p_U.xy", File "0 1")])]))
                name.
Proof.
  apply (sync_idempotent
           [("10", Dir [("a_p_U.xy", File "0 1")]); ("log", Dir [])]
           (Some (Dir [("notes", File "x"); ("10", Dir [])]))
           true
           (Some (Dir [("notes", File "x"); ("10", Dir [("a_p_U.xy", File "0 1")])]))).
  - apply (bool_decide_unpack _). vm_compute. exact I.
  - discriminate.
  - vm_compute. reflexivity.
Defined.

(** X22: when [sync_simulation_data] returns, it returns [True] exactly
    when the source is a directory with a subdirectory of numeric name,
    whether or not its copy reached the destination. *)
Theorem sync_reports_time_directories
    (source_dir dest_dir : option node) (flag : bool) (dest' : option node)
    (Hsync : sync_simulation_data source_dir dest_dir = Ok (flag, dest')) :
  flag = true ↔
  ∃ items name item, source_dir = Some (Dir items) ∧ In (name, item) items ∧
    is_dir item = true ∧ numeric_name name = true.
Proof.
  unfold sync_simulation_data in Hsync. destruct source_dir as [[c|items]|].
  - discriminate.
  - cbn [iterdir mbind res_bind] in Hsync.
    destruct (sync_items items _ 0) as [[d' count']|e] eqn:Hs; [|discriminate].
    cbn [fst snd] in Hsync. injection Hsync as <- <-.
    apply sync_items_count in Hs. cbn [Nat.add] in Hs. split.
    + intros Hflag.
      destruct (List.filter _ items) as [|[name item] l] eqn:Hf.
      { subst count'. discriminate. }
      assert (Hin : In (name, item) (List.filter (λ e, is_dir (snd e) && numeric_name (fst e)) items)).
      { rewrite Hf. left. reflexivity. }
      apply filter_In in Hin as [Hin Hb]. cbn [fst snd] in Hb.
      apply andb_true_iff in Hb as [Hd Hn]. exists items, name, item. auto.
    + intros (items' & name & item & [= <-] & Hin & Hd & Hn).
      assert (Hf : In (name, item) (List.filter (λ e, is_dir (snd e) && numeric_name (fst e)) items)).
      { apply filter_In. split; [assumption|]. cbn [fst snd]. rewrite Hd, Hn. reflexivity. }
      destruct (List.filter _ items); [contradiction|]. subst count'. reflexivity.
  - injection Hsync as <- <-. split; [discriminate|].
    intros (items' & name & item & [=] & _).
Qed.

Lemma sync_reports_time_directories_witness :
  false = true ↔
  ∃ items name item, Some (Dir [("log", Dir []); ("0.5", File "x")]) = Some (Dir items) ∧
    In (name, item) items ∧ is_dir item = true ∧ numeric_name name = true.
Proof.
  apply (sync_reports_time_directories
           (Some (Dir [("log", Dir []); ("0.5", File "x")])) (Some (File "y"))
           false (Some (File "y"))).
  vm_compute. reflexivity.
Defined.

End OrchestratorSpec.
